(** * Insurance document analyzer: the client-side analysis lifecycle

    A shallow embedding of the React front end (upload validation, status
    and progress polling, findings pagination, the chat panel, the module
    level file slot and the base-URL resolution) and the properties of the
    natural-language specification checked against it.

    Conventions of the embedding.
    - A component is a record of its [useState] cells, of the query data it
      observes and of the effects it has on the outside: the log of issued
      requests and the list of toasts shown.  An event handler is a function
      on that record.
    - An [async] handler is cut at its [await]: one function for the part
      that runs up to the request, one for the continuation that runs when
      the promise settles, taking the settled value as an argument.
    - [new Date()] and [Date.now()] read the [now] argument or field.
    - A [useQuery] hook is the cache of its query and the marks of its
      fetches under way.  The status and the progress query fetch when
      they become enabled or their key changes and on a tick of
      [refetchInterval], unless a fetch of the query is under way, which
      the library joins instead of calling the query function again;
      [refetch()] starts a fetch whether the query is enabled or not; after
      a failed attempt the library calls the query function again, up to
      [retry] times, before it stores the error.  The timers of the library
      and of the page fire as events.
    - A JavaScript string is the Rocq string of its UTF-8 bytes, a
      surrogate that stands alone written as the three bytes of its code
      point; integers are [Z]; a number of a JSON document that need not
      be an integer is a rational; a value of a JSON document whose type
      the code does not fix is a [JS.Value]. *)

From Stdlib Require Import ZArith QArith String Ascii List Bool Lia.
From Stdlib Require Import DecimalString DecimalPos DecimalZ.
Import ListNotations.
Open Scope string_scope.
Open Scope Z_scope.

(** ** The JavaScript built-ins the sources use *)

Module JS.

(** [s.includes(search)] *)
Fixpoint includes (s search : string) : bool :=
  String.prefix search s
  || match s with
     | EmptyString => false
     | String _ rest => includes rest search
     end.

(** [s.endsWith(suffix)] *)
Definition endsWith (s suffix : string) : bool :=
  let n := String.length s in
  let k := String.length suffix in
  (k <=? n)%nat && String.eqb (String.substring (n - k) k s) suffix.

(** The number of bytes of the character whose first byte is [c]. *)
Definition charBytes (c : ascii) : nat :=
  let n := N_of_ascii c in
  if (n <? 192)%N then 1%nat
  else if (n <? 224)%N then 2%nat
  else if (n <? 240)%N then 3%nat
  else 4%nat.

(** The first code unit of a character of four bytes [c1 c2 c3 _], which
    takes two code units: the high surrogate, as the three bytes of its
    code point. *)
Definition highSurrogate (c1 c2 c3 : ascii) : string :=
  let v :=
    ((N_of_ascii c1 mod 8) * 256 + (N_of_ascii c2 mod 64) * 4
     + (N_of_ascii c3 mod 64) / 16 - 64)%N in
  String (ascii_of_N 237)
    (String (ascii_of_N (160 + v / 64))
       (String (ascii_of_N (128 + v mod 64)) EmptyString)).

(** The first [units] code units of [s], after [copy] more bytes of the
    character that is being copied. *)
Fixpoint substringFrom (copy units : nat) (s : string) : string :=
  match s with
  | EmptyString => EmptyString
  | String c rest =>
      match copy with
      | S k => String c (substringFrom k units rest)
      | O =>
          match units with
          | O => EmptyString
          | S u =>
              match charBytes c with
              | 4%nat =>
                  match u with
                  | O =>
                      match rest with
                      | String c2 (String c3 _) => highSurrogate c c2 c3
                      | _ => EmptyString
                      end
                  | S u' => String c (substringFrom 3 u' rest)
                  end
              | n => String c (substringFrom (Nat.pred n) u rest)
              end
          end
      end
  end.

(** [s.substring(0, n)]: the first [n] code units. *)
Definition substring0 (n : nat) (s : string) : string :=
  substringFrom 0 n s.

(** The string of the given bytes. *)
Definition bytes (l : list N) : string :=
  fold_right (fun n s => String (ascii_of_N n) s) EmptyString l.

(** The white space and line terminator characters of the language, which
    [trim] strips: U+0009 to U+000D, U+0020, U+00A0, U+1680, U+2000 to
    U+200A, U+2028, U+2029, U+202F, U+205F, U+3000 and U+FEFF. *)
Definition whiteSpaceChars : list string :=
  map bytes
    [ [9]; [10]; [11]; [12]; [13]; [32]; [194; 160]; [225; 154; 128];
      [226; 128; 128]; [226; 128; 129]; [226; 128; 130]; [226; 128; 131];
      [226; 128; 132]; [226; 128; 133]; [226; 128; 134]; [226; 128; 135];
      [226; 128; 136]; [226; 128; 137]; [226; 128; 138]; [226; 128; 168];
      [226; 128; 169]; [226; 128; 175]; [226; 129; 159]; [227; 128; 128];
      [239; 187; 191] ]%N.

(** The number of bytes of the white space character [s] starts with, 0
    when it starts with none. *)
Definition whiteSpaceLength (s : string) : nat :=
  match find (fun w => String.prefix w s) whiteSpaceChars with
  | Some w => String.length w
  | None => O
  end.

(** [s] is made of white space only, after [skip] more bytes of the white
    space character that is being read. *)
Fixpoint allWhiteSpaceFrom (skip : nat) (s : string) : bool :=
  match s with
  | EmptyString => true
  | String _ rest =>
      match skip with
      | S k => allWhiteSpaceFrom k rest
      | O =>
          match whiteSpaceLength s with
          | O => false
          | S k => allWhiteSpaceFrom k rest
          end
      end
  end.

Definition allWhiteSpace (s : string) : bool := allWhiteSpaceFrom 0 s.

Fixpoint trimStartFrom (skip : nat) (s : string) : string :=
  match s with
  | EmptyString => EmptyString
  | String _ rest =>
      match skip with
      | S k => trimStartFrom k rest
      | O =>
          match whiteSpaceLength s with
          | O => s
          | S k => trimStartFrom k rest
          end
      end
  end.

Definition trimStart (s : string) : string := trimStartFrom 0 s.

(** A white space character starts at the first byte of a character only,
    so the bytes can be copied one by one up to the point from which on
    there is white space only. *)
Fixpoint trimEnd (s : string) : string :=
  match s with
  | EmptyString => EmptyString
  | String c rest =>
      if allWhiteSpace s then EmptyString else String c (trimEnd rest)
  end.

(** [s.trim()] *)
Definition trim (s : string) : string := trimEnd (trimStart s).

(** Truthiness of a string: every string but the empty one. *)
Definition truthy (s : string) : bool := negb (String.eqb s "").

(** [!!x] for [x : string | null]. *)
Definition truthy_opt (x : option string) : bool :=
  match x with
  | Some s => truthy s
  | None => false
  end.

(** [a || b] where [a] is a string or undefined and [b] a string. *)
Definition or_else (a : option string) (b : string) : string :=
  match a with
  | Some s => if truthy s then s else b
  | None => b
  end.

(** A value of a JSON document. *)
#[local] Unset Elimination Schemes.
Inductive Value :=
| Undefined
| Null
| Boolean (b : bool)
| Number (q : Q)
| Str (s : string)
| Arr (items : list Value)
| Obj (fields : list (string * Value)).
#[local] Set Elimination Schemes.

(** Truthiness of a value: objects and arrays are truthy, whatever they
    hold. *)
Definition truthyValue (v : Value) : bool :=
  match v with
  | Undefined => false
  | Null => false
  | Boolean b => b
  | Number q => negb (Qeq_bool q 0%Q)
  | Str s => truthy s
  | Arr _ => true
  | Obj _ => true
  end.

(** [a || b] for two values. *)
Definition orValue (a b : Value) : Value :=
  if truthyValue a then a else b.

(** [n.toString()] and [`${n}`] for an integer [n]. *)
Definition toString (n : Z) : string :=
  NilZero.string_of_int (Z.to_int n).

(** [Math.ceil(a / b)] for integers [a] and [b > 0] below 2^53: the
    quotient is rounded up (the double nearest to [a / b] lies strictly
    between the same two integers as [a / b] itself, or is that integer). *)
Definition ceil_div (a b : Z) : Z := - ((- a) / b).

(** [Array.prototype.slice(start, end)]: a negative index counts from the
    end, both are clamped to the array, an empty range gives []. *)
Definition relativeIndex (len i : Z) : Z :=
  if i <? 0 then Z.max (len + i) 0 else Z.min i len.

Definition slice {A : Type} (l : list A) (start finish : Z) : list A :=
  let len := Z.of_nat (List.length l) in
  let k := relativeIndex len start in
  let final := relativeIndex len finish in
  firstn (Z.to_nat (Z.max (final - k) 0)) (skipn (Z.to_nat k) l).

(** [(size / 1024 / 1024).toFixed(2)] for a byte count: the division by
    2^20 is exact in a double, and [toFixed(2)] picks the integer [n]
    with [n / 100] nearest to it, the larger one on a tie. *)
Definition toFixed2_MB (size : Z) : string :=
  let n := (200 * size + 1048576) / 2097152 in
  let frac := n mod 100 in
  toString (n / 100) ++ "." ++ (if frac <? 10 then "0" else "") ++ toString frac.

(** [s.toLowerCase()], as far as comparisons with ASCII text and
    Latin-1 go: the letters A-Z, the capital letters of Latin-1 (U+00C0 to
    U+00DE but the multiplication sign, two bytes each) and the Kelvin
    sign, whose lower case is the letter k.  The lower case of any other
    character is outside ASCII, as the character itself is; it is left as
    it is. *)
Definition lowerAscii (c : ascii) : ascii :=
  let n := N_of_ascii c in
  if ((65 <=? n) && (n <=? 90))%N then ascii_of_N (n + 32) else c.

Definition isUpperLatin1 (c1 c2 : ascii) : bool :=
  let n := N_of_ascii c2 in
  ((N_of_ascii c1 =? 195) && (128 <=? n) && (n <=? 158) && negb (n =? 151))%N.

Definition isKelvin (c1 c2 c3 : ascii) : bool :=
  ((N_of_ascii c1 =? 226) && (N_of_ascii c2 =? 132)
   && (N_of_ascii c3 =? 170))%N.

Fixpoint toLowerCase (s : string) : string :=
  match s with
  | EmptyString => EmptyString
  | String c1 rest1 =>
      match rest1 with
      | String c2 rest2 =>
          if isUpperLatin1 c1 c2 then
            String c1
              (String (ascii_of_N (N_of_ascii c2 + 32)) (toLowerCase rest2))
          else
            match rest2 with
            | String c3 rest3 =>
                if isKelvin c1 c2 c3 then String "k"%char (toLowerCase rest3)
                else String (lowerAscii c1) (toLowerCase rest1)
            | EmptyString => String (lowerAscii c1) (toLowerCase rest1)
            end
      | EmptyString => String (lowerAscii c1) EmptyString
      end
  end.

End JS.

(** ** lib/api.ts: the data exchanged with the remote service *)

Module File.
Record t := mk { name : string; type : string; size : Z }.
End File.

Module IngestResponse.
Record t := mk {
  document_id : string;
  filename : string;
  total_pages : Z;
  analysis_status : string
}.
End IngestResponse.

Module AnalysisStatus.
Record t := mk {
  document_id : string;
  status : string;
  findings_count : option Z
}.

Definition eqb (a b : t) : bool :=
  String.eqb (document_id a) (document_id b)
  && String.eqb (status a) (status b)
  && match findings_count a, findings_count b with
     | Some x, Some y => Z.eqb x y
     | None, None => true
     | _, _ => false
     end.
End AnalysisStatus.

Module Finding.
Record t := mk {
  id : Z;
  category : string;
  severity : string;
  summary : string;
  recommendation : option string;
  page_num : Z;
  confidence_score : Q
}.

Definition eqb_opt (a b : option string) : bool :=
  match a, b with
  | Some x, Some y => String.eqb x y
  | None, None => true
  | _, _ => false
  end.

Definition eqb (a b : t) : bool :=
  Z.eqb (id a) (id b)
  && String.eqb (category a) (category b)
  && String.eqb (severity a) (severity b)
  && String.eqb (summary a) (summary b)
  && eqb_opt (recommendation a) (recommendation b)
  && Z.eqb (page_num a) (page_num b)
  && Qeq_bool (confidence_score a) (confidence_score b).

Fixpoint eqb_list (l l' : list t) : bool :=
  match l, l' with
  | [], [] => true
  | a :: r, b :: r' => eqb a b && eqb_list r r'
  | _, _ => false
  end.
End Finding.

Module ChatResponse.
Record t := mk {
  answer : string;
  finding_id : Z;
  context_category : string;
  context_summary : string;
  context_text_content : string
}.
End ChatResponse.

Module ProgressData.
Record t := mk {
  status : string;
  progress : Z;
  message : string;
  timestamp : string
}.

Definition eqb (a b : t) : bool :=
  String.eqb (status a) (status b)
  && Z.eqb (progress a) (progress b)
  && String.eqb (message a) (message b)
  && String.eqb (timestamp a) (timestamp b).
End ProgressData.

(** A rejected request as the handlers look at it: [error.message], and
    [error.response?.data?.detail], which is whatever the body of the
    response holds under that name, and undefined when there is no
    response, no body or no such member. *)
Module AxiosError.
Record t := mk { message : string; detail : JS.Value }.
End AxiosError.

(** What a request settles to. *)
Inductive Settled (T : Type) : Type :=
| Resolved (value : T)
| Rejected (error : AxiosError.t).
Arguments Resolved {T} value.
Arguments Rejected {T} error.

(** ** Requests *)

Inductive Method := GET | POST.

Inductive Body :=
| NoBody
| FormData (file : File.t)
| JsonQ (q : string).

(** A request goes either through the axios instance [api], whose [baseURL]
    is [API_BASE_URL], or through [fetch] with the URL it is handed. *)
Inductive Channel := ViaApi | ViaFetch.

Module Request.
Record t := mk {
  channel : Channel;
  method : Method;
  url : string;
  body : Body
}.
End Request.

(** A toast: the description is the value it was handed. *)
Module Toast.
Record t := mk {
  title : string;
  description : JS.Value;
  destructive : bool
}.
End Toast.

(** ** lib/api.ts: base URL and the calls of [apiService] *)

Module Api.

(** [inferredDefaultBaseUrl]; [hostname] is [None] when [window] is
    undefined. *)
Definition inferredDefaultBaseUrl (hostname : option string) : string :=
  match hostname with
  | Some h =>
      if JS.endsWith h "vercel.app"
      then "https://raykarr-insurance-document-analyzer-api.hf.space"
      else "http://localhost:7860"
  | None => "http://localhost:7860"
  end.

(** [API_BASE_URL = import.meta.env.VITE_API_URL || inferredDefaultBaseUrl] *)
Definition API_BASE_URL (VITE_API_URL hostname : option string) : string :=
  JS.or_else VITE_API_URL (inferredDefaultBaseUrl hostname).

Definition uploadDocument (file : File.t) : Request.t :=
  Request.mk ViaApi POST "/ingest" (FormData file).

Definition getAnalysisStatus (documentId : string) : Request.t :=
  Request.mk ViaApi GET ("/analysis/" ++ documentId) NoBody.

Definition getFindings (documentId : string) : Request.t :=
  Request.mk ViaApi GET ("/findings/" ++ documentId) NoBody.

Definition getFindingsByCategory (documentId category : string) : Request.t :=
  Request.mk ViaApi GET
    ("/findings/" ++ documentId ++ "/category/" ++ category) NoBody.

Definition sendChatMessage (findingId : Z) (question : string) : Request.t :=
  Request.mk ViaApi POST
    ("/findings/" ++ JS.toString findingId ++ "/chat") (JsonQ question).

Definition healthCheck : Request.t :=
  Request.mk ViaApi GET "/health" NoBody.

Definition getProgress (documentId : string) : Request.t :=
  Request.mk ViaApi GET ("/progress/" ++ documentId) NoBody.

(** Where a request is sent: the base URL followed by the path for the
    axios instance, the URL itself for [fetch]. *)
Definition target (baseURL : string) (r : Request.t) : string :=
  match Request.channel r with
  | ViaApi => baseURL ++ Request.url r
  | ViaFetch => Request.url r
  end.

(** The copy of the module under frontend/src/lib has another default:
    [import.meta.env.VITE_API_URL || 'https://ai-insurance-...vercel.app/']. *)
Definition API_BASE_URL_frontend (VITE_API_URL : option string) : string :=
  JS.or_else VITE_API_URL
    "https://ai-insurance-document-analyzer-z7vbrtlu2-raykarrs-projects.vercel.app/".

End Api.

(** ** lib/state.ts: the module-level file slot *)

Module fileState.

(** The value of [let currentFile: File | null]. *)
Definition t := option File.t.

Definition initial : t := None.

Definition setFile (file : File.t) (currentFile : t) : t := Some file.

Definition getFile (currentFile : t) : option File.t := currentFile.

Definition clearFile (currentFile : t) : t := None.

End fileState.

(** ** The landing page (component [Index]) *)

Module Index.

(** The uploading flag, and the outside: the file slot, the toasts shown
    and the route navigated to. *)
Record State := mkState {
  isUploading : bool;
  storedFile : fileState.t;
  toasts : list Toast.t;
  navigatedTo : option string
}.

Definition initial (stored : fileState.t) : State :=
  mkState false stored [] None.

Definition toast (t : Toast.t) (st : State) : State :=
  mkState (isUploading st) (storedFile st) (toasts st ++ [t])
    (navigatedTo st).

(** [handleFileUpload]: the file is validated, stored in the slot, and
    the analysis page is navigated to; the page itself sends nothing. *)
Definition handleFileUpload (file : File.t) (st : State) : State :=
  if negb (JS.includes (File.type file) "pdf") then
    toast
      (Toast.mk "Invalid file type" (JS.Str "Please upload a PDF file") true)
      st
  else if File.size file >? 10 * 1024 * 1024 then
    toast
      (Toast.mk "File too large"
         (JS.Str "Please upload a file smaller than 10MB") true)
      st
  else
    mkState true (fileState.setFile file (storedFile st)) (toasts st)
      (Some "/analysis").

End Index.

(** The [variant] of a badge. *)
Inductive BadgeVariant :=
| VariantDefault
| VariantSecondary
| VariantDestructive
| VariantOutline.

(** ** components/PDFViewer.tsx: the request of the viewer *)

Module PDFViewer.

(** [documentId] is interpolated as it is, [null] prints as "null". *)
Definition pdfUrl (documentId : option string) : string :=
  "http://localhost:7860/documents/"
  ++ match documentId with Some d => d | None => "null" end
  ++ "/pdf#view=FitH&toolbar=1".

(** The effect on [documentId]: the requests it issues. *)
Definition effect (documentId : option string) : list Request.t :=
  if JS.truthy_opt documentId
  then [Request.mk ViaFetch GET (pdfUrl documentId) NoBody]
  else [].

(** The [documentId] prop, the two [useState] cells, and the outside: the
    requests issued and the URLs handed to [window.open]. *)
Record State := mkState {
  documentId : option string;
  loading : bool;
  error : option string;
  requests : list Request.t;
  opened : list string
}.

Definition initial (documentId : option string) : State :=
  mkState documentId true None [] [].

(** The effect up to its [fetch]. *)
Definition runEffect (st : State) : State :=
  if JS.truthy_opt (documentId st) then
    mkState (documentId st) true None
      (requests st ++ effect (documentId st)) (opened st)
  else st.

(** What the [fetch] settles to: a response with its status, or a
    rejection. *)
Inductive FetchResult :=
| Response (status : Z) (statusText : string)
| NetworkError.

(** [response.ok] *)
Definition ok (status : Z) : bool := (200 <=? status) && (status <=? 299).

(** The [then] and [catch] of the effect. *)
Definition fetchSettled (r : FetchResult) (st : State) : State :=
  match r with
  | Response status _ =>
      if ok status then
        mkState (documentId st) false (error st) (requests st) (opened st)
      else
        mkState (documentId st) false
          (Some ("PDF not accessible (" ++ JS.toString status ++ ")"))
          (requests st) (opened st)
  | NetworkError =>
      mkState (documentId st) false (Some "Failed to load PDF")
        (requests st) (opened st)
  end.

Definition mount (documentId : option string) : State :=
  runEffect (initial documentId).

(** The parent renders the viewer with another [documentId]; the effect
    runs when the value differs. *)
Definition withDocumentId (d : option string) (st : State) : State :=
  let st' := mkState d (loading st) (error st) (requests st) (opened st) in
  match d, documentId st with
  | Some x, Some y => if String.eqb x y then st' else runEffect st'
  | None, None => st'
  | _, _ => runEffect st'
  end.

(** [handleDownload]: [window.open(pdfUrl, '_blank')]. *)
Definition handleDownload (st : State) : State :=
  mkState (documentId st) (loading st) (error st) (requests st)
    (opened st ++ [pdfUrl (documentId st)]).

(** [handleViewInNewTab] and the callback of its 500 ms timer. *)
Definition handleViewInNewTab (st : State) : State :=
  mkState (documentId st) true None (requests st) (opened st).

Definition handleViewInNewTab_timeout (st : State) : State :=
  mkState (documentId st) false (error st) (requests st) (opened st).

(** [handleEmbeddedView]; [found] tells whether the document holds an
    [object] element whose data mentions pdf. *)
Definition handleEmbeddedView (found : bool) (st : State) : State :=
  if found then mkState (documentId st) true None (requests st) (opened st)
  else st.

(** [onLoad] and [onError] of the frame. *)
Definition frameLoaded (st : State) : State :=
  mkState (documentId st) false (error st) (requests st) (opened st).

Definition frameFailed (st : State) : State :=
  mkState (documentId st) false (Some "Failed to load PDF") (requests st)
    (opened st).

(** What the card shows: [loading ? ... : error ? ... : <iframe>]. *)
Inductive View := Spinner | ErrorPanel | Frame.

Definition view (st : State) : View :=
  if loading st then Spinner
  else match error st with
       | Some e => if JS.truthy e then ErrorPanel else Frame
       | None => Frame
       end.

(** The badge of the selected finding:
    [severity === 'HIGH' ? 'destructive' : severity === 'MEDIUM' ? 'secondary' : 'default']. *)
Definition severityVariant (severity : string) : BadgeVariant :=
  if String.eqb severity "HIGH" then VariantDestructive
  else if String.eqb severity "MEDIUM" then VariantSecondary
  else VariantDefault.

End PDFViewer.

(** ** components/ChatPanel.tsx *)

Module ChatMessage.
Inductive role := user | bot.
Record t := mk {
  id : string;
  type : role;
  content : string;
  timestamp : Z
}.
End ChatMessage.

Module ChatPanel.

(** The [finding] prop, the four [useState] cells, and the outside: the
    requests issued, the toasts shown and the number of
    [sendChatMessage] promises that have not settled yet. *)
Record State := mkState {
  finding : Finding.t;
  inputValue : string;
  messages : list ChatMessage.t;
  currentFindingId : option Z;
  isLoading : bool;
  requests : list Request.t;
  toasts : list Toast.t;
  pending : nat
}.

Definition initial (finding : Finding.t) : State :=
  mkState finding "" [] None false [] [] 0.

(** [finding.id !== currentFindingId] *)
Definition findingChanged (st : State) : bool :=
  match currentFindingId st with
  | Some i => negb (Finding.id (finding st) =? i)
  | None => true
  end.

Definition contextMessage (finding : Finding.t) (now : Z) : ChatMessage.t :=
  ChatMessage.mk
    ("context-" ++ JS.toString (Finding.id finding))
    ChatMessage.bot
    ("Now discussing: " ++ Finding.category finding
     ++ " on page " ++ JS.toString (Finding.page_num finding)
     ++ ". " ++ Finding.summary finding)
    now.

(** The effect on [finding.id] and [currentFindingId]. *)
Definition effect (now : Z) (st : State) : State :=
  if findingChanged st then
    mkState (finding st) (inputValue st)
      (messages st ++ [contextMessage (finding st) now])
      (Some (Finding.id (finding st)))
      (isLoading st) (requests st) (toasts st) (pending st)
  else st.

(** The parent renders the panel with another [finding]. *)
Definition withFinding (f : Finding.t) (st : State) : State :=
  mkState f (inputValue st) (messages st) (currentFindingId st)
    (isLoading st) (requests st) (toasts st) (pending st).

Definition setInputValue (v : string) (st : State) : State :=
  mkState (finding st) v (messages st) (currentFindingId st)
    (isLoading st) (requests st) (toasts st) (pending st).

Definition userMessage (inputValue : string) (now : Z) : ChatMessage.t :=
  ChatMessage.mk (JS.toString now) ChatMessage.user inputValue now.

Definition botMessage (response : ChatResponse.t) (now : Z) : ChatMessage.t :=
  ChatMessage.mk (JS.toString (now + 1)) ChatMessage.bot
    (ChatResponse.answer response) now.

Definition errorMessage (now : Z) : ChatMessage.t :=
  ChatMessage.mk (JS.toString (now + 1)) ChatMessage.bot
    "Sorry, I encountered an error while processing your question. Please try again."
    now.

Definition errorToast (error : AxiosError.t) : Toast.t :=
  Toast.mk "Chat Error"
    (JS.orValue (AxiosError.detail error) (JS.Str "Failed to send message"))
    true.

(** [handleSendMessage] up to its [await]. *)
Definition handleSendMessage (now : Z) (st : State) : State :=
  if negb (JS.truthy (JS.trim (inputValue st))) || isLoading st then st
  else
    mkState (finding st) ""
      (messages st ++ [userMessage (inputValue st) now])
      (currentFindingId st)
      true
      (requests st
       ++ [Api.sendChatMessage (Finding.id (finding st)) (inputValue st)])
      (toasts st)
      (S (pending st)).

(** [handleSendMessage] from its [await] on: [try], [catch], [finally]. *)
Definition handleSendMessage_settled
    (now : Z) (r : Settled ChatResponse.t) (st : State) : State :=
  match r with
  | Resolved response =>
      mkState (finding st) (inputValue st)
        (messages st ++ [botMessage response now])
        (currentFindingId st) false (requests st) (toasts st)
        (Nat.pred (pending st))
  | Rejected error =>
      mkState (finding st) (inputValue st)
        (messages st ++ [errorMessage now])
        (currentFindingId st) false (requests st)
        (toasts st ++ [errorToast error])
        (Nat.pred (pending st))
  end.

(** [disabled] of the send button and of the input. *)
Definition sendDisabled (st : State) : bool :=
  negb (JS.truthy (JS.trim (inputValue st))) || isLoading st.

Definition inputDisabled (st : State) : bool := isLoading st.

Definition quickQuestions : list string :=
  [ "What does this mean?";
    "How does this affect me?";
    "What should I do about this?";
    "Is this normal?";
    "Compare with other findings" ].

(** What can happen to a mounted panel. *)
Inductive Event :=
| SelectFinding (f : Finding.t) (now : Z)
| ChangeInput (v : string)
| QuickQuestion (index : nat)
| ClickSend (now : Z)
| PressEnter (now : Z)
| ResponseArrives (now : Z) (r : Settled ChatResponse.t).

Definition step (e : Event) (st : State) : State :=
  match e with
  | SelectFinding f now => effect now (withFinding f st)
  | ChangeInput v => if inputDisabled st then st else setInputValue v st
  | QuickQuestion index =>
      match nth_error quickQuestions index with
      | Some q => setInputValue q st
      | None => st
      end
  | ClickSend now => if sendDisabled st then st else handleSendMessage now st
  | PressEnter now => if inputDisabled st then st else handleSendMessage now st
  | ResponseArrives now r =>
      match pending st with
      | O => st
      | S _ => handleSendMessage_settled now r st
      end
  end.

Definition run (events : list Event) (st : State) : State :=
  fold_left (fun s e => step e s) events st.

(** The panel once mounted with [finding]: the effect has run. *)
Definition mount (finding : Finding.t) (now : Z) : State :=
  effect now (initial finding).

(** The invariant of the panel: the busy flag counts the sends that have
    not settled. *)
Definition busyCounts (st : State) : Prop :=
  pending st = if isLoading st then 1%nat else 0%nat.

(** The user's messages of a transcript, and the question a chat request
    carries. *)
Definition isUserMessage (m : ChatMessage.t) : bool :=
  match ChatMessage.type m with
  | ChatMessage.user => true
  | ChatMessage.bot => false
  end.

Definition questionOf (r : Request.t) : string :=
  match Request.body r with
  | JsonQ q => q
  | _ => ""
  end.

End ChatPanel.

(** ** The analysis page (component [Analysis]) *)

Module AnalysisState.
Record t := mk {
  documentId : option string;
  filename : option string;
  isUploading : bool;
  isAnalyzing : bool
}.
End AnalysisState.

Module ProcessStep.
Inductive Status := pending | in_progress | completed | error.

(** The icons the page hands to a step. *)
Inductive Icon :=
| Upload | FileText | Cpu | Database | Brain | Clock
| CheckCircle2 | AlertCircle | Network | FileCheck.

Record t := mk {
  id : string;
  title : string;
  status : Status;
  message : string;
  timestamp : Z;
  icon : Icon
}.

(** [{ ...step, ...updates }] for the updates the page makes, which
    always carry a status, a message and an icon. *)
Definition update (status : Status) (message : string) (icon : Icon)
    (step : t) : t :=
  mk (id step) (title step) status message (timestamp step) icon.
End ProcessStep.

(** What [useQuery] keeps for one query key: the last data, the last
    error and the number of errors stored so far, which tells one error
    object from the next.  A fetch that resolves stores the data and clears
    the error, one that fails for good keeps the data and stores the
    error. *)
Module Query.
Record State (T : Type) := mkState {
  data : option T;
  error : option AxiosError.t;
  errorUpdateCount : nat
}.
Arguments mkState {T} data error errorUpdateCount.
Arguments data {T} s.
Arguments error {T} s.
Arguments errorUpdateCount {T} s.

(** The cache of one query, by the document id in its key. *)
Definition Cache (T : Type) := list (string * State T).

Fixpoint lookup {T : Type} (key : string) (c : Cache T) : State T :=
  match c with
  | [] => mkState None None 0
  | (k, q) :: rest => if String.eqb k key then q else lookup key rest
  end.

Definition settle {T : Type} (key : string) (r : Settled T) (c : Cache T)
    : Cache T :=
  match r with
  | Resolved value =>
      (key, mkState (Some value) None (errorUpdateCount (lookup key c))) :: c
  | Rejected e =>
      (key, mkState (data (lookup key c)) (Some e)
              (S (errorUpdateCount (lookup key c)))) :: c
  end.

(** The state of the query whose key holds [documentId]; a key without a
    document id is never fetched. *)
Definition observe {T : Type} (documentId : option string) (c : Cache T)
    : State T :=
  match documentId with
  | Some d => lookup d c
  | None => mkState None None 0
  end.

(** A fetch that has not settled: the number of its attempts that have
    failed, and whether the library is waiting to make the next attempt
    rather than awaiting the answer to one. *)
Record Fetch := mkFetch { failures : nat; waiting : bool }.

(** The fetches of one query that have not settled, by the document id in
    the key. *)
Definition Fetches := list (string * Fetch).

Fixpoint fetchOf (key : string) (fs : Fetches) : option Fetch :=
  match fs with
  | [] => None
  | (k, f) :: rest => if String.eqb k key then Some f else fetchOf key rest
  end.

(** A fetch of the key is under way: a further fetch joins it instead of
    calling the query function. *)
Definition fetching (key : string) (fs : Fetches) : bool :=
  match fetchOf key fs with
  | Some _ => true
  | None => false
  end.

Definition forget (key : string) (fs : Fetches) : Fetches :=
  filter (fun kf => negb (String.eqb (fst kf) key)) fs.

(** A fetch starts with its first attempt. *)
Definition start (key : string) (fs : Fetches) : Fetches :=
  (key, mkFetch 0 false) :: forget key fs.

(** [retry: 3] of the progress and findings queries, also what the
    library takes where the option is left out, as in the status query. *)
Definition retry : nat := 3.

Definition failuresOf (key : string) (fs : Fetches) : nat :=
  match fetchOf key fs with
  | Some f => failures f
  | None => O
  end.

(** A failure of the attempt under way is followed by another attempt. *)
Definition retries (key : string) (fs : Fetches) : bool :=
  (failuresOf key fs <? retry)%nat.

(** An attempt settles: a success ends the fetch, and so does a failure
    once the retries are used up; a failure before that makes the library
    wait for the next attempt. *)
Definition attemptSettled {T : Type} (key : string) (r : Settled T)
    (fs : Fetches) : Fetches :=
  match r with
  | Resolved _ => forget key fs
  | Rejected _ =>
      if retries key fs
      then (key, mkFetch (S (failuresOf key fs)) true) :: forget key fs
      else forget key fs
  end.

(** Only the settling that ends the fetch reaches the cache. *)
Definition cacheSettled {T : Type} (key : string) (r : Settled T)
    (fs : Fetches) (c : Cache T) : Cache T :=
  match r with
  | Resolved _ => settle key r c
  | Rejected _ => if retries key fs then c else settle key r c
  end.

(** The library is waiting to repeat the fetch of the key. *)
Definition retryDue (key : string) (fs : Fetches) : bool :=
  match fetchOf key fs with
  | Some f => waiting f
  | None => false
  end.

(** The next attempt is made. *)
Definition retried (key : string) (fs : Fetches) : Fetches :=
  (key, mkFetch (failuresOf key fs) false) :: forget key fs.
End Query.

(** The timers the upload mutation sets, each with the number of the
    mutation that set it: the two intervals that animate the upload
    progress, and the two timeouts that complete the steps of the
    pipeline. *)
Module Timer.
Inductive t :=
| UploadInterval (mutation : nat)
| EmbeddingInterval (mutation : nat)
| EmbeddingTimeout (mutation : nat)
| VectorStoreTimeout (mutation : nat).

Definition eqb (a b : t) : bool :=
  match a, b with
  | UploadInterval m, UploadInterval n => Nat.eqb m n
  | EmbeddingInterval m, EmbeddingInterval n => Nat.eqb m n
  | EmbeddingTimeout m, EmbeddingTimeout n => Nat.eqb m n
  | VectorStoreTimeout m, VectorStoreTimeout n => Nat.eqb m n
  | _, _ => false
  end.
End Timer.

Module Analysis.

(** The [useState] cells, the caches of the three queries, the file slot
    of lib/state.ts, and the outside: the fetches and mutations started,
    the toasts shown and the clock; then the fetches of the three queries
    that have not settled, the requests the library has repeated after a
    failure, the timers that are set and the number of upload mutations
    started so far.  The drag-over flag and the file input reference are
    left out: no handler below reads them. *)
Record State := mkState {
  analysisState : AnalysisState.t;
  selectedFinding : option Finding.t;
  processSteps : list ProcessStep.t;
  uploadProgress : Z;
  analysisProgress : Z;
  currentFile : option File.t;
  currentPage : Z;
  selectedCategory : string;
  statusQuery : Query.Cache AnalysisStatus.t;
  progressQuery : Query.Cache ProgressData.t;
  findingsQuery : Query.Cache (list Finding.t);
  storedFile : fileState.t;
  requests : list Request.t;
  toasts : list Toast.t;
  now : Z;
  statusFetches : Query.Fetches;
  progressFetches : Query.Fetches;
  findingsFetches : Query.Fetches;
  retried : list Request.t;
  timers : list Timer.t;
  mutations : nat
}.

Definition setAnalysisState (v : AnalysisState.t) (st : State) : State :=
  mkState v (selectedFinding st) (processSteps st) (uploadProgress st)
    (analysisProgress st) (currentFile st) (currentPage st)
    (selectedCategory st) (statusQuery st) (progressQuery st)
    (findingsQuery st) (storedFile st) (requests st) (toasts st) (now st)
    (statusFetches st) (progressFetches st) (findingsFetches st) (retried st)
    (timers st) (mutations st).

Definition setSelectedFinding (v : option Finding.t) (st : State) : State :=
  mkState (analysisState st) v (processSteps st) (uploadProgress st)
    (analysisProgress st) (currentFile st) (currentPage st)
    (selectedCategory st) (statusQuery st) (progressQuery st)
    (findingsQuery st) (storedFile st) (requests st) (toasts st) (now st)
    (statusFetches st) (progressFetches st) (findingsFetches st) (retried st)
    (timers st) (mutations st).

Definition setProcessSteps (v : list ProcessStep.t) (st : State) : State :=
  mkState (analysisState st) (selectedFinding st) v (uploadProgress st)
    (analysisProgress st) (currentFile st) (currentPage st)
    (selectedCategory st) (statusQuery st) (progressQuery st)
    (findingsQuery st) (storedFile st) (requests st) (toasts st) (now st)
    (statusFetches st) (progressFetches st) (findingsFetches st) (retried st)
    (timers st) (mutations st).

Definition setUploadProgress (v : Z) (st : State) : State :=
  mkState (analysisState st) (selectedFinding st) (processSteps st) v
    (analysisProgress st) (currentFile st) (currentPage st)
    (selectedCategory st) (statusQuery st) (progressQuery st)
    (findingsQuery st) (storedFile st) (requests st) (toasts st) (now st)
    (statusFetches st) (progressFetches st) (findingsFetches st) (retried st)
    (timers st) (mutations st).

Definition setAnalysisProgress (v : Z) (st : State) : State :=
  mkState (analysisState st) (selectedFinding st) (processSteps st)
    (uploadProgress st) v (currentFile st) (currentPage st)
    (selectedCategory st) (statusQuery st) (progressQuery st)
    (findingsQuery st) (storedFile st) (requests st) (toasts st) (now st)
    (statusFetches st) (progressFetches st) (findingsFetches st) (retried st)
    (timers st) (mutations st).

Definition setCurrentFile (v : option File.t) (st : State) : State :=
  mkState (analysisState st) (selectedFinding st) (processSteps st)
    (uploadProgress st) (analysisProgress st) v (currentPage st)
    (selectedCategory st) (statusQuery st) (progressQuery st)
    (findingsQuery st) (storedFile st) (requests st) (toasts st) (now st)
    (statusFetches st) (progressFetches st) (findingsFetches st) (retried st)
    (timers st) (mutations st).

Definition setCurrentPage (v : Z) (st : State) : State :=
  mkState (analysisState st) (selectedFinding st) (processSteps st)
    (uploadProgress st) (analysisProgress st) (currentFile st) v
    (selectedCategory st) (statusQuery st) (progressQuery st)
    (findingsQuery st) (storedFile st) (requests st) (toasts st) (now st)
    (statusFetches st) (progressFetches st) (findingsFetches st) (retried st)
    (timers st) (mutations st).

Definition setSelectedCategory (v : string) (st : State) : State :=
  mkState (analysisState st) (selectedFinding st) (processSteps st)
    (uploadProgress st) (analysisProgress st) (currentFile st)
    (currentPage st) v (statusQuery st) (progressQuery st) (findingsQuery st)
    (storedFile st) (requests st) (toasts st) (now st) (statusFetches st)
    (progressFetches st) (findingsFetches st) (retried st) (timers st)
    (mutations st).

Definition setStatusQuery (v : Query.Cache AnalysisStatus.t) (st : State)
    : State :=
  mkState (analysisState st) (selectedFinding st) (processSteps st)
    (uploadProgress st) (analysisProgress st) (currentFile st)
    (currentPage st) (selectedCategory st) v (progressQuery st)
    (findingsQuery st) (storedFile st) (requests st) (toasts st) (now st)
    (statusFetches st) (progressFetches st) (findingsFetches st) (retried st)
    (timers st) (mutations st).

Definition setProgressQuery (v : Query.Cache ProgressData.t) (st : State)
    : State :=
  mkState (analysisState st) (selectedFinding st) (processSteps st)
    (uploadProgress st) (analysisProgress st) (currentFile st)
    (currentPage st) (selectedCategory st) (statusQuery st) v
    (findingsQuery st) (storedFile st) (requests st) (toasts st) (now st)
    (statusFetches st) (progressFetches st) (findingsFetches st) (retried st)
    (timers st) (mutations st).

Definition setFindingsQuery (v : Query.Cache (list Finding.t)) (st : State)
    : State :=
  mkState (analysisState st) (selectedFinding st) (processSteps st)
    (uploadProgress st) (analysisProgress st) (currentFile st)
    (currentPage st) (selectedCategory st) (statusQuery st) (progressQuery st)
    v (storedFile st) (requests st) (toasts st) (now st) (statusFetches st)
    (progressFetches st) (findingsFetches st) (retried st) (timers st)
    (mutations st).

Definition setStoredFile (v : fileState.t) (st : State) : State :=
  mkState (analysisState st) (selectedFinding st) (processSteps st)
    (uploadProgress st) (analysisProgress st) (currentFile st)
    (currentPage st) (selectedCategory st) (statusQuery st) (progressQuery st)
    (findingsQuery st) v (requests st) (toasts st) (now st) (statusFetches st)
    (progressFetches st) (findingsFetches st) (retried st) (timers st)
    (mutations st).

Definition setRequests (v : list Request.t) (st : State) : State :=
  mkState (analysisState st) (selectedFinding st) (processSteps st)
    (uploadProgress st) (analysisProgress st) (currentFile st)
    (currentPage st) (selectedCategory st) (statusQuery st) (progressQuery st)
    (findingsQuery st) (storedFile st) v (toasts st) (now st)
    (statusFetches st) (progressFetches st) (findingsFetches st) (retried st)
    (timers st) (mutations st).

Definition setToasts (v : list Toast.t) (st : State) : State :=
  mkState (analysisState st) (selectedFinding st) (processSteps st)
    (uploadProgress st) (analysisProgress st) (currentFile st)
    (currentPage st) (selectedCategory st) (statusQuery st) (progressQuery st)
    (findingsQuery st) (storedFile st) (requests st) v (now st)
    (statusFetches st) (progressFetches st) (findingsFetches st) (retried st)
    (timers st) (mutations st).

Definition setNow (v : Z) (st : State) : State :=
  mkState (analysisState st) (selectedFinding st) (processSteps st)
    (uploadProgress st) (analysisProgress st) (currentFile st)
    (currentPage st) (selectedCategory st) (statusQuery st) (progressQuery st)
    (findingsQuery st) (storedFile st) (requests st) (toasts st) v
    (statusFetches st) (progressFetches st) (findingsFetches st) (retried st)
    (timers st) (mutations st).

Definition setStatusFetches (v : Query.Fetches) (st : State) : State :=
  mkState (analysisState st) (selectedFinding st) (processSteps st)
    (uploadProgress st) (analysisProgress st) (currentFile st)
    (currentPage st) (selectedCategory st) (statusQuery st) (progressQuery st)
    (findingsQuery st) (storedFile st) (requests st) (toasts st) (now st) v
    (progressFetches st) (findingsFetches st) (retried st) (timers st)
    (mutations st).

Definition setProgressFetches (v : Query.Fetches) (st : State) : State :=
  mkState (analysisState st) (selectedFinding st) (processSteps st)
    (uploadProgress st) (analysisProgress st) (currentFile st)
    (currentPage st) (selectedCategory st) (statusQuery st) (progressQuery st)
    (findingsQuery st) (storedFile st) (requests st) (toasts st) (now st)
    (statusFetches st) v (findingsFetches st) (retried st) (timers st)
    (mutations st).

Definition setFindingsFetches (v : Query.Fetches) (st : State) : State :=
  mkState (analysisState st) (selectedFinding st) (processSteps st)
    (uploadProgress st) (analysisProgress st) (currentFile st)
    (currentPage st) (selectedCategory st) (statusQuery st) (progressQuery st)
    (findingsQuery st) (storedFile st) (requests st) (toasts st) (now st)
    (statusFetches st) (progressFetches st) v (retried st) (timers st)
    (mutations st).

Definition setRetried (v : list Request.t) (st : State) : State :=
  mkState (analysisState st) (selectedFinding st) (processSteps st)
    (uploadProgress st) (analysisProgress st) (currentFile st)
    (currentPage st) (selectedCategory st) (statusQuery st) (progressQuery st)
    (findingsQuery st) (storedFile st) (requests st) (toasts st) (now st)
    (statusFetches st) (progressFetches st) (findingsFetches st) v (timers st)
    (mutations st).

Definition setTimers (v : list Timer.t) (st : State) : State :=
  mkState (analysisState st) (selectedFinding st) (processSteps st)
    (uploadProgress st) (analysisProgress st) (currentFile st)
    (currentPage st) (selectedCategory st) (statusQuery st) (progressQuery st)
    (findingsQuery st) (storedFile st) (requests st) (toasts st) (now st)
    (statusFetches st) (progressFetches st) (findingsFetches st) (retried st)
    v (mutations st).

Definition setMutations (v : nat) (st : State) : State :=
  mkState (analysisState st) (selectedFinding st) (processSteps st)
    (uploadProgress st) (analysisProgress st) (currentFile st)
    (currentPage st) (selectedCategory st) (statusQuery st) (progressQuery st)
    (findingsQuery st) (storedFile st) (requests st) (toasts st) (now st)
    (statusFetches st) (progressFetches st) (findingsFetches st) (retried st)
    (timers st) v.

Definition itemsPerPage : Z := 10.

(** *** What the three [useQuery] hooks return *)

Definition documentId (st : State) : option string :=
  AnalysisState.documentId (analysisState st).

Definition analysisStatus (st : State) : option AnalysisStatus.t :=
  Query.data (Query.observe (documentId st) (statusQuery st)).

Definition progressData (st : State) : option ProgressData.t :=
  Query.data (Query.observe (documentId st) (progressQuery st)).

(** [data: findings = []] *)
Definition findings (st : State) : list Finding.t :=
  match Query.data (Query.observe (documentId st) (findingsQuery st)) with
  | Some l => l
  | None => []
  end.

Definition findingsError (st : State) : option AxiosError.t :=
  Query.error (Query.observe (documentId st) (findingsQuery st)).

(** [analysisStatus?.status === s] *)
Definition statusIs (s : string) (st : State) : bool :=
  match analysisStatus st with
  | Some a => String.eqb (AnalysisStatus.status a) s
  | None => false
  end.

(** The [enabled] option of the three queries. *)
Definition statusEnabled (st : State) : bool :=
  JS.truthy_opt (documentId st).

Definition progressEnabled (st : State) : bool :=
  JS.truthy_opt (documentId st) && negb (statusIs "completed" st).

Definition findingsEnabled (st : State) : bool :=
  JS.truthy_opt (documentId st) && statusIs "completed" st.

(** *** Helpers *)

Definition toast (t : Toast.t) (st : State) : State :=
  setToasts (toasts st ++ [t]) st.

(** The log of the fetches and mutations started: the first call of
    [apiService] of each.  The calls the query library repeats after a
    failure are logged by [reissue]. *)
Definition issue (r : Request.t) (st : State) : State :=
  setRequests (requests st ++ [r]) st.

Definition reissue (r : Request.t) (st : State) : State :=
  setRetried (retried st ++ [r]) st.

Definition addProcessStep (id title : string) (status : ProcessStep.Status)
    (message : string) (icon : ProcessStep.Icon) (st : State) : State :=
  setProcessSteps
    (processSteps st ++ [ProcessStep.mk id title status message (now st) icon])
    st.

Definition updateProcessStep (id : string) (status : ProcessStep.Status)
    (message : string) (icon : ProcessStep.Icon) (st : State) : State :=
  setProcessSteps
    (map (fun step =>
            if String.eqb (ProcessStep.id step) id
            then ProcessStep.update status message icon step
            else step)
         (processSteps st))
    st.

Definition setIsAnalyzing (b : bool) (st : State) : State :=
  let prev := analysisState st in
  setAnalysisState
    (AnalysisState.mk (AnalysisState.documentId prev)
       (AnalysisState.filename prev) (AnalysisState.isUploading prev) b)
    st.

Definition setIsUploading (b : bool) (st : State) : State :=
  let prev := analysisState st in
  setAnalysisState
    (AnalysisState.mk (AnalysisState.documentId prev)
       (AnalysisState.filename prev) b (AnalysisState.isAnalyzing prev))
    st.

(** [setInterval], [setTimeout] and [clearInterval]. *)
Definition setTimer (t : Timer.t) (st : State) : State :=
  setTimers (timers st ++ [t]) st.

Definition clearTimer (t : Timer.t) (st : State) : State :=
  setTimers (filter (fun t' => negb (Timer.eqb t' t)) (timers st)) st.

Definition timerSet (t : Timer.t) (st : State) : bool :=
  existsb (Timer.eqb t) (timers st).

(** *** The effects on the query results *)

(** [analysisStatus.findings_count || 0] *)
Definition findingsCountOr0 (a : AnalysisStatus.t) : Z :=
  match AnalysisStatus.findings_count a with
  | Some n => n
  | None => 0
  end.

(** The effect on [analysisStatus], run with a defined value. *)
Definition statusEffect (a : AnalysisStatus.t) (st : State) : State :=
  if String.eqb (AnalysisStatus.status a) "completed" then
    setIsAnalyzing false
      (updateProcessStep "analysis" ProcessStep.completed
         ("Analysis completed! Found " ++ JS.toString (findingsCountOr0 a)
          ++ " concerns.")
         ProcessStep.CheckCircle2
         (setAnalysisProgress 100 st))
  else if String.eqb (AnalysisStatus.status a) "failed" then
    setIsAnalyzing false
      (updateProcessStep "analysis" ProcessStep.error
         "Analysis failed. Please try again." ProcessStep.AlertCircle st)
  else st.

(** The effect on [progressData], run with a defined value. *)
Definition progressEffect (p : ProgressData.t) (st : State) : State :=
  let st := setAnalysisProgress (ProgressData.progress p) st in
  if String.eqb (ProgressData.status p) "analyzing" then
    updateProcessStep "analysis" ProcessStep.in_progress
      (ProgressData.message p) ProcessStep.Brain st
  else if String.eqb (ProgressData.status p) "pending" then
    updateProcessStep "analysis" ProcessStep.in_progress
      (ProgressData.message p) ProcessStep.Clock st
  else if String.eqb (ProgressData.status p) "completed" then
    setAnalysisProgress 100
      (updateProcessStep "analysis" ProcessStep.completed
         "Analysis completed successfully!" ProcessStep.CheckCircle2 st)
  else if String.eqb (ProgressData.status p) "failed" then
    updateProcessStep "analysis" ProcessStep.error
      "Analysis failed. Please try again." ProcessStep.AlertCircle st
  else st.

(** The effect on [findings]. *)
Definition findingsEffect (l : list Finding.t) (st : State) : State :=
  if (0 <? Z.of_nat (List.length l)) then
    addProcessStep "findings-loaded" "Findings Retrieved"
      ProcessStep.completed
      ("Successfully loaded " ++ JS.toString (Z.of_nat (List.length l))
       ++ " findings from analysis.")
      ProcessStep.FileCheck st
  else st.

(** The effect on [findingsError], run with a defined error. *)
Definition findingsErrorEffect (e : AxiosError.t) (st : State) : State :=
  addProcessStep "findings-error" "Findings Error" ProcessStep.error
    ("Failed to load findings: " ++ AxiosError.message e)
    ProcessStep.AlertCircle st.

(** *** The upload mutation *)

(** [mutationFn] up to [await apiService.uploadDocument(file)]. *)
Definition uploadMutation_mutate (file : File.t) (st : State) : State :=
  let mutation := mutations st in
  let st := setMutations (S mutation) st in
  let st :=
    addProcessStep "upload-start" "File Upload Started"
      ProcessStep.in_progress
      ("Uploading " ++ File.name file ++ " ("
       ++ JS.toFixed2_MB (File.size file) ++ " MB)...")
      ProcessStep.Upload st in
  let st := setTimer (Timer.UploadInterval mutation) st in
  issue (Api.uploadDocument file) st.

(** [error.response?.data?.detail || error.message || "Failed to upload document"] *)
Definition uploadErrorMessage (e : AxiosError.t) : JS.Value :=
  JS.orValue (AxiosError.detail e)
    (JS.orValue (JS.Str (AxiosError.message e))
       (JS.Str "Failed to upload document")).

(** [mutationFn] of the mutation numbered [mutation] from the [await] on,
    then [onSuccess] or [onError]. *)
Definition uploadMutation_settled (mutation : nat)
    (r : Settled IngestResponse.t) (st : State) : State :=
  match r with
  | Resolved result =>
      let st := clearTimer (Timer.UploadInterval mutation) st in
      let st := setUploadProgress 50 st in
      let st :=
        updateProcessStep "upload-start" ProcessStep.completed
          ("Upload completed! Document ID: "
           ++ JS.substring0 8 (IngestResponse.document_id result) ++ "...")
          ProcessStep.CheckCircle2 st in
      let st :=
        addProcessStep "text-extraction" "Text Extraction"
          ProcessStep.completed
          ("Extracted " ++ JS.toString (IngestResponse.total_pages result)
           ++ " pages successfully.")
          ProcessStep.FileText st in
      let st :=
        addProcessStep "embedding-generation" "Embedding Generation"
          ProcessStep.in_progress
          "Generating document embeddings for semantic search..."
          ProcessStep.Cpu st in
      let st := setTimer (Timer.EmbeddingInterval mutation) st in
      let st := setTimer (Timer.EmbeddingTimeout mutation) st in
      let st :=
        addProcessStep "vector-store" "Vector Database"
          ProcessStep.in_progress
          "Storing document chunks in vector database..."
          ProcessStep.Database st in
      let st := setTimer (Timer.VectorStoreTimeout mutation) st in
      let st :=
        addProcessStep "analysis" "AI Analysis" ProcessStep.in_progress
          "Starting AI-powered insurance concern analysis..."
          ProcessStep.Brain st in
      let st := setAnalysisProgress 25 st in
      let st :=
        setAnalysisState
          (AnalysisState.mk
             (Some (IngestResponse.document_id result))
             (Some (IngestResponse.filename result))
             false true)
          st in
      toast
        (Toast.mk "Upload successful! 🎉"
           (JS.Str
              "Your document is being analyzed. This may take a few minutes.")
           false)
        st
  | Rejected e =>
      let st := clearTimer (Timer.UploadInterval mutation) st in
      let st := setUploadProgress 0 st in
      let st :=
        updateProcessStep "upload-start" ProcessStep.error
          ("Upload failed: " ++ AxiosError.message e)
          ProcessStep.AlertCircle st in
      let st := setIsUploading false st in
      toast (Toast.mk "Upload failed ❌" (uploadErrorMessage e) true) st
  end.

(** A timer that is set fires: the callbacks of the two intervals and of
    the two timeouts.  A timeout fires once. *)
Definition timerFired (t : Timer.t) (st : State) : State :=
  if timerSet t st then
    match t with
    | Timer.UploadInterval _ =>
        if uploadProgress st >=? 30
        then setUploadProgress 30 (clearTimer t st)
        else setUploadProgress (uploadProgress st + 5) st
    | Timer.EmbeddingInterval _ =>
        if uploadProgress st >=? 75
        then setUploadProgress 75 (clearTimer t st)
        else setUploadProgress (uploadProgress st + 2) st
    | Timer.EmbeddingTimeout mutation =>
        let st := clearTimer t st in
        let st :=
          updateProcessStep "embedding-generation" ProcessStep.completed
            "Document embeddings generated successfully."
            ProcessStep.CheckCircle2 st in
        let st := clearTimer (Timer.EmbeddingInterval mutation) st in
        setUploadProgress 75 st
    | Timer.VectorStoreTimeout _ =>
        let st := clearTimer t st in
        updateProcessStep "vector-store" ProcessStep.completed
          "Document chunks stored in vector database."
          ProcessStep.CheckCircle2 st
    end
  else st.

(** *** [handleFileUpload] *)

Definition invalidTypeToast : Toast.t :=
  Toast.mk "Invalid file type ❌" (JS.Str "Please upload a PDF file") true.

Definition tooLargeToast : Toast.t :=
  Toast.mk "File too large ❌"
    (JS.Str "Please upload a file smaller than 10MB") true.

(** The two checks of [handleFileUpload]: the toast of the first one that
    the file fails. *)
Definition rejection (file : File.t) : option Toast.t :=
  if negb (JS.includes (File.type file) "pdf") then Some invalidTypeToast
  else if File.size file >? 10 * 1024 * 1024 then Some tooLargeToast
  else None.

(** [handleFileUpload] up to the call of [uploadMutation.mutate]; [file]
    is a [File] object, so the guard [if (!file) return] lets it
    through. *)
Definition handleFileUpload_checked (file : File.t) (st : State) : State :=
  let st := setProcessSteps [] st in
  let st := setUploadProgress 0 st in
  let st := setAnalysisProgress 0 st in
  let st := setSelectedFinding None st in
  let st := setCurrentFile (Some file) st in
  match rejection file with
  | Some t => toast t st
  | None => setIsUploading true st
  end.

(** [handleFileUpload]: [mutate] calls the mutation function once the
    handler has returned. *)
Definition handleFileUpload (file : File.t) (st : State) : State :=
  let st := handleFileUpload_checked file st in
  match rejection file with
  | Some _ => st
  | None => uploadMutation_mutate file st
  end.

(** *** Filtering and pagination *)

(** [Array.from(new Set(l))]: the first occurrence of each value, in
    order. *)
Fixpoint unique (seen l : list string) : list string :=
  match l with
  | [] => []
  | x :: rest =>
      if existsb (String.eqb x) seen then unique seen rest
      else x :: unique (x :: seen) rest
  end.

Definition categories (st : State) : list string :=
  "all" :: unique [] (map Finding.category (findings st)).

Definition filteredFindings (st : State) : list Finding.t :=
  if String.eqb (selectedCategory st) "all" then findings st
  else filter (fun finding =>
                 String.eqb (Finding.category finding) (selectedCategory st))
              (findings st).

Definition totalPages (st : State) : Z :=
  JS.ceil_div (Z.of_nat (List.length (filteredFindings st))) itemsPerPage.

Definition startIndex (st : State) : Z := (currentPage st - 1) * itemsPerPage.

Definition endIndex (st : State) : Z := startIndex st + itemsPerPage.

Definition paginatedFindings (st : State) : list Finding.t :=
  JS.slice (filteredFindings st) (startIndex st) (endIndex st).

(** The category buttons and the two pagination buttons. *)
Definition selectCategory (category : string) (st : State) : State :=
  setCurrentPage 1 (setSelectedCategory category st).

Definition previousPage (st : State) : State :=
  setCurrentPage (Z.max (currentPage st - 1) 1) st.

Definition nextPage (st : State) : State :=
  setCurrentPage (Z.min (currentPage st + 1) (totalPages st)) st.

Definition paginationShown (st : State) : bool := 1 <? totalPages st.

Definition previousDisabled (st : State) : bool := currentPage st =? 1.

Definition nextDisabled (st : State) : bool :=
  currentPage st =? totalPages st.

(** *** The queries *)

(** [`${analysisState.documentId!}`] *)
Definition idString (st : State) : string :=
  match documentId st with
  | Some d => d
  | None => "null"
  end.

Definition statusQueryFn (st : State) : State :=
  issue (Api.getAnalysisStatus (idString st)) st.

Definition progressQueryFn (st : State) : State :=
  issue (Api.getProgress (idString st)) st.

Definition findingsQueryFn (st : State) : State :=
  issue (Api.getFindings (idString st)) st.

(** A fetch of a query starts: its query function is called. *)
Definition statusFetch (st : State) : State :=
  setStatusFetches (Query.start (idString st) (statusFetches st))
    (statusQueryFn st).

Definition progressFetch (st : State) : State :=
  setProgressFetches (Query.start (idString st) (progressFetches st))
    (progressQueryFn st).

Definition findingsFetch (st : State) : State :=
  setFindingsFetches (Query.start (idString st) (findingsFetches st))
    (findingsQueryFn st).

(** The [refetchInterval] timer of the status query fires: the query
    fetches unless a fetch of it is under way. *)
Definition statusInterval (st : State) : State :=
  if statusEnabled st
     && negb (Query.fetching (idString st) (statusFetches st))
  then statusFetch st else st.

(** The [refetchInterval] timer of the progress query fires. *)
Definition progressInterval (st : State) : State :=
  if progressEnabled st
     && negb (Query.fetching (idString st) (progressFetches st))
  then progressFetch st else st.

(** The findings query starts a fetch of its own accord (on becoming
    enabled, on window focus, on reconnect). *)
Definition findingsAuto (st : State) : State :=
  if findingsEnabled st then findingsFetch st else st.

(** The refresh button: [refetchStatus(); refetchFindings()].  The
    [refetch] of a query starts a fetch whether or not the query is
    [enabled], in place of the one under way. *)
Definition refresh (st : State) : State :=
  findingsFetch (statusFetch st).

Definition refreshDisabled (st : State) : bool :=
  negb (JS.truthy_opt (documentId st)).

(** An attempt of a fetch settles. *)
Definition statusSettled (key : string) (r : Settled AnalysisStatus.t)
    (st : State) : State :=
  setStatusFetches (Query.attemptSettled key r (statusFetches st))
    (setStatusQuery
       (Query.cacheSettled key r (statusFetches st) (statusQuery st)) st).

Definition progressSettled (key : string) (r : Settled ProgressData.t)
    (st : State) : State :=
  setProgressFetches (Query.attemptSettled key r (progressFetches st))
    (setProgressQuery
       (Query.cacheSettled key r (progressFetches st) (progressQuery st)) st).

Definition findingsSettled (key : string) (r : Settled (list Finding.t))
    (st : State) : State :=
  setFindingsFetches (Query.attemptSettled key r (findingsFetches st))
    (setFindingsQuery
       (Query.cacheSettled key r (findingsFetches st) (findingsQuery st)) st).

(** The delay before a retry is over: the query function of the query
    with that key is called again. *)
Definition statusRetry (key : string) (st : State) : State :=
  if Query.retryDue key (statusFetches st) then
    setStatusFetches (Query.retried key (statusFetches st))
      (reissue (Api.getAnalysisStatus key) st)
  else st.

Definition progressRetry (key : string) (st : State) : State :=
  if Query.retryDue key (progressFetches st) then
    setProgressFetches (Query.retried key (progressFetches st))
      (reissue (Api.getProgress key) st)
  else st.

Definition findingsRetry (key : string) (st : State) : State :=
  if Query.retryDue key (findingsFetches st) then
    setFindingsFetches (Query.retried key (findingsFetches st))
      (reissue (Api.getFindings key) st)
  else st.

(** *** Mounting *)

Definition initial (stored : fileState.t) (now : Z) : State :=
  mkState (AnalysisState.mk None None false false) None [] 0 0 None 1 "all"
    [] [] [] stored [] [] now [] [] [] [] [] 0.

(** The effect on [currentFile]: a stored file is checked as a chosen one
    is, and the slot is cleared. *)
Definition storedFileEffect (st : State) : State :=
  match fileState.getFile (storedFile st), currentFile st with
  | Some file, None =>
      let st := setCurrentFile (Some file) st in
      let st := handleFileUpload_checked file st in
      setStoredFile (fileState.clearFile (storedFile st)) st
  | _, _ => st
  end.

(** The mutation function that the effect on [currentFile] has called
    for, run in [st], when the render it followed had the state [st0]. *)
Definition storedFileMutation (st0 st : State) : State :=
  match fileState.getFile (storedFile st0), currentFile st0 with
  | Some file, None =>
      match rejection file with
      | Some _ => st
      | None => uploadMutation_mutate file st
      end
  | _, _ => st
  end.

(** [checkBackendHealth] up to its [await], and from it on. *)
Definition checkBackendHealth (st : State) : State :=
  issue Api.healthCheck st.

Definition checkBackendHealth_settled (r : Settled string) (st : State)
    : State :=
  match r with
  | Resolved _ =>
      addProcessStep "backend-health-check" "Backend Connection"
        ProcessStep.completed "Successfully connected to backend server."
        ProcessStep.Network st
  | Rejected _ =>
      addProcessStep "backend-health-check" "Backend Connection"
        ProcessStep.error
        "Failed to connect to backend server. Please ensure the backend is running."
        ProcessStep.AlertCircle st
  end.

(** The effects of the first render, in the order of the source: the one
    on [currentFile], then the health check; the mutation function a
    stored file has been handed to starts when both have run. *)
Definition mount (stored : fileState.t) (now : Z) : State :=
  let st0 := initial stored now in
  storedFileMutation st0 (checkBackendHealth (storedFileEffect st0)).

(** *** Events *)

Inductive Event :=
| FileChosen (file : File.t)
| UploadSettled (mutation : nat) (r : Settled IngestResponse.t)
| HealthSettled (r : Settled string)
| StatusInterval
| ProgressInterval
| FindingsAuto
| RefreshClicked
| StatusSettled (key : string) (r : Settled AnalysisStatus.t)
| ProgressSettled (key : string) (r : Settled ProgressData.t)
| FindingsSettled (key : string) (r : Settled (list Finding.t))
| CategoryClicked (category : string)
| PreviousClicked
| NextClicked
| FindingClicked (finding : Finding.t)
| ClockAdvanced (now : Z)
| StatusRetry (key : string)
| ProgressRetry (key : string)
| FindingsRetry (key : string)
| TimerFired (t : Timer.t).

Definition handle (e : Event) (st : State) : State :=
  match e with
  | FileChosen file => handleFileUpload file st
  | UploadSettled mutation r => uploadMutation_settled mutation r st
  | HealthSettled r => checkBackendHealth_settled r st
  | StatusInterval => statusInterval st
  | ProgressInterval => progressInterval st
  | FindingsAuto => findingsAuto st
  | RefreshClicked => if refreshDisabled st then st else refresh st
  | StatusSettled key r => statusSettled key r st
  | ProgressSettled key r => progressSettled key r st
  | FindingsSettled key r => findingsSettled key r st
  | CategoryClicked category => selectCategory category st
  | PreviousClicked =>
      if paginationShown st && negb (previousDisabled st)
      then previousPage st else st
  | NextClicked =>
      if paginationShown st && negb (nextDisabled st)
      then nextPage st else st
  | FindingClicked finding => setSelectedFinding (Some finding) st
  | ClockAdvanced now => setNow now st
  | StatusRetry key => statusRetry key st
  | ProgressRetry key => progressRetry key st
  | FindingsRetry key => findingsRetry key st
  | TimerFired t => timerFired t st
  end.

(** The effects that run after a render: each one whose dependency
    differs from its value at the render before ([old]), in the order of
    the source.  Query data that is deeply equal to the data before keeps
    its identity; the identity of query data is taken to be the equality
    of the values.  An error is the object of the failure that stored
    it. *)
Definition statusChanged (old new : State) : option AnalysisStatus.t :=
  match analysisStatus new with
  | Some a =>
      match analysisStatus old with
      | Some a0 => if AnalysisStatus.eqb a0 a then None else Some a
      | None => Some a
      end
  | None => None
  end.

Definition progressChanged (old new : State) : option ProgressData.t :=
  match progressData new with
  | Some p =>
      match progressData old with
      | Some p0 => if ProgressData.eqb p0 p then None else Some p
      | None => Some p
      end
  | None => None
  end.

Definition findingsChanged (old new : State) : bool :=
  negb (Finding.eqb_list (findings old) (findings new)).

(** [queryKey] differs between the two renders. *)
Definition keyChanged (old new : State) : bool :=
  negb (match documentId old, documentId new with
        | Some d0, Some d => String.eqb d0 d
        | None, None => true
        | _, _ => false
        end).

Definition findingsErrorCount (st : State) : nat :=
  Query.errorUpdateCount (Query.observe (documentId st) (findingsQuery st)).

Definition findingsErrorChanged (old new : State) : option AxiosError.t :=
  match findingsError new, findingsError old with
  | Some e, None => Some e
  | Some e, Some _ =>
      if negb (keyChanged old new)
         && Nat.eqb (findingsErrorCount old) (findingsErrorCount new)
      then None else Some e
  | None, _ => None
  end.

Definition afterRender (old new : State) : State :=
  let st := new in
  let st := match statusChanged old new with
            | Some a => statusEffect a st
            | None => st
            end in
  let st := match progressChanged old new with
            | Some p => progressEffect p st
            | None => st
            end in
  let st := if findingsChanged old new
            then findingsEffect (findings new) st else st in
  match findingsErrorChanged old new with
  | Some e => findingsErrorEffect e st
  | None => st
  end.

(** A query that is enabled fetches at once when it was not enabled at
    the render before, or had another key. *)
Definition becameEnabled (enabled : State -> bool) (old new : State) : bool :=
  enabled new && (negb (enabled old) || keyChanged old new).

Definition statusOnEnable (old new : State) : State :=
  if becameEnabled statusEnabled old new
     && negb (Query.fetching (idString new) (statusFetches new))
  then statusFetch new else new.

Definition progressOnEnable (old new : State) : State :=
  if becameEnabled progressEnabled old new
     && negb (Query.fetching (idString new) (progressFetches new))
  then progressFetch new else new.

(** The status query and the progress query after the render [new] that
    follows the render [old]; the findings query does the same as the
    event [FindingsAuto]. *)
Definition fetchOnEnable (old new : State) : State :=
  progressOnEnable old (statusOnEnable old new).

(** The requests [fetchOnEnable] issues. *)
Definition enabledFetches (old new : State) : list Request.t :=
  (if becameEnabled statusEnabled old new
      && negb (Query.fetching (idString new) (statusFetches new))
   then [Api.getAnalysisStatus (idString new)] else [])
  ++ (if becameEnabled progressEnabled old new
         && negb (Query.fetching (idString new) (progressFetches new))
      then [Api.getProgress (idString new)] else []).

Definition step (e : Event) (st : State) : State :=
  fetchOnEnable st (afterRender st (handle e st)).

Definition run (events : list Event) (st : State) : State :=
  fold_left (fun s e => step e s) events st.

(** The requests issued between [st] and a later state [st']. *)
Definition newRequests (st st' : State) : list Request.t :=
  skipn (List.length (requests st)) (requests st').


Definition isUploadRequest (r : Request.t) : bool :=
  String.eqb (Request.url r) "/ingest".

(** The requests an event makes the page issue. *)
Definition emitted (e : Event) (st : State) : list Request.t :=
  newRequests st (step e st).

(** The requests an event makes the library repeat. *)
Definition repeated (e : Event) (st : State) : list Request.t :=
  skipn (List.length (retried st)) (retried (step e st)).

(** One round of polling document [d]: both timers fire, and the two
    fetches are answered, with the status and the progress of [answer]. *)
Definition pollRound (d : string) (answer : AnalysisStatus.t * ProgressData.t)
    : list Event :=
  [ StatusInterval; ProgressInterval;
    StatusSettled d (Resolved (fst answer));
    ProgressSettled d (Resolved (snd answer)) ].

(** Polling document [d] through a sequence of answers. *)
Definition poll (d : string)
    (answers : list (AnalysisStatus.t * ProgressData.t)) : list Event :=
  flat_map (pollRound d) answers.

(** [st'] differs from [st] at most in the process steps, the analysis
    progress and the analyzing flag: what the effects may write. *)
Definition effectOf (st st' : State) : Prop :=
  requests st' = requests st
  /\ toasts st' = toasts st
  /\ documentId st' = documentId st
  /\ statusQuery st' = statusQuery st
  /\ progressQuery st' = progressQuery st
  /\ findingsQuery st' = findingsQuery st
  /\ currentPage st' = currentPage st
  /\ selectedCategory st' = selectedCategory st
  /\ statusFetches st' = statusFetches st
  /\ progressFetches st' = progressFetches st
  /\ findingsFetches st' = findingsFetches st
  /\ retried st' = retried st.

(** The state after the fetches of the queries that become enabled, but
    for the request log and the marks of the fetches. *)
Definition sameButFetches (st st' : State) : Prop :=
  analysisState st' = analysisState st
  /\ selectedFinding st' = selectedFinding st
  /\ processSteps st' = processSteps st
  /\ uploadProgress st' = uploadProgress st
  /\ analysisProgress st' = analysisProgress st
  /\ currentFile st' = currentFile st
  /\ currentPage st' = currentPage st
  /\ selectedCategory st' = selectedCategory st
  /\ statusQuery st' = statusQuery st
  /\ progressQuery st' = progressQuery st
  /\ findingsQuery st' = findingsQuery st
  /\ storedFile st' = storedFile st
  /\ toasts st' = toasts st
  /\ now st' = now st
  /\ findingsFetches st' = findingsFetches st
  /\ retried st' = retried st
  /\ timers st' = timers st
  /\ mutations st' = mutations st.

(** The two checks of [handleFileUpload]. *)
Definition maxSize : Z := 10 * 1024 * 1024.

Definition passesValidation (file : File.t) : bool :=
  JS.includes (File.type file) "pdf" && (File.size file <=? maxSize).

(** *** What the page renders *)

(** [!analysisState.documentId && !currentFile]: the upload interface is
    rendered instead of the results. *)
Definition showsUploadInterface (st : State) : bool :=
  negb (JS.truthy_opt (documentId st))
  && match currentFile st with
     | Some _ => false
     | None => true
     end.

(** [getSeverityColor] *)
Definition getSeverityColor (severity : string) : BadgeVariant :=
  let s := JS.toLowerCase severity in
  if String.eqb s "high" then VariantDestructive
  else if String.eqb s "medium" then VariantSecondary
  else if String.eqb s "low" then VariantDefault
  else VariantDefault.

(** The icons of [getCategoryIcon]. *)
Inductive CategoryIcon :=
| IconX | IconAlertTriangle | IconClock | IconInfo | IconFileCheck
| IconFileText.

(** [getCategoryIcon] *)
Definition getCategoryIcon (category : string) : CategoryIcon :=
  let c := JS.toLowerCase category in
  if String.eqb c "exclusions" then IconX
  else if String.eqb c "limitations" then IconAlertTriangle
  else if String.eqb c "waiting periods" then IconClock
  else if String.eqb c "deductible" then IconAlertTriangle
  else if String.eqb c "copayment" then IconAlertTriangle
  else if String.eqb c "coinsurance" then IconAlertTriangle
  else if String.eqb c "policyholder duty" then IconInfo
  else if String.eqb c "renewal restriction" then IconClock
  else if String.eqb c "claim process" then IconFileCheck
  else if String.eqb c "network restriction" then IconX
  else IconFileText.

(** The count on the button of a category:
    [findings.filter(f => f.category === category).length]. *)
Definition categoryCount (category : string) (st : State) : Z :=
  Z.of_nat
    (List.length
       (filter (fun f => String.eqb (Finding.category f) category)
          (findings st))).

(** *** [findingsByCategory]

    The accumulator of the [reduce] is an object literal: its own
    properties, each an array, and the properties it inherits from
    [Object.prototype], which are truthy and have no [push]. *)
Definition Groups := list (string * list Finding.t).

Definition inheritedKey (k : string) : bool :=
  existsb (String.eqb k)
    [ "constructor"; "hasOwnProperty"; "isPrototypeOf";
      "propertyIsEnumerable"; "toLocaleString"; "toString"; "valueOf";
      "__proto__"; "__defineGetter__"; "__defineSetter__";
      "__lookupGetter__"; "__lookupSetter__" ].

Fixpoint getOwn (k : string) (acc : Groups) : option (list Finding.t) :=
  match acc with
  | [] => None
  | (k', l) :: rest => if String.eqb k' k then Some l else getOwn k rest
  end.

(** [acc[k].push(finding)] for an own property [k]. *)
Fixpoint push (k : string) (finding : Finding.t) (acc : Groups) : Groups :=
  match acc with
  | [] => []
  | (k', l) :: rest =>
      if String.eqb k' k then (k', (l ++ [finding])%list) :: rest
      else (k', l) :: push k finding rest
  end.

(** One call of the reducer; [None] is the [TypeError] of calling a
    [push] that is not there. *)
Definition groupStep (acc : option Groups) (finding : Finding.t)
    : option Groups :=
  match acc with
  | None => None
  | Some g =>
      let k := Finding.category finding in
      match getOwn k g with
      | Some _ => Some (push k finding g)
      | None =>
          if inheritedKey k then None
          else Some (g ++ [(k, [finding])])%list
      end
  end.

Definition findingsByCategory (st : State) : option Groups :=
  fold_left groupStep (findings st) (Some []).

End Analysis.

(** ** The analysis page with the viewer it renders

    The results view ends in [<PDFViewer documentId={analysisState.documentId} ... />];
    the upload interface, rendered instead while there is neither a
    document id nor a current file, has no viewer. *)

Module Screen.

Record State := mkState {
  page : Analysis.State;
  viewer : option PDFViewer.State
}.

(** The viewer after the page has rendered: mounted, handed another
    document id, or unmounted. *)
Definition render (page : Analysis.State) (before : option PDFViewer.State)
    : option PDFViewer.State :=
  if Analysis.showsUploadInterface page then None
  else
    Some match before with
         | Some v => PDFViewer.withDocumentId (Analysis.documentId page) v
         | None => PDFViewer.mount (Analysis.documentId page)
         end.

Definition mount (stored : fileState.t) (now : Z) : State :=
  let page := Analysis.mount stored now in
  mkState page (render page None).

Definition step (e : Analysis.Event) (st : State) : State :=
  let page := Analysis.step e (page st) in
  mkState page (render page (viewer st)).

Definition run (events : list Analysis.Event) (st : State) : State :=
  fold_left (fun s e => step e s) events st.

(** The requests of the viewer that is mounted. *)
Definition fetched (st : State) : list Request.t :=
  match viewer st with
  | Some v => PDFViewer.requests v
  | None => []
  end.

(** The viewer, when there is one, has the document id of the page. *)
Definition inStep (st : State) : Prop :=
  forall v, viewer st = Some v ->
            PDFViewer.documentId v = Analysis.documentId (page st).

End Screen.

(** ** pages/TestConnection.tsx *)

Module TestConnection.

(** The two [useState] cells, and the outside: requests, toasts and the
    number of health checks that have not settled. *)
Record State := mkState {
  status : string;
  isConnected : bool;
  requests : list Request.t;
  toasts : list Toast.t;
  pending : nat
}.

Definition initial : State := mkState "Testing..." false [] [] 0.

(** [testConnection] up to its [await]. *)
Definition testConnection (st : State) : State :=
  mkState "Testing backend connection..." (isConnected st)
    (requests st ++ [Api.healthCheck]) (toasts st) (S (pending st)).

(** [testConnection] from its [await] on. *)
Definition testConnection_settled (r : Settled string) (st : State) : State :=
  match r with
  | Resolved _ =>
      mkState "Connected! ✅" true (requests st)
        (toasts st
         ++ [Toast.mk "Backend Connected"
               (JS.Str "Successfully connected to the backend API") false])
        (Nat.pred (pending st))
  | Rejected _ =>
      mkState "Connection failed! ❌" false (requests st)
        (toasts st
         ++ [Toast.mk "Connection Failed"
               (JS.Str "Could not connect to the backend API") true])
        (Nat.pred (pending st))
  end.

(** The effect of mounting calls [testConnection]. *)
Definition mount : State := testConnection initial.

Inductive Event :=
| TestAgainClicked
| HealthSettled (r : Settled string).

Definition step (e : Event) (st : State) : State :=
  match e with
  | TestAgainClicked => testConnection st
  | HealthSettled r =>
      match pending st with
      | O => st
      | S _ => testConnection_settled r st
      end
  end.

Definition run (events : list Event) (st : State) : State :=
  fold_left (fun s e => step e s) events st.

Definition isClick (e : Event) : bool :=
  match e with
  | TestAgainClicked => true
  | HealthSettled _ => false
  end.

(** The banner "Backend is running!" is rendered. *)
Definition bannerShown (st : State) : bool := isConnected st.

End TestConnection.

(** ** README.md: the categories of the analysis *)

Module Readme.

Definition categories : list string :=
  [ "EXCLUSION"; "DEDUCTIBLE"; "COPAYMENT"; "COINSURANCE"; "WAITING_PERIOD";
    "POLICYHOLDER_DUTY"; "CLAIM_PROCESS"; "NETWORK_RESTRICTION";
    "RENEWAL_RESTRICTION" ].

End Readme.

(** ** The words of the specification

    The upload precondition speaks of a file with a PDF content type: the
    media type of PDF, as a browser reports it. *)

Module Spec.

Definition isPdfContentType (type : string) : bool :=
  String.eqb type "application/pdf".

End Spec.

(** ** The scenario of the specification

    policy.pdf, 2 MB, is uploaded and becomes document abc123 with 12
    pages; the status is polled as pending, analyzing, and then completed
    or failed. *)

Module Scenario.
Import Analysis.

Definition policy : File.t :=
  File.mk "policy.pdf" "application/pdf" (2 * 1024 * 1024).

Definition large : File.t :=
  File.mk "large.pdf" "application/pdf" (12 * 1024 * 1024).

Definition picture : File.t := File.mk "scan.png" "image/png" 4096.

(** An archive of PDF files: not a PDF, with pdf in the name of its
    type. *)
Definition archive : File.t :=
  File.mk "policies.gz" "application/x-gzpdf" 4096.

Definition ingested : IngestResponse.t :=
  IngestResponse.mk "abc123" "policy.pdf" 12 "pending".

Definition status (s : string) : AnalysisStatus.t :=
  AnalysisStatus.mk "abc123" s None.

Definition progress (s : string) : ProgressData.t :=
  ProgressData.mk s 40 "Working" "t0".

Definition answer (s : string) : AnalysisStatus.t * ProgressData.t :=
  (status s, progress s).

Definition uploaded : State :=
  run [FileChosen policy; UploadSettled 0 (Resolved ingested)] (mount None 0).

Definition analyzing : State :=
  run (poll "abc123" [answer "pending"; answer "analyzing"]) uploaded.

Definition completed : State :=
  run (poll "abc123" [answer "completed"]) analyzing.

Definition failed : State := run (poll "abc123" [answer "failed"]) analyzing.

Definition finding1 : Finding.t :=
  Finding.mk 1 "EXCLUSION" "HIGH" "Flood damage is excluded." None 3
    (23 # 25).

End Scenario.

(** * Properties *)

(** ** The built-ins on concrete inputs *)

Example includes_pdf :
  JS.includes "application/pdf" "pdf" = true
  /\ JS.includes "image/png" "pdf" = false
  /\ JS.includes "application/PDF" "pdf" = false
  /\ JS.includes "" "pdf" = false.
Proof. repeat split; reflexivity. Qed.

Example trim_examples :
  JS.trim "  hi there " = "hi there" /\ JS.trim "   " = "" /\ JS.trim "" = "".
Proof. repeat split; reflexivity. Qed.

Example toFixed2_MB_examples :
  JS.toFixed2_MB 2097152 = "2.00"
  /\ JS.toFixed2_MB 12582912 = "12.00"
  /\ JS.toFixed2_MB 1500000 = "1.43"
  /\ JS.toFixed2_MB 0 = "0.00".
Proof. repeat split; reflexivity. Qed.

Example slice_examples :
  JS.slice [1; 2; 3; 4; 5] 1 3 = [2; 3]
  /\ JS.slice [1; 2; 3; 4; 5] 3 13 = [4; 5]
  /\ JS.slice [1; 2; 3; 4; 5] 10 20 = []
  /\ JS.slice [1; 2; 3; 4; 5] (-2) 5 = [4; 5].
Proof. repeat split; reflexivity. Qed.

Example ceil_div_examples :
  JS.ceil_div 0 10 = 0 /\ JS.ceil_div 1 10 = 1 /\ JS.ceil_div 10 10 = 1
  /\ JS.ceil_div 11 10 = 2 /\ JS.ceil_div 25 10 = 3.
Proof. repeat split; reflexivity. Qed.

Example endsWith_examples :
  JS.endsWith "my-app.vercel.app" "vercel.app" = true
  /\ JS.endsWith "localhost" "vercel.app" = false
  /\ JS.endsWith "vercel.app.example.org" "vercel.app" = false.
Proof. repeat split; reflexivity. Qed.

(** ** The file slot *)

(** C10. The module-level file state is a single-slot store: after
    [setFile f] the slot reads [f], whatever it held before; after
    [clearFile] it reads null; it reads null initially. *)
Theorem C10_fileState_single_slot :
  forall (f : File.t) (before : fileState.t),
    fileState.getFile (fileState.setFile f before) = Some f
    /\ fileState.getFile (fileState.clearFile before) = None
    /\ fileState.getFile fileState.initial = None.
Proof.
  intros f before. repeat split.
Qed.

(** Storing twice keeps the second file only. *)
Lemma fileState_setFile_overwrites :
  forall (f g : File.t) (before : fileState.t),
    fileState.getFile (fileState.setFile g (fileState.setFile f before))
    = Some g.
Proof. reflexivity. Qed.

(** The two checks as one test. *)
Lemma rejection_cases :
  forall file : File.t,
    Analysis.rejection file
    = if Analysis.passesValidation file then None
      else if JS.includes (File.type file) "pdf"
           then Some Analysis.tooLargeToast
           else Some Analysis.invalidTypeToast.
Proof.
  intro file.
  unfold Analysis.rejection, Analysis.passesValidation, Analysis.maxSize.
  rewrite Z.gtb_ltb, Z.ltb_antisym.
  destruct (JS.includes (File.type file) "pdf"); cbn [negb andb];
    [|reflexivity].
  destruct (File.size file <=? 10 * 1024 * 1024); reflexivity.
Qed.

(** From the landing page to the analysis page: a file that passes the
    checks is handed over through the slot, uploaded once when the analysis
    page mounts, after the health check, and the slot is empty again; a
    file that fails them never reaches the slot, and mounting only checks
    the health of the service. *)
Lemma file_handed_over_through_slot :
  forall (file : File.t) (now : Z),
    let landing := Index.handleFileUpload file (Index.initial None) in
    let page := Analysis.mount (Index.storedFile landing) now in
    Analysis.requests page
    = (if Analysis.passesValidation file
       then [Api.healthCheck; Api.uploadDocument file]
       else [Api.healthCheck])
    /\ Analysis.storedFile page = None.
Proof.
  intros file now landing page.
  assert (Hslot : Index.storedFile landing
                  = if Analysis.passesValidation file then Some file else None).
  { unfold landing, Index.handleFileUpload, Analysis.passesValidation,
      Analysis.maxSize.
    rewrite Z.gtb_ltb, Z.ltb_antisym.
    destruct (JS.includes (File.type file) "pdf"); cbn [negb andb];
      [|reflexivity].
    destruct (File.size file <=? 10 * 1024 * 1024); reflexivity. }
  unfold page. rewrite Hslot.
  destruct (Analysis.passesValidation file) eqn:Ev; [|split; reflexivity].
  unfold Analysis.mount, Analysis.storedFileMutation,
    Analysis.storedFileEffect, Analysis.handleFileUpload_checked.
  cbn [fileState.getFile Analysis.storedFile Analysis.initial
       Analysis.currentFile].
  rewrite rejection_cases, Ev. split; reflexivity.
Qed.

(** ** The base URL *)

(** The environment variable wins whenever it is a non-empty string. *)
Lemma API_BASE_URL_env :
  forall (url : string) (hostname : option string),
    JS.truthy url = true ->
    Api.API_BASE_URL (Some url) hostname = url.
Proof.
  intros url hostname H. unfold Api.API_BASE_URL, JS.or_else.
  now rewrite H.
Qed.

(** Without it the default depends on where the page is served from. *)
Lemma API_BASE_URL_fallback :
  Api.API_BASE_URL None (Some "insurance.vercel.app")
  = "https://raykarr-insurance-document-analyzer-api.hf.space"
  /\ Api.API_BASE_URL None (Some "localhost") = "http://localhost:7860"
  /\ Api.API_BASE_URL (Some "") None = "http://localhost:7860".
Proof. repeat split; reflexivity. Qed.

(** Every call of [apiService] goes through the axios instance, so to the
    base URL followed by its path. *)
Lemma apiService_targets_base :
  forall (base : string) (file : File.t) (d c q : string) (n : Z),
    Forall (fun r => String.prefix base (Api.target base r) = true)
      [ Api.uploadDocument file; Api.getAnalysisStatus d; Api.getFindings d;
        Api.getFindingsByCategory d c; Api.sendChatMessage n q;
        Api.healthCheck; Api.getProgress d ].
Proof.
  intros base file d c q n.
  assert (P : forall s, String.prefix base (base ++ s) = true).
  { intro s. induction base as [|a b IH]; simpl.
    - now destruct s.
    - rewrite IH. now destruct (Ascii.ascii_dec a a). }
  repeat constructor; apply P.
Qed.

(** C9. With the base URL set to https://api.example.com and document
    abc123 shown, the viewer sends its request to localhost:7860, which is
    not resolved from the base URL. *)
Theorem C9_pdf_viewer_bypasses_base_url :
  let base :=
    Api.API_BASE_URL (Some "https://api.example.com")
      (Some "insurance.vercel.app") in
  base = "https://api.example.com"
  /\ map (Api.target base) (PDFViewer.effect (Some "abc123"))
     = ["http://localhost:7860/documents/abc123/pdf#view=FitH&toolbar=1"]
  /\ forallb (fun r => String.prefix base (Api.target base r))
       (PDFViewer.effect (Some "abc123")) = false.
Proof. repeat split; reflexivity. Qed.

(** ** The chat panel *)

Section ChatPanelFacts.
Import ChatPanel.

Lemma busyCounts_effect :
  forall now st, busyCounts st -> busyCounts (effect now st).
Proof.
  intros now st H. unfold effect.
  destruct (findingChanged st); exact H.
Qed.

Lemma busyCounts_handleSendMessage :
  forall now st, busyCounts st -> busyCounts (handleSendMessage now st).
Proof.
  intros now st H. unfold handleSendMessage.
  destruct (negb (JS.truthy (JS.trim (inputValue st)))); simpl; [exact H|].
  destruct (isLoading st) eqn:E; simpl; [exact H|].
  unfold busyCounts in *. simpl. rewrite E in H. now rewrite H.
Qed.

Lemma busyCounts_step :
  forall e st, busyCounts st -> busyCounts (step e st).
Proof.
  intros e st H. destruct e; simpl.
  - apply busyCounts_effect. exact H.
  - destruct (inputDisabled st); exact H.
  - destruct (nth_error quickQuestions index); exact H.
  - destruct (sendDisabled st);
      [exact H | now apply busyCounts_handleSendMessage].
  - destruct (inputDisabled st);
      [exact H | now apply busyCounts_handleSendMessage].
  - destruct (pending st) as [|n] eqn:E; [exact H|].
    unfold busyCounts in H. rewrite E in H.
    destruct (isLoading st); [|discriminate].
    destruct r; unfold busyCounts; simpl; rewrite E; now inversion H.
Qed.

Lemma busyCounts_run :
  forall events st, busyCounts st -> busyCounts (run events st).
Proof.
  induction events as [|e events IH]; intros st H; simpl.
  - exact H.
  - apply IH, busyCounts_step, H.
Qed.

Lemma busyCounts_mount : forall f now, busyCounts (mount f now).
Proof.
  intros f now. apply busyCounts_effect. reflexivity.
Qed.

End ChatPanelFacts.

Lemma findingChanged_withFinding :
  forall (f : Finding.t) (st : ChatPanel.State),
    ChatPanel.findingChanged (ChatPanel.withFinding f st)
    = match ChatPanel.currentFindingId st with
      | Some i => negb (Finding.id f =? i)
      | None => true
      end.
Proof. reflexivity. Qed.

(** Selecting a finding the panel is not bound to binds it and appends its
    context message, and touches nothing else. *)
Lemma step_SelectFinding_changed :
  forall (f : Finding.t) (now : Z) (st : ChatPanel.State),
    ChatPanel.findingChanged (ChatPanel.withFinding f st) = true ->
    ChatPanel.step (ChatPanel.SelectFinding f now) st
    = ChatPanel.mkState f (ChatPanel.inputValue st)
        (ChatPanel.messages st ++ [ChatPanel.contextMessage f now])
        (Some (Finding.id f)) (ChatPanel.isLoading st)
        (ChatPanel.requests st) (ChatPanel.toasts st) (ChatPanel.pending st).
Proof.
  intros f now st H. unfold ChatPanel.step, ChatPanel.effect.
  now rewrite H.
Qed.

(** Printing an integer loses nothing, so the paths of the chat requests
    of two findings differ when the ids do. *)
Lemma to_int_nonnil :
  forall n : Z,
    Z.to_int n <> Decimal.Pos Decimal.Nil
    /\ Z.to_int n <> Decimal.Neg Decimal.Nil.
Proof.
  intros [|p|p]; cbn; split; try discriminate;
    intro H; injection H as H;
    now apply (DecimalPos.Unsigned.to_uint_nonnil p).
Qed.

Lemma toString_inj :
  forall a b : Z, JS.toString a = JS.toString b -> a = b.
Proof.
  intros a b H. unfold JS.toString in H.
  apply (f_equal NilZero.int_of_string) in H.
  destruct (to_int_nonnil a) as [A1 A2].
  destruct (to_int_nonnil b) as [B1 B2].
  rewrite !NilZero.isi in H by assumption.
  injection H as H. now apply DecimalZ.to_int_inj.
Qed.

Lemma length_append :
  forall x y : string,
    String.length (x ++ y) = (String.length x + String.length y)%nat.
Proof.
  induction x as [|a x IH]; intro y; cbn; [reflexivity | now rewrite IH].
Qed.

Lemma append_cancel_r :
  forall s x y : string, x ++ s = y ++ s -> x = y.
Proof.
  intros s x y H.
  assert (L : String.length x = String.length y).
  { apply (f_equal String.length) in H. rewrite !length_append in H. lia. }
  revert y H L. induction x as [|a x IH]; intros [|b y] H L;
    try discriminate L; [reflexivity|].
  cbn in H. injection H as -> H. f_equal. apply IH; [exact H|].
  cbn in L. lia.
Qed.

Lemma chat_path_inj :
  forall a b : Z,
    "/findings/" ++ JS.toString a ++ "/chat"
    = "/findings/" ++ JS.toString b ++ "/chat" ->
    a = b.
Proof.
  intros a b H. cbn [String.append] in H.
  repeat match type of H with
         | String _ _ = String _ _ => injection H as H
         end.
  now apply toString_inj, (append_cancel_r "/chat").
Qed.

(** C5. From a panel that is idle and not yet bound to finding [A]:
    selecting [A], selecting a finding [B] with another id, typing a
    question and sending it leaves the transcript as it was, followed by
    the context message of [A], the context message of [B] and the user
    message with the question, in this order; the one request issued is
    the POST of the question to the chat path of [B]'s id, which is not
    the chat path of [A]'s id; and the panel is bound to [B]. *)
Theorem C5_second_finding_appends_context :
  forall (A B : Finding.t) (q : string) (tA tB tq : Z) (st : ChatPanel.State),
    Finding.id A <> Finding.id B ->
    ChatPanel.currentFindingId st <> Some (Finding.id A) ->
    ChatPanel.isLoading st = false ->
    JS.truthy (JS.trim q) = true ->
    let st' :=
      ChatPanel.run
        [ ChatPanel.SelectFinding A tA; ChatPanel.SelectFinding B tB;
          ChatPanel.ChangeInput q; ChatPanel.ClickSend tq ] st in
    let context (f : Finding.t) (t : Z) :=
      ChatMessage.mk ("context-" ++ JS.toString (Finding.id f))
        ChatMessage.bot
        ("Now discussing: " ++ Finding.category f ++ " on page "
         ++ JS.toString (Finding.page_num f) ++ ". " ++ Finding.summary f)
        t in
    let path (f : Finding.t) :=
      "/findings/" ++ JS.toString (Finding.id f) ++ "/chat" in
    ChatPanel.messages st'
    = (ChatPanel.messages st
       ++ [ context A tA; context B tB;
            ChatMessage.mk (JS.toString tq) ChatMessage.user q tq ])%list
    /\ ChatPanel.requests st'
       = (ChatPanel.requests st
          ++ [Request.mk ViaApi POST (path B) (JsonQ q)])%list
    /\ path B <> path A
    /\ ChatPanel.currentFindingId st' = Some (Finding.id B).
Proof.
  intros A B q tA tB tq st HAB Hcur Hidle Hq.
  assert (E1 : ChatPanel.findingChanged (ChatPanel.withFinding A st) = true).
  { rewrite findingChanged_withFinding.
    destruct (ChatPanel.currentFindingId st) as [i|]; [|reflexivity].
    destruct (Z.eqb_spec (Finding.id A) i) as [e|n]; [|reflexivity].
    elim Hcur. now rewrite e. }
  assert (E2 : (Finding.id B =? Finding.id A) = false).
  { apply Z.eqb_neq. congruence. }
  cbv zeta. unfold ChatPanel.run, fold_left.
  rewrite (step_SelectFinding_changed A tA st E1).
  rewrite step_SelectFinding_changed
    by (rewrite findingChanged_withFinding;
        cbn [ChatPanel.currentFindingId]; now rewrite E2).
  unfold ChatPanel.step, ChatPanel.inputDisabled, ChatPanel.sendDisabled,
    ChatPanel.handleSendMessage, ChatPanel.setInputValue.
  repeat (cbn [ChatPanel.isLoading ChatPanel.inputValue ChatPanel.messages
               ChatPanel.requests ChatPanel.currentFindingId
               ChatPanel.finding ChatPanel.toasts ChatPanel.pending
               negb orb];
          rewrite ?Hidle, ?Hq).
  rewrite <- !app_assoc. repeat split.
  intro H. apply chat_path_inj in H. congruence.
Qed.

Lemma C5_second_finding_appends_context_witness :
  let A := Finding.mk 1 "EXCLUSION" "HIGH" "Flood damage is excluded." None 3
             0%Q in
  let B := Finding.mk 2 "DEDUCTIBLE" "LOW" "A deductible applies." None 5
             0%Q in
  let st' :=
    ChatPanel.run
      [ ChatPanel.SelectFinding A 10; ChatPanel.SelectFinding B 20;
        ChatPanel.ChangeInput "What does this mean?"; ChatPanel.ClickSend 30 ]
      (ChatPanel.initial A) in
  ChatPanel.messages st'
  = [ ChatMessage.mk "context-1" ChatMessage.bot
        "Now discussing: EXCLUSION on page 3. Flood damage is excluded." 10;
      ChatMessage.mk "context-2" ChatMessage.bot
        "Now discussing: DEDUCTIBLE on page 5. A deductible applies." 20;
      ChatMessage.mk "30" ChatMessage.user "What does this mean?" 30 ]
  /\ ChatPanel.requests st'
     = [ Request.mk ViaApi POST "/findings/2/chat"
           (JsonQ "What does this mean?") ].
Proof.
  intros A B.
  destruct (C5_second_finding_appends_context A B "What does this mean?"
              10 20 30 (ChatPanel.initial A)) as (H1 & H2 & _).
  - simpl. lia.
  - simpl. discriminate.
  - reflexivity.
  - reflexivity.
  - split; [exact H1 | exact H2].
Defined.

(** C6. While a send is in flight a further send does nothing: the state
    after [handleSendMessage] is the state before, so no request is issued,
    no message appended, and transcript and input are unchanged; the button
    and the Enter key do nothing either.  From mounting on, never more than
    one send is awaiting its response. *)
Theorem C6_send_while_busy_is_ignored :
  (forall (now : Z) (st : ChatPanel.State),
      ChatPanel.isLoading st = true ->
      ChatPanel.handleSendMessage now st = st
      /\ ChatPanel.step (ChatPanel.ClickSend now) st = st
      /\ ChatPanel.step (ChatPanel.PressEnter now) st = st)
  /\ (forall (f : Finding.t) (t0 : Z) (events : list ChatPanel.Event),
         (ChatPanel.pending (ChatPanel.run events (ChatPanel.mount f t0)) <= 1)%nat).
Proof.
  split.
  - intros now st H.
    assert (E : ChatPanel.handleSendMessage now st = st).
    { unfold ChatPanel.handleSendMessage. rewrite H.
      now rewrite orb_true_r. }
    repeat split.
    + exact E.
    + simpl. unfold ChatPanel.sendDisabled. rewrite H.
      now rewrite orb_true_r.
    + simpl. unfold ChatPanel.inputDisabled. now rewrite H.
  - intros f t0 events.
    pose proof (busyCounts_run events _ (busyCounts_mount f t0)) as H.
    unfold ChatPanel.busyCounts in H. rewrite H.
    destruct (ChatPanel.isLoading _); lia.
Qed.

Lemma C6_send_while_busy_is_ignored_witness :
  let f := Finding.mk 1 "EXCLUSION" "HIGH" "Flood damage is excluded." None 3
             0%Q in
  let st :=
    ChatPanel.run
      [ ChatPanel.ChangeInput "Is this normal?"; ChatPanel.ClickSend 5;
        ChatPanel.QuickQuestion 1 ]
      (ChatPanel.mount f 0) in
  ChatPanel.isLoading st = true
  /\ ChatPanel.inputValue st = "How does this affect me?"
  /\ ChatPanel.handleSendMessage 6 st = st.
Proof.
  intros f st. split; [reflexivity|]. split; [reflexivity|].
  apply (proj1 C6_send_while_busy_is_ignored 6 st). reflexivity.
Defined.

(** C7. A send from an idle panel with a non-blank question appends the
    user message, whose content is the question, and issues the chat
    request at once, while the response is still awaited.  When the
    response arrives the assistant reply, whose content is the answer of
    the response, is appended; when the request fails the fallback message
    about an error while processing the question is appended and a
    destructive toast titled Chat Error is shown, with the detail of the
    response when that is truthy and a fixed text otherwise.  Neither
    continuation issues a request, so the send is not retried, and both
    leave the panel idle again. *)
Theorem C7_send_appends_user_then_reply_or_fallback :
  forall (now : Z) (st : ChatPanel.State),
    JS.truthy (JS.trim (ChatPanel.inputValue st)) = true ->
    ChatPanel.isLoading st = false ->
    let q := ChatPanel.inputValue st in
    let sent := ChatPanel.step (ChatPanel.ClickSend now) st in
    let question := ChatMessage.mk (JS.toString now) ChatMessage.user q now in
    (ChatPanel.messages sent = (ChatPanel.messages st ++ [question])%list
     /\ ChatPanel.requests sent
        = (ChatPanel.requests st
           ++ [Request.mk ViaApi POST
                 ("/findings/"
                  ++ JS.toString (Finding.id (ChatPanel.finding st))
                  ++ "/chat")
                 (JsonQ q)])%list
     /\ ChatPanel.isLoading sent = true
     /\ ChatPanel.pending sent = S (ChatPanel.pending st))
    /\ (forall (later : Z) (response : ChatResponse.t),
           let done :=
             ChatPanel.step
               (ChatPanel.ResponseArrives later (Resolved response)) sent in
           ChatPanel.messages done
           = (ChatPanel.messages st
              ++ [ question;
                   ChatMessage.mk (JS.toString (later + 1)) ChatMessage.bot
                     (ChatResponse.answer response) later ])%list
           /\ ChatPanel.requests done = ChatPanel.requests sent
           /\ ChatPanel.toasts done = ChatPanel.toasts st
           /\ ChatPanel.isLoading done = false)
    /\ (forall (later : Z) (error : AxiosError.t),
           let done :=
             ChatPanel.step
               (ChatPanel.ResponseArrives later (Rejected error)) sent in
           ChatPanel.messages done
           = (ChatPanel.messages st
              ++ [ question;
                   ChatMessage.mk (JS.toString (later + 1)) ChatMessage.bot
                     "Sorry, I encountered an error while processing your question. Please try again."
                     later ])%list
           /\ ChatPanel.requests done = ChatPanel.requests sent
           /\ ChatPanel.toasts done
              = (ChatPanel.toasts st
                 ++ [Toast.mk "Chat Error"
                       (if JS.truthyValue (AxiosError.detail error)
                        then AxiosError.detail error
                        else JS.Str "Failed to send message")
                       true])%list
           /\ ChatPanel.isLoading done = false).
Proof.
  intros now st Hq Hidle q sent question.
  assert (E : sent
              = ChatPanel.mkState (ChatPanel.finding st) ""
                  (ChatPanel.messages st ++ [ChatPanel.userMessage q now])
                  (ChatPanel.currentFindingId st) true
                  (ChatPanel.requests st
                   ++ [Api.sendChatMessage
                         (Finding.id (ChatPanel.finding st)) q])
                  (ChatPanel.toasts st) (S (ChatPanel.pending st))).
  { unfold sent, ChatPanel.step, ChatPanel.sendDisabled,
      ChatPanel.handleSendMessage.
    now rewrite Hq, Hidle. }
  rewrite E. split; [repeat split|].
  split; intros later r done; unfold done, ChatPanel.step;
    cbn [ChatPanel.pending ChatPanel.handleSendMessage_settled
         ChatPanel.messages ChatPanel.requests ChatPanel.toasts
         ChatPanel.isLoading];
    rewrite <- app_assoc; repeat split.
Qed.

Lemma C7_send_appends_user_then_reply_or_fallback_witness :
  let f := Finding.mk 1 "EXCLUSION" "HIGH" "Flood damage is excluded." None 3
             0%Q in
  let st := ChatPanel.setInputValue "What does this mean?" (ChatPanel.mount f 0) in
  let sent := ChatPanel.step (ChatPanel.ClickSend 7) st in
  let answer :=
    ChatResponse.mk "Flood damage is not covered." 1 "EXCLUSION"
      "Flood damage is excluded." "" in
  ChatPanel.messages sent
  = [ ChatMessage.mk "context-1" ChatMessage.bot
        "Now discussing: EXCLUSION on page 3. Flood damage is excluded." 0;
      ChatMessage.mk "7" ChatMessage.user "What does this mean?" 7 ]
  /\ ChatPanel.requests sent
     = [ Request.mk ViaApi POST "/findings/1/chat"
           (JsonQ "What does this mean?") ]
  /\ ChatPanel.messages
       (ChatPanel.step (ChatPanel.ResponseArrives 9 (Resolved answer)) sent)
     = [ ChatMessage.mk "context-1" ChatMessage.bot
           "Now discussing: EXCLUSION on page 3. Flood damage is excluded." 0;
         ChatMessage.mk "7" ChatMessage.user "What does this mean?" 7;
         ChatMessage.mk "10" ChatMessage.bot "Flood damage is not covered."
           9 ].
Proof.
  intros f st sent answer.
  destruct (C7_send_appends_user_then_reply_or_fallback 7 st)
    as ((Hm & Hr & _) & Hok & _).
  - reflexivity.
  - reflexivity.
  - destruct (Hok 9 answer) as (Hd & _).
    split; [exact Hm|]. split; [exact Hr | exact Hd].
Defined.

(** ** The analysis page: what the effects and handlers leave alone *)

Section AnalysisFacts.
Import Analysis.

Ltac split_cases :=
  repeat match goal with
         | |- context [match ?x with _ => _ end] => destruct x
         end.

Lemma effectOf_refl : forall st, effectOf st st.
Proof. intro st. repeat split. Qed.

Lemma effectOf_trans :
  forall st1 st2 st3, effectOf st1 st2 -> effectOf st2 st3 -> effectOf st1 st3.
Proof.
  unfold effectOf. intros st1 st2 st3 H12 H23.
  destruct H12 as (A1 & A2 & A3 & A4 & A5 & A6 & A7 & A8 & A9 & A10 & A11 & A12).
  destruct H23 as (B1 & B2 & B3 & B4 & B5 & B6 & B7 & B8 & B9 & B10 & B11 & B12).
  repeat split; congruence.
Qed.

Lemma effectOf_statusEffect :
  forall a st, effectOf st (statusEffect a st).
Proof.
  intros a st. unfold statusEffect. split_cases; repeat split.
Qed.

Lemma effectOf_progressEffect :
  forall p st, effectOf st (progressEffect p st).
Proof.
  intros p st. unfold progressEffect. split_cases; repeat split.
Qed.

Lemma effectOf_findingsEffect :
  forall l st, effectOf st (findingsEffect l st).
Proof.
  intros l st. unfold findingsEffect. split_cases; repeat split.
Qed.

Lemma effectOf_findingsErrorEffect :
  forall e st, effectOf st (findingsErrorEffect e st).
Proof. intros e st. repeat split. Qed.

(** The effects that follow a render write the process steps, the
    analysis progress and the analyzing flag, and nothing else. *)
Lemma afterRender_keeps :
  forall old new : State, effectOf new (afterRender old new).
Proof.
  intros old new. unfold afterRender.
  repeat match goal with
         | |- effectOf _ (match ?x with _ => _ end) => destruct x
         | |- effectOf ?s ?s => apply effectOf_refl
         | |- effectOf _ (statusEffect _ _) =>
             eapply effectOf_trans; [|apply effectOf_statusEffect]
         | |- effectOf _ (progressEffect _ _) =>
             eapply effectOf_trans; [|apply effectOf_progressEffect]
         | |- effectOf _ (findingsEffect _ _) =>
             eapply effectOf_trans; [|apply effectOf_findingsEffect]
         | |- effectOf _ (findingsErrorEffect _ _) =>
             eapply effectOf_trans; [|apply effectOf_findingsErrorEffect]
         end.
Qed.

(** What the effects leave alone decides what the queries observe and
    whether they are enabled. *)
Lemma effectOf_observed :
  forall st st',
    effectOf st st' ->
    analysisStatus st' = analysisStatus st
    /\ progressData st' = progressData st
    /\ findings st' = findings st
    /\ findingsError st' = findingsError st
    /\ idString st' = idString st
    /\ (forall s, statusIs s st' = statusIs s st)
    /\ statusEnabled st' = statusEnabled st
    /\ progressEnabled st' = progressEnabled st
    /\ findingsEnabled st' = findingsEnabled st.
Proof.
  intros st st' (_ & _ & Hd & Hs & Hp & Hf & _).
  unfold statusEnabled, progressEnabled, findingsEnabled, statusIs,
    analysisStatus, progressData, findings, findingsError, idString.
  rewrite Hd, Hs, Hp, Hf. repeat split.
Qed.

Lemma becameEnabled_effectOf :
  forall old st st',
    effectOf st st' ->
    becameEnabled statusEnabled old st' = becameEnabled statusEnabled old st
    /\ becameEnabled progressEnabled old st'
       = becameEnabled progressEnabled old st.
Proof.
  intros old st st' H.
  destruct (effectOf_observed st st' H) as (_ & _ & _ & _ & _ & _ & Hs & Hp & _).
  destruct H as (_ & _ & Hd & _).
  unfold becameEnabled, keyChanged. now rewrite Hs, Hp, Hd.
Qed.

(** The queries that become enabled log their requests and mark their
    fetches, and touch nothing else. *)
Lemma fetchOnEnable_requests :
  forall old new,
    requests (fetchOnEnable old new) = (requests new ++ enabledFetches old new)%list.
Proof.
  intros old new. unfold fetchOnEnable, progressOnEnable, statusOnEnable,
    enabledFetches.
  destruct (becameEnabled statusEnabled old new
            && negb (Query.fetching (idString new) (statusFetches new)));
    [change (becameEnabled progressEnabled old (statusFetch new))
       with (becameEnabled progressEnabled old new);
     change (idString (statusFetch new)) with (idString new);
     change (progressFetches (statusFetch new)) with (progressFetches new)|];
    destruct (becameEnabled progressEnabled old new
              && negb (Query.fetching (idString new) (progressFetches new)));
    unfold progressFetch, statusFetch, progressQueryFn, statusQueryFn, issue;
    cbn [requests setRequests setStatusFetches setProgressFetches app];
    rewrite <- ?app_assoc, ?app_nil_r; reflexivity.
Qed.

Lemma fetchOnEnable_keeps :
  forall old new, sameButFetches new (fetchOnEnable old new).
Proof.
  intros old new. unfold fetchOnEnable, progressOnEnable, statusOnEnable.
  destruct (becameEnabled statusEnabled old new
            && negb (Query.fetching (idString new) (statusFetches new)));
    match goal with
    | |- context [if ?c then _ else _] => destruct c
    end; repeat split.
Qed.

Lemma keyChanged_same :
  forall old new, documentId new = documentId old -> keyChanged old new = false.
Proof.
  intros old new H. unfold keyChanged. rewrite H.
  destruct (documentId old); [now rewrite String.eqb_refl | reflexivity].
Qed.

(** A render that leaves the document id and the observed status alone
    enables no query. *)
Lemma becameEnabled_same :
  forall old new,
    documentId new = documentId old ->
    statusQuery new = statusQuery old ->
    becameEnabled statusEnabled old new = false
    /\ becameEnabled progressEnabled old new = false.
Proof.
  intros old new Hd Hs.
  unfold becameEnabled. rewrite (keyChanged_same old new Hd).
  unfold statusEnabled, progressEnabled, statusIs, analysisStatus.
  rewrite Hd, Hs.
  split; match goal with
         | |- ?b && _ = false => destruct b; reflexivity
         end.
Qed.

Lemma fetchOnEnable_same :
  forall old new,
    documentId new = documentId old ->
    statusQuery new = statusQuery old ->
    fetchOnEnable old new = new.
Proof.
  intros old new Hd Hs.
  destruct (becameEnabled_same old new Hd Hs) as [H1 H2].
  unfold fetchOnEnable, progressOnEnable, statusOnEnable.
  rewrite H1. cbn [andb]. now rewrite H2.
Qed.

Lemma enabledFetches_same :
  forall old new,
    documentId new = documentId old ->
    statusQuery new = statusQuery old ->
    enabledFetches old new = [].
Proof.
  intros old new Hd Hs.
  destruct (becameEnabled_same old new Hd Hs) as [H1 H2].
  unfold enabledFetches. now rewrite H1, H2.
Qed.

Lemma enabledFetches_effectOf :
  forall old st st',
    effectOf st st' -> enabledFetches old st' = enabledFetches old st.
Proof.
  intros old st st' H.
  destruct (becameEnabled_effectOf old st st' H) as [H1 H2].
  destruct (effectOf_observed st st' H) as (_ & _ & _ & _ & Hid & _).
  destruct H as (_ & _ & _ & _ & _ & _ & _ & _ & Hsf & Hpf & _).
  unfold enabledFetches. now rewrite H1, H2, Hid, Hsf, Hpf.
Qed.

(** The requests of a step are those of the handler, followed by those of
    the queries that the render enables. *)
Lemma requests_step :
  forall e st,
    requests (step e st)
    = (requests (handle e st) ++ enabledFetches st (handle e st))%list.
Proof.
  intros e st. unfold step. rewrite fetchOnEnable_requests.
  rewrite (enabledFetches_effectOf st _ _ (afterRender_keeps st (handle e st))).
  f_equal. apply afterRender_keeps.
Qed.

Lemma toasts_step :
  forall e st, toasts (step e st) = toasts (handle e st).
Proof.
  intros e st. unfold step.
  destruct (fetchOnEnable_keeps st (afterRender st (handle e st)))
    as (_ & _ & _ & _ & _ & _ & _ & _ & _ & _ & _ & _ & -> & _).
  apply afterRender_keeps.
Qed.

Lemma documentId_step :
  forall e st, documentId (step e st) = documentId (handle e st).
Proof.
  intros e st. unfold step, documentId at 1.
  destruct (fetchOnEnable_keeps st (afterRender st (handle e st)))
    as (-> & _).
  apply afterRender_keeps.
Qed.

Lemma queries_step :
  forall e st,
    statusQuery (step e st) = statusQuery (handle e st)
    /\ progressQuery (step e st) = progressQuery (handle e st)
    /\ findingsQuery (step e st) = findingsQuery (handle e st).
Proof.
  intros e st. unfold step.
  destruct (fetchOnEnable_keeps st (afterRender st (handle e st)))
    as (_ & _ & _ & _ & _ & _ & _ & _ & -> & -> & -> & _).
  destruct (afterRender_keeps st (handle e st))
    as (_ & _ & _ & -> & -> & -> & _).
  repeat split.
Qed.

Lemma skipn_length_app :
  forall (A : Type) (l l' : list A), skipn (List.length l) (l ++ l') = l'.
Proof.
  intros A l l'. induction l as [|a l IH]; simpl; [reflexivity | exact IH].
Qed.

Lemma skipn_length_self :
  forall (A : Type) (l : list A), skipn (List.length l) l = [].
Proof.
  intros A l. induction l as [|a l IH]; simpl; [reflexivity | exact IH].
Qed.

Lemma requests_handleFileUpload :
  forall file st,
    requests (handleFileUpload file st)
    = (requests st
       ++ (if passesValidation file then [Api.uploadDocument file]
           else []))%list.
Proof.
  intros file st. unfold handleFileUpload, handleFileUpload_checked.
  rewrite rejection_cases.
  destruct (passesValidation file);
    [|destruct (JS.includes (File.type file) "pdf")];
    unfold uploadMutation_mutate, toast, issue, setTimer, addProcessStep,
      setIsUploading;
    cbn [requests setRequests setToasts setProcessSteps setTimers
         setMutations setAnalysisState setCurrentFile setSelectedFinding
         setAnalysisProgress setUploadProgress];
    rewrite ?app_nil_r; reflexivity.
Qed.

Lemma requests_timerFired :
  forall t st, requests (timerFired t st) = requests st.
Proof.
  intros t st. unfold timerFired.
  destruct (timerSet t st); [|reflexivity].
  destruct t; try reflexivity;
    match goal with
    | |- context [if ?c then _ else _] => destruct c
    end; reflexivity.
Qed.

(** What the handler of each event requests. *)
Lemma requests_handle :
  forall e st,
    requests (handle e st)
    = (requests st
       ++ match e with
          | FileChosen file =>
              if passesValidation file then [Api.uploadDocument file] else []
          | StatusInterval =>
              if statusEnabled st
                 && negb (Query.fetching (idString st) (statusFetches st))
              then [Api.getAnalysisStatus (idString st)] else []
          | ProgressInterval =>
              if progressEnabled st
                 && negb (Query.fetching (idString st) (progressFetches st))
              then [Api.getProgress (idString st)] else []
          | FindingsAuto =>
              if findingsEnabled st then [Api.getFindings (idString st)]
              else []
          | RefreshClicked =>
              if refreshDisabled st then []
              else [ Api.getAnalysisStatus (idString st);
                     Api.getFindings (idString st) ]
          | _ => []
          end)%list.
Proof.
  intros e st. destruct e; cbn [handle]; rewrite ?app_nil_r.
  - apply requests_handleFileUpload.
  - destruct r; reflexivity.
  - destruct r; reflexivity.
  - unfold statusInterval.
    destruct (statusEnabled st
              && negb (Query.fetching (idString st) (statusFetches st)));
      [reflexivity | now rewrite app_nil_r].
  - unfold progressInterval.
    destruct (progressEnabled st
              && negb (Query.fetching (idString st) (progressFetches st)));
      [reflexivity | now rewrite app_nil_r].
  - unfold findingsAuto. destruct (findingsEnabled st);
      [reflexivity | now rewrite app_nil_r].
  - destruct (refreshDisabled st); [now rewrite app_nil_r|].
    unfold refresh, findingsFetch, statusFetch, findingsQueryFn,
      statusQueryFn, issue, idString.
    cbn [requests setRequests setStatusFetches setFindingsFetches documentId
         analysisState].
    now rewrite <- app_assoc.
  - reflexivity.
  - reflexivity.
  - reflexivity.
  - reflexivity.
  - destruct (paginationShown st && negb (previousDisabled st)); reflexivity.
  - destruct (paginationShown st && negb (nextDisabled st)); reflexivity.
  - reflexivity.
  - reflexivity.
  - unfold statusRetry. destruct (Query.retryDue key (statusFetches st));
      reflexivity.
  - unfold progressRetry. destruct (Query.retryDue key (progressFetches st));
      reflexivity.
  - unfold findingsRetry. destruct (Query.retryDue key (findingsFetches st));
      reflexivity.
  - apply requests_timerFired.
Qed.

(** What each event makes the page request: the requests of its handler,
    then those of the queries that the render enables. *)
Lemma emitted_cases :
  forall e st,
    emitted e st
    = (match e with
       | FileChosen file =>
           if passesValidation file then [Api.uploadDocument file] else []
       | StatusInterval =>
           if statusEnabled st
              && negb (Query.fetching (idString st) (statusFetches st))
           then [Api.getAnalysisStatus (idString st)] else []
       | ProgressInterval =>
           if progressEnabled st
              && negb (Query.fetching (idString st) (progressFetches st))
           then [Api.getProgress (idString st)] else []
       | FindingsAuto =>
           if findingsEnabled st then [Api.getFindings (idString st)] else []
       | RefreshClicked =>
           if refreshDisabled st then []
           else [ Api.getAnalysisStatus (idString st);
                  Api.getFindings (idString st) ]
       | _ => []
       end ++ enabledFetches st (handle e st))%list.
Proof.
  intros e st. unfold emitted, newRequests.
  rewrite requests_step, requests_handle, <- app_assoc.
  apply skipn_length_app.
Qed.

Lemma handleFileUpload_keeps_queries :
  forall file st,
    documentId (handleFileUpload file st) = documentId st
    /\ statusQuery (handleFileUpload file st) = statusQuery st
    /\ progressQuery (handleFileUpload file st) = progressQuery st
    /\ findingsQuery (handleFileUpload file st) = findingsQuery st.
Proof.
  intros file st. unfold handleFileUpload, handleFileUpload_checked.
  destruct (rejection file); repeat split.
Qed.

Lemma timerFired_keeps_queries :
  forall t st,
    documentId (timerFired t st) = documentId st
    /\ statusQuery (timerFired t st) = statusQuery st
    /\ progressQuery (timerFired t st) = progressQuery st
    /\ findingsQuery (timerFired t st) = findingsQuery st.
Proof.
  intros t st. unfold timerFired.
  destruct (timerSet t st); [|repeat split].
  destruct t; try (repeat split; fail);
    match goal with
    | |- context [if ?c then _ else _] => destruct c
    end; repeat split.
Qed.

(** Only the settling of the upload changes the document id, and only a
    status response changes the observed status: no other handler enables
    a query. *)
Lemma handle_keeps_gates :
  forall e st,
    (forall m r, e <> UploadSettled m r) ->
    (forall key r, e <> StatusSettled key r) ->
    documentId (handle e st) = documentId st
    /\ statusQuery (handle e st) = statusQuery st.
Proof.
  intros e st Hu Hs. destruct e; cbn [handle]; try (split; reflexivity).
  - destruct (handleFileUpload_keeps_queries file st) as (H1 & H2 & _).
    now split.
  - now elim (Hu mutation r).
  - destruct r; split; reflexivity.
  - unfold statusInterval.
    destruct (statusEnabled st
              && negb (Query.fetching (idString st) (statusFetches st)));
      split; reflexivity.
  - unfold progressInterval.
    destruct (progressEnabled st
              && negb (Query.fetching (idString st) (progressFetches st)));
      split; reflexivity.
  - unfold findingsAuto. destruct (findingsEnabled st); split; reflexivity.
  - destruct (refreshDisabled st); split; reflexivity.
  - now elim (Hs key r).
  - destruct (paginationShown st && negb (previousDisabled st));
      split; reflexivity.
  - destruct (paginationShown st && negb (nextDisabled st));
      split; reflexivity.
  - unfold statusRetry. destruct (Query.retryDue key (statusFetches st));
      split; reflexivity.
  - unfold progressRetry. destruct (Query.retryDue key (progressFetches st));
      split; reflexivity.
  - unfold findingsRetry. destruct (Query.retryDue key (findingsFetches st));
      split; reflexivity.
  - destruct (timerFired_keeps_queries t st) as (H1 & H2 & _). now split.
Qed.

Lemma enabledFetches_handle :
  forall e st,
    (forall m r, e <> UploadSettled m r) ->
    (forall key r, e <> StatusSettled key r) ->
    enabledFetches st (handle e st) = [].
Proof.
  intros e st Hu Hs.
  destruct (handle_keeps_gates e st Hu Hs) as [H1 H2].
  now apply enabledFetches_same.
Qed.


End AnalysisFacts.


(** ** Equality of query data *)

Lemma AnalysisStatus_eqb_refl :
  forall a : AnalysisStatus.t, AnalysisStatus.eqb a a = true.
Proof.
  intros [d s [n|]]; unfold AnalysisStatus.eqb; simpl;
    rewrite !String.eqb_refl, ?Z.eqb_refl; reflexivity.
Qed.

Lemma ProgressData_eqb_refl :
  forall p : ProgressData.t, ProgressData.eqb p p = true.
Proof.
  intros [s n m t]; unfold ProgressData.eqb; simpl.
  now rewrite !String.eqb_refl, Z.eqb_refl.
Qed.

Lemma Finding_eqb_list_refl :
  forall l : list Finding.t, Finding.eqb_list l l = true.
Proof.
  induction l as [|f l IH]; simpl; [reflexivity|].
  rewrite IH, andb_true_r. unfold Finding.eqb.
  rewrite !Z.eqb_refl, !String.eqb_refl.
  assert (Hq : Qeq_bool (Finding.confidence_score f)
                 (Finding.confidence_score f) = true)
    by (apply Qeq_bool_iff; reflexivity).
  rewrite Hq. destruct (Finding.recommendation f) as [r|]; simpl;
    rewrite ?String.eqb_refl; reflexivity.
Qed.

Section AnalysisRenders.
Import Analysis.

Lemma findingsErrorChanged_same :
forall old new : State,
  documentId new = documentId old ->
  findingsQuery new = findingsQuery old ->
  findingsErrorChanged old new = None.
Proof.
intros old new Hd Hf.
unfold findingsErrorChanged, findingsError, findingsErrorCount.
rewrite (keyChanged_same old new Hd), Hd, Hf, Nat.eqb_refl.
destruct (Query.error (Query.observe (documentId old) (findingsQuery old)));
  reflexivity.
Qed.

(** When a handler leaves the document id and the three caches alone, no
  effect runs after the render. *)
Lemma afterRender_same_queries :
forall old new : State,
  documentId new = documentId old ->
  statusQuery new = statusQuery old ->
  progressQuery new = progressQuery old ->
  findingsQuery new = findingsQuery old ->
  afterRender old new = new.
Proof.
intros old new Hd Hs Hp Hf.
unfold afterRender.
rewrite (findingsErrorChanged_same old new Hd Hf).
unfold statusChanged, progressChanged, findingsChanged,
  analysisStatus, progressData, findings.
rewrite Hd, Hs, Hp, Hf.
destruct (Query.data (Query.observe (documentId old) (statusQuery old)))
  as [a|]; rewrite ?AnalysisStatus_eqb_refl;
destruct (Query.data (Query.observe (documentId old) (progressQuery old)))
  as [p|]; rewrite ?ProgressData_eqb_refl;
rewrite Finding_eqb_list_refl; reflexivity.
Qed.

(** Such a handler is the whole step. *)
Lemma step_same_queries :
forall e st,
  documentId (handle e st) = documentId st ->
  statusQuery (handle e st) = statusQuery st ->
  progressQuery (handle e st) = progressQuery st ->
  findingsQuery (handle e st) = findingsQuery st ->
  step e st = handle e st.
Proof.
intros e st Hd Hs Hp Hf. unfold step.
rewrite (afterRender_same_queries st (handle e st) Hd Hs Hp Hf).
now apply fetchOnEnable_same.
Qed.

Lemma step_FileChosen :
forall file st, step (FileChosen file) st = handleFileUpload file st.
Proof.
intros file st.
destruct (handleFileUpload_keeps_queries file st) as (H1 & H2 & H3 & H4).
now apply step_same_queries.
Qed.

(** The queries that a render enables ask with GET, through the axios
  instance. *)
Lemma enabledFetches_are_GET :
forall old new req,
  In req (enabledFetches old new) ->
  Request.method req = GET /\ Request.channel req = ViaApi.
Proof.
intros old new req. unfold enabledFetches.
destruct (becameEnabled statusEnabled old new
          && negb (Query.fetching (idString new) (statusFetches new)));
  destruct (becameEnabled progressEnabled old new
            && negb (Query.fetching (idString new) (progressFetches new)));
  cbn [app In]; intros H;
  repeat match goal with
         | H : _ \/ _ |- _ => destruct H as [H|H]
         | H : False |- _ => elim H
         | H : _ = req |- _ => rewrite <- H; split; reflexivity
         end.
Qed.

Lemma toasts_handleFileUpload :
forall file st,
  toasts (handleFileUpload file st)
  = (toasts st
     ++ match rejection file with
        | Some t => [t]
        | None => []
        end)%list.
Proof.
intros file st. unfold handleFileUpload, handleFileUpload_checked.
destruct (rejection file); [reflexivity|].
unfold uploadMutation_mutate, toast, issue, setTimer, addProcessStep,
  setIsUploading.
cbn [toasts setRequests setToasts setProcessSteps setTimers setMutations
     setAnalysisState setCurrentFile setSelectedFinding setAnalysisProgress
     setUploadProgress].
now rewrite app_nil_r.
Qed.

End AnalysisRenders.

(** ** Upload *)

(** C1, as stated, fails: an archive of type application/x-gzpdf, which is
    not a PDF content type, of 4096 bytes is not rejected: the page shows
    no toast and issues the upload request. *)
Lemma C1_non_pdf_type_is_uploaded :
  Spec.isPdfContentType (File.type Scenario.archive) = false
  /\ Analysis.emitted (Analysis.FileChosen Scenario.archive)
       (Analysis.mount None 0)
     = [Request.mk ViaApi POST "/ingest" (FormData Scenario.archive)]
  /\ Analysis.toasts
       (Analysis.step (Analysis.FileChosen Scenario.archive)
          (Analysis.mount None 0))
     = [].
Proof. repeat split; vm_compute; reflexivity. Qed.

(** C1, amended. The test on the type is whether its text contains pdf,
    which the PDF content type does.  A file whose type does not contain
    pdf makes the page issue no request and show the destructive toast
    about the file type; one whose type does, and whose size exceeds
    10 * 1024 * 1024 bytes, makes it issue no request and show the
    destructive toast about the size.  A file that passes both makes the
    page issue exactly one request, the POST of that file to /ingest
    through the axios instance, and show no toast; when that upload
    settles the page issues no request if it failed, and GET requests
    only if it succeeded, so the upload is not repeated. *)
Theorem C1_upload_validation :
  forall (file : File.t) (st : Analysis.State),
    let st' := Analysis.step (Analysis.FileChosen file) st in
    let upload := Request.mk ViaApi POST "/ingest" (FormData file) in
    (Spec.isPdfContentType (File.type file) = true ->
     JS.includes (File.type file) "pdf" = true)
    /\ (JS.includes (File.type file) "pdf" = false ->
        Analysis.emitted (Analysis.FileChosen file) st = []
        /\ Analysis.requests st' = Analysis.requests st
        /\ Analysis.toasts st'
           = (Analysis.toasts st
              ++ [Toast.mk "Invalid file type ❌"
                    (JS.Str "Please upload a PDF file") true])%list)
    /\ (JS.includes (File.type file) "pdf" = true ->
        File.size file > 10 * 1024 * 1024 ->
        Analysis.emitted (Analysis.FileChosen file) st = []
        /\ Analysis.requests st' = Analysis.requests st
        /\ Analysis.toasts st'
           = (Analysis.toasts st
              ++ [Toast.mk "File too large ❌"
                    (JS.Str "Please upload a file smaller than 10MB")
                    true])%list)
    /\ (JS.includes (File.type file) "pdf" = true ->
        File.size file <= 10 * 1024 * 1024 ->
        Analysis.emitted (Analysis.FileChosen file) st = [upload]
        /\ Analysis.requests st' = (Analysis.requests st ++ [upload])%list
        /\ Analysis.toasts st' = Analysis.toasts st
        /\ (forall (mutation : nat) (e : AxiosError.t),
               Analysis.emitted
                 (Analysis.UploadSettled mutation (Rejected e)) st' = [])
        /\ (forall (mutation : nat) (r : Settled IngestResponse.t)
                   (req : Request.t),
               In req (Analysis.emitted (Analysis.UploadSettled mutation r) st') ->
               Request.method req = GET)).
Proof.
  intros file st st' upload.
  assert (Hem : Analysis.emitted (Analysis.FileChosen file) st
                = if Analysis.passesValidation file then [upload] else []).
  { rewrite emitted_cases, enabledFetches_handle by discriminate.
    apply app_nil_r. }
  assert (Hreq : Analysis.requests st'
                 = (Analysis.requests st
                    ++ if Analysis.passesValidation file then [upload]
                       else [])%list).
  { unfold st'. rewrite step_FileChosen. apply requests_handleFileUpload. }
  assert (Htoast : Analysis.toasts st'
                   = (Analysis.toasts st
                      ++ match Analysis.rejection file with
                         | Some t => [t]
                         | None => []
                         end)%list).
  { unfold st'. rewrite step_FileChosen. apply toasts_handleFileUpload. }
  rewrite Hem, Hreq, Htoast, rejection_cases.
  unfold Analysis.passesValidation, Analysis.maxSize.
  split; [|split; [|split]].
  - unfold Spec.isPdfContentType. intro H. apply String.eqb_eq in H.
    now rewrite H.
  - intros ->. cbn [andb]. rewrite app_nil_r. repeat split.
  - intros -> Hbig. cbn [andb].
    destruct (Z.leb_spec (File.size file) (10 * 1024 * 1024)) as [Hle|_];
      [lia|].
    rewrite app_nil_r. repeat split.
  - intros -> Hsmall. cbn [andb].
    destruct (Z.leb_spec (File.size file) (10 * 1024 * 1024)) as [_|Hgt];
      [|lia].
    rewrite app_nil_r. repeat split.
    + intros mutation e. rewrite emitted_cases. cbn [app].
      apply enabledFetches_same; reflexivity.
    + intros mutation r req. rewrite emitted_cases. cbn [app].
      intro H. now apply enabledFetches_are_GET in H.
Qed.

Lemma C1_upload_validation_witness :
  Analysis.emitted (Analysis.FileChosen Scenario.picture)
    (Analysis.mount None 0) = []
  /\ Analysis.emitted (Analysis.FileChosen Scenario.large)
       (Analysis.mount None 0) = []
  /\ Analysis.emitted (Analysis.FileChosen Scenario.policy)
       (Analysis.mount None 0)
     = [Request.mk ViaApi POST "/ingest" (FormData Scenario.policy)].
Proof.
  destruct (C1_upload_validation Scenario.picture (Analysis.mount None 0))
    as (_ & H1 & _).
  destruct (C1_upload_validation Scenario.large (Analysis.mount None 0))
    as (_ & _ & H2 & _).
  destruct (C1_upload_validation Scenario.policy (Analysis.mount None 0))
    as (_ & _ & _ & H3).
  split; [|split].
  - apply H1. reflexivity.
  - apply H2; reflexivity.
  - apply H3; [reflexivity | discriminate].
Defined.

(** ** Which effects run after which event *)

Section AnalysisEffects.
Import Analysis.

Lemma statusChanged_same :
forall old new : State,
  documentId new = documentId old ->
  statusQuery new = statusQuery old ->
  statusChanged old new = None.
Proof.
intros old new Hd Hs. unfold statusChanged, analysisStatus.
rewrite Hd, Hs.
destruct (Query.data (Query.observe (documentId old) (statusQuery old)));
  rewrite ?AnalysisStatus_eqb_refl; reflexivity.
Qed.

Lemma progressChanged_same :
forall old new : State,
  documentId new = documentId old ->
  progressQuery new = progressQuery old ->
  progressChanged old new = None.
Proof.
intros old new Hd Hs. unfold progressChanged, progressData.
rewrite Hd, Hs.
destruct (Query.data (Query.observe (documentId old) (progressQuery old)));
  rewrite ?ProgressData_eqb_refl; reflexivity.
Qed.

Lemma findingsChanged_same :
forall old new : State,
  documentId new = documentId old ->
  findingsQuery new = findingsQuery old ->
  findingsChanged old new = false
  /\ findingsErrorChanged old new = None.
Proof.
intros old new Hd Hs. split; [|now apply findingsErrorChanged_same].
unfold findingsChanged, findings.
now rewrite Hd, Hs, Finding_eqb_list_refl.
Qed.

(** A step whose handler leaves the document id and the status cache
  alone enables no query: it is the handler and the effects. *)
Lemma step_keeps_gates :
forall e st,
  documentId (handle e st) = documentId st ->
  statusQuery (handle e st) = statusQuery st ->
  step e st = afterRender st (handle e st).
Proof.
intros e st Hd Hs. unfold step.
destruct (afterRender_keeps st (handle e st)) as (_ & _ & Hd' & Hs' & _).
apply fetchOnEnable_same; congruence.
Qed.

(** A settled query changes what its hook returns either not at all or to
  the value it resolved to. *)
Lemma lookup_settle_resolved :
forall (T : Type) (key d : string) (v : T) (c : Query.Cache T),
  Query.lookup d (Query.settle key (Resolved v) c)
  = if String.eqb key d
    then Query.mkState (Some v) None
           (Query.errorUpdateCount (Query.lookup key c))
    else Query.lookup d c.
Proof. reflexivity. Qed.

Lemma statusChanged_settled :
forall key a st,
  let new := statusSettled key (Resolved a) st in
  statusChanged st new = None \/ statusChanged st new = Some a.
Proof.
intros key a st new. unfold statusChanged, analysisStatus, new.
change (documentId (statusSettled key (Resolved a) st)) with (documentId st).
change (statusQuery (statusSettled key (Resolved a) st))
  with (Query.settle key (Resolved a) (statusQuery st)).
destruct (documentId st) as [d|]; [|now left].
unfold Query.observe. rewrite lookup_settle_resolved.
destruct (String.eqb key d).
- cbn [Query.data].
  destruct (Query.data (Query.lookup d (statusQuery st))) as [a0|];
    [|now right].
  destruct (AnalysisStatus.eqb a0 a); [now left | now right].
- destruct (Query.data (Query.lookup d (statusQuery st))) as [a0|];
    [|now left].
  rewrite AnalysisStatus_eqb_refl. now left.
Qed.

Lemma progressChanged_settled :
forall key p st,
  let new := progressSettled key (Resolved p) st in
  progressChanged st new = None \/ progressChanged st new = Some p.
Proof.
intros key p st new. unfold progressChanged, progressData, new.
change (documentId (progressSettled key (Resolved p) st))
  with (documentId st).
change (progressQuery (progressSettled key (Resolved p) st))
  with (Query.settle key (Resolved p) (progressQuery st)).
destruct (documentId st) as [d|]; [|now left].
unfold Query.observe. rewrite lookup_settle_resolved.
destruct (String.eqb key d).
- cbn [Query.data].
  destruct (Query.data (Query.lookup d (progressQuery st))) as [p0|];
    [|now right].
  destruct (ProgressData.eqb p0 p); [now left | now right].
- destruct (Query.data (Query.lookup d (progressQuery st))) as [p0|];
    [|now left].
  rewrite ProgressData_eqb_refl. now left.
Qed.

(** After a status response only the status effect can run; the progress
  query may then start a fetch. *)
Lemma step_StatusSettled :
forall key a st,
  let new := statusSettled key (Resolved a) st in
  exists mid,
    (mid = new \/ mid = statusEffect a new)
    /\ step (StatusSettled key (Resolved a)) st = fetchOnEnable st mid.
Proof.
intros key a st new. exists (afterRender st new). split; [|reflexivity].
unfold afterRender.
rewrite (progressChanged_same st new) by reflexivity.
destruct (findingsChanged_same st new) as [-> ->]; try reflexivity.
destruct (statusChanged_settled key a st) as [H|H]; fold new in H;
  rewrite H; [now left | now right].
Qed.

(** After a progress response only the progress effect can run. *)
Lemma step_ProgressSettled :
forall key p st,
  let new := progressSettled key (Resolved p) st in
  step (ProgressSettled key (Resolved p)) st = new
  \/ step (ProgressSettled key (Resolved p)) st = progressEffect p new.
Proof.
intros key p st new.
rewrite step_keeps_gates by reflexivity. cbn [handle]. fold new.
unfold afterRender.
rewrite (statusChanged_same st new) by reflexivity.
destruct (findingsChanged_same st new) as [-> ->]; try reflexivity.
destruct (progressChanged_settled key p st) as [H|H]; fold new in H;
  rewrite H; [now left | now right].
Qed.

(** What a step leaves of the handler's state decides what the queries
  observe. *)
Lemma observed_step :
forall e st,
  analysisStatus (step e st) = analysisStatus (handle e st)
  /\ progressData (step e st) = progressData (handle e st)
  /\ findings (step e st) = findings (handle e st)
  /\ findingsError (step e st) = findingsError (handle e st)
  /\ (forall s, statusIs s (step e st) = statusIs s (handle e st)).
Proof.
intros e st.
destruct (queries_step e st) as (Hs & Hp & Hf).
pose proof (documentId_step e st) as Hd.
unfold statusIs, analysisStatus, progressData, findings, findingsError.
rewrite Hd, Hs, Hp, Hf. repeat split.
Qed.

(** The status the page observes is the status of the last response for
  its document. *)
Lemma observed_status_is_last_response :
forall d a s st,
  documentId st = Some d ->
  statusIs s (step (StatusSettled d (Resolved a)) st)
  = String.eqb (AnalysisStatus.status a) s.
Proof.
intros d a s st Hd.
destruct (observed_step (StatusSettled d (Resolved a)) st)
  as (_ & _ & _ & _ & ->).
cbn [handle]. unfold statusIs, analysisStatus.
change (documentId (statusSettled d (Resolved a) st)) with (documentId st).
change (statusQuery (statusSettled d (Resolved a) st))
  with (Query.settle d (Resolved a) (statusQuery st)).
rewrite Hd. unfold Query.observe.
rewrite lookup_settle_resolved, String.eqb_refl. reflexivity.
Qed.

Lemma run_app :
  forall l1 l2 st, run (l1 ++ l2) st = run l2 (run l1 st).
Proof. intros l1 l2 st. apply fold_left_app. Qed.



Lemma documentId_step_StatusSettled :
  forall key r st, documentId (step (StatusSettled key r) st) = documentId st.
Proof. intros key r st. rewrite documentId_step. reflexivity. Qed.






End AnalysisEffects.

(** ** Polling *)

Section PollingFacts.
Import Analysis.

Lemma fetching_forget :
  forall key fs, Query.fetching key (Query.forget key fs) = false.
Proof.
  intros key fs. unfold Query.fetching.
  induction fs as [|[k f] fs IH]; [reflexivity|].
  cbn [Query.forget filter fst].
  destruct (String.eqb k key) eqn:E; cbn [negb]; [exact IH|].
  cbn [Query.fetchOf]. now rewrite E.
Qed.








End PollingFacts.





(** ** Findings *)

Section FindingsFacts.
Import Analysis.



End FindingsFacts.




(** ** Status strings *)

(** C8. A status string other than pending, analyzing, completed and
    failed changes no phase: the status effect leaves the whole state as it
    is, the progress effect only stores the progress value, and after a
    status or progress response with such a string the analyzing flag and
    every process step are what they were.  The comparison is equality of
    strings: the analyzing flag is cleared exactly when the status is
    completed or failed. *)
Theorem C8_unrecognized_status_stays_in_progress :
  forall s : string,
    s <> "pending" -> s <> "analyzing" -> s <> "completed" -> s <> "failed" ->
    (forall (a : AnalysisStatus.t) (st : Analysis.State),
        AnalysisStatus.status a = s ->
        Analysis.statusEffect a st = st
        /\ forall key,
             let st' :=
               Analysis.step (Analysis.StatusSettled key (Resolved a)) st in
             Analysis.analysisState st' = Analysis.analysisState st
             /\ Analysis.processSteps st' = Analysis.processSteps st)
    /\ (forall (p : ProgressData.t) (st : Analysis.State),
           ProgressData.status p = s ->
           Analysis.progressEffect p st
           = Analysis.setAnalysisProgress (ProgressData.progress p) st
           /\ forall key,
                let st' :=
                  Analysis.step (Analysis.ProgressSettled key (Resolved p)) st in
                Analysis.analysisState st' = Analysis.analysisState st
                /\ Analysis.processSteps st' = Analysis.processSteps st)
    /\ (forall (a : AnalysisStatus.t) (st : Analysis.State),
           AnalysisState.isAnalyzing
             (Analysis.analysisState (Analysis.statusEffect a st))
           = AnalysisState.isAnalyzing (Analysis.analysisState st)
             && negb (String.eqb (AnalysisStatus.status a) "completed"
                      || String.eqb (AnalysisStatus.status a) "failed")).
Proof.
  intros s Hp Ha Hc Hf.
  apply String.eqb_neq in Hp, Ha, Hc, Hf.
  assert (S1 : forall a st, AnalysisStatus.status a = s ->
                            Analysis.statusEffect a st = st).
  { intros a st E. unfold Analysis.statusEffect. now rewrite E, Hc, Hf. }
  assert (S2 : forall p st, ProgressData.status p = s ->
                 Analysis.progressEffect p st
                 = Analysis.setAnalysisProgress (ProgressData.progress p) st).
  { intros p st E. unfold Analysis.progressEffect.
    now rewrite E, Hp, Ha, Hc, Hf. }
  split; [|split].
  - intros a st E. split; [now apply S1|].
    intros key st'. unfold st'.
    destruct (step_StatusSettled key a st) as (mid & Hmid & ->).
    destruct (fetchOnEnable_keeps st mid) as (-> & _ & -> & _).
    destruct Hmid as [-> | ->]; rewrite ?S1 by exact E; split; reflexivity.
  - intros p st E. split; [now apply S2|].
    intros key st'. unfold st'.
    destruct (step_ProgressSettled key p st) as [-> | ->];
      rewrite ?S2 by exact E; split; reflexivity.
  - intros a st. unfold Analysis.statusEffect.
    destruct (String.eqb (AnalysisStatus.status a) "completed");
      [now rewrite andb_false_r|].
    destruct (String.eqb (AnalysisStatus.status a) "failed");
      [now rewrite andb_false_r|].
    now rewrite andb_true_r.
Qed.

Lemma C8_unrecognized_status_stays_in_progress_witness :
  Analysis.statusEffect (Scenario.status "COMPLETED") Scenario.analyzing
  = Scenario.analyzing
  /\ AnalysisState.isAnalyzing (Analysis.analysisState Scenario.analyzing)
     = true.
Proof.
  assert (Hw := C8_unrecognized_status_stays_in_progress "COMPLETED").
  destruct Hw as (H & _); try discriminate.
  split; [|vm_compute; reflexivity].
  apply (H (Scenario.status "COMPLETED") Scenario.analyzing). reflexivity.
Defined.

(** ** Pagination *)

(** A slice of ten from a non-negative start is the ten elements after
    the start, as many as there are. *)
Lemma slice_ten :
  forall (A : Type) (l : list A) (start : Z),
    0 <= start ->
    JS.slice l start (start + 10) = firstn 10 (skipn (Z.to_nat start) l).
Proof.
  intros A l start Hs. unfold JS.slice, JS.relativeIndex.
  destruct (Z.ltb_spec start 0) as [Hneg|_]; [lia|].
  destruct (Z.ltb_spec (start + 10) 0) as [Hneg|_]; [lia|].
  set (len := Z.of_nat (List.length l)).
  destruct (Z.le_gt_cases len start) as [Hout|Hin].
  - rewrite !skipn_all2 by (unfold len in *; lia).
    now rewrite !firstn_nil.
  - replace (Z.min start len) with start by lia.
    set (rest := skipn (Z.to_nat start) l).
    assert (Hrest : List.length rest = (List.length l - Z.to_nat start)%nat)
      by apply length_skipn.
    destruct (Z.le_gt_cases (start + 10) len) as [Hfull|Hshort].
    + f_equal. lia.
    + replace (Z.to_nat (Z.max (Z.min (start + 10) len - start) 0))
        with (List.length rest) by (unfold len in *; lia).
      rewrite firstn_all. symmetry. apply firstn_all2.
      unfold len in *. lia.
Qed.

(** C4. With the page number at least 1, as the buttons keep it: the
    number of pages is the least [k] with [10 * k >= N]; the page shown is
    the ten findings of the filtered list from index [10 * (page - 1)] on,
    as many as there are; a page before the last has ten findings, the last
    one [N mod 10], or ten when that is zero; and past the last page the
    page shown is empty. *)
Theorem C4_pagination_is_a_clipped_view :
  forall st : Analysis.State,
    1 <= Analysis.currentPage st ->
    let l := Analysis.filteredFindings st in
    let N := Z.of_nat (List.length l) in
    let page := Analysis.currentPage st in
    let pages := Analysis.totalPages st in
    let shown := Analysis.paginatedFindings st in
    10 * (pages - 1) < N <= 10 * pages
    /\ shown = firstn 10 (skipn (Z.to_nat (10 * (page - 1))) l)
    /\ (page < pages -> Z.of_nat (List.length shown) = 10)
    /\ (page = pages ->
        Z.of_nat (List.length shown)
        = if N mod 10 =? 0 then 10 else N mod 10)
    /\ (pages < page -> shown = []).
Proof.
  intros st Hpage l N page pages shown.
  assert (Hpages : 10 * (pages - 1) < N <= 10 * pages).
  { unfold pages, Analysis.totalPages, JS.ceil_div, Analysis.itemsPerPage.
    fold l. fold N. Z.div_mod_to_equations. lia. }
  assert (Hshown : shown = firstn 10 (skipn (Z.to_nat (10 * (page - 1))) l)).
  { unfold shown, Analysis.paginatedFindings, Analysis.endIndex,
      Analysis.startIndex, Analysis.itemsPerPage.
    fold l. fold page.
    replace ((page - 1) * 10) with (10 * (page - 1)) by lia.
    apply slice_ten. unfold page. lia. }
  assert (Hlen : List.length shown
                 = Nat.min 10 (List.length l - Z.to_nat (10 * (page - 1)))).
  { rewrite Hshown, length_firstn, length_skipn. reflexivity. }
  split; [exact Hpages|]. split; [exact Hshown|].
  unfold page in *. fold N in Hlen.
  split; [|split].
  - intro Hlt. unfold N in *. lia.
  - intro Heq.
    destruct (Z.eqb_spec (N mod 10) 0) as [Hz|Hnz];
      unfold N in *; Z.div_mod_to_equations; lia.
  - intro Hgt. apply length_zero_iff_nil. unfold N in *. lia.
Qed.

Lemma C4_pagination_is_a_clipped_view_witness :
  let st :=
    Analysis.step
      (Analysis.FindingsSettled "abc123" (Resolved [Scenario.finding1]))
      Scenario.completed in
  Analysis.totalPages st = 1
  /\ Analysis.paginatedFindings st = [Scenario.finding1].
Proof.
  intro st.
  destruct (C4_pagination_is_a_clipped_view st) as (H1 & H2 & _).
  - vm_compute. discriminate.
  - split; [|exact H2].
    change (Z.of_nat (List.length (Analysis.filteredFindings st))) with 1 in H1.
    lia.
Defined.

(** The page number never drops below 1: the hypothesis of the pagination
    theorem holds in every state the page can reach. *)
Section PageNumber.
Import Analysis.

Lemma currentPage_handleFileUpload :
forall file st, currentPage (handleFileUpload file st) = currentPage st.
Proof.
intros file st. unfold handleFileUpload, handleFileUpload_checked.
destruct (rejection file); reflexivity.
Qed.

Lemma currentPage_timerFired :
forall t st, currentPage (timerFired t st) = currentPage st.
Proof.
intros t st. unfold timerFired.
destruct (timerSet t st); [|reflexivity].
destruct t; try reflexivity;
  match goal with
  | |- context [if ?c then _ else _] => destruct c
  end; reflexivity.
Qed.

Lemma currentPage_step :
forall e st, 1 <= currentPage st -> 1 <= currentPage (step e st).
Proof.
intros e st H.
destruct (fetchOnEnable_keeps st (afterRender st (handle e st)))
  as (_ & _ & _ & _ & _ & _ & Hkeep' & _).
destruct (afterRender_keeps st (handle e st))
  as (_ & _ & _ & _ & _ & _ & Hkeep & _).
unfold step. rewrite Hkeep', Hkeep. clear Hkeep Hkeep'.
destruct e; cbn [handle]; try exact H.
- now rewrite currentPage_handleFileUpload.
- destruct r; exact H.
- destruct r; exact H.
- unfold statusInterval.
  destruct (statusEnabled st
            && negb (Query.fetching (idString st) (statusFetches st)));
    exact H.
- unfold progressInterval.
  destruct (progressEnabled st
            && negb (Query.fetching (idString st) (progressFetches st)));
    exact H.
- unfold findingsAuto. destruct (findingsEnabled st); exact H.
- destruct (refreshDisabled st); exact H.
- cbn. lia.
- destruct (paginationShown st && negb (previousDisabled st));
    [|exact H].
  unfold previousPage. cbn [currentPage setCurrentPage]. lia.
- destruct (paginationShown st) eqn:Eshown; cbn [andb]; [|exact H].
  destruct (negb (nextDisabled st)); [|exact H].
  unfold nextPage. cbn [currentPage setCurrentPage].
  unfold paginationShown in Eshown. apply Z.ltb_lt in Eshown. lia.
- unfold statusRetry. destruct (Query.retryDue key (statusFetches st));
    exact H.
- unfold progressRetry. destruct (Query.retryDue key (progressFetches st));
    exact H.
- unfold findingsRetry. destruct (Query.retryDue key (findingsFetches st));
    exact H.
- now rewrite currentPage_timerFired.
Qed.

Lemma currentPage_mount :
forall stored now, currentPage (mount stored now) = 1.
Proof.
intros stored now.
unfold mount, storedFileMutation, storedFileEffect, handleFileUpload_checked.
cbn [fileState.getFile storedFile initial currentFile].
destruct stored as [file|]; [|reflexivity].
destruct (rejection file); reflexivity.
Qed.

Lemma currentPage_reachable :
forall events stored now,
  1 <= currentPage (run events (mount stored now)).
Proof.
intros events stored now.
assert (H0 : 1 <= currentPage (mount stored now))
  by (rewrite currentPage_mount; lia).
unfold run. generalize dependent (mount stored now).
induction events as [|e events IH]; intros st H0; simpl.
- exact H0.
- apply IH, currentPage_step, H0.
Qed.

End PageNumber.

(** * Further properties of the code *)

Open Scope list_scope.

(** ** The chat panel *)

Section ChatPanelMore.
Import ChatPanel.

(** Every event leaves the transcript and the request log as they were,
    or appends to them. *)
Lemma step_appends :
  forall e st,
    exists (ms : list ChatMessage.t) (rs : list Request.t),
      messages (step e st) = messages st ++ ms
      /\ requests (step e st) = requests st ++ rs
      /\ map ChatMessage.content (filter isUserMessage ms) = map questionOf rs
      /\ (List.length ms <= 1)%nat.
Proof.
  intros e st.
  assert (Hnone : exists ms rs,
             messages st = messages st ++ ms
             /\ requests st = requests st ++ rs
             /\ map ChatMessage.content (filter isUserMessage ms)
                = map questionOf rs
             /\ (List.length ms <= 1)%nat).
  { exists [], []. rewrite !app_nil_r. repeat split. simpl. lia. }
  assert (Hsend : forall now, exists ms rs,
             messages (handleSendMessage now st) = messages st ++ ms
             /\ requests (handleSendMessage now st) = requests st ++ rs
             /\ map ChatMessage.content (filter isUserMessage ms)
                = map questionOf rs
             /\ (List.length ms <= 1)%nat).
  { intro now. unfold handleSendMessage.
    destruct (negb (JS.truthy (JS.trim (inputValue st))) || isLoading st);
      [exact Hnone|].
    exists [userMessage (inputValue st) now],
      [Api.sendChatMessage (Finding.id (finding st)) (inputValue st)].
    repeat split. simpl. lia. }
  destruct e; cbn [step].
  - unfold effect. destruct (findingChanged (withFinding f st)).
    + exists [contextMessage f now], []. cbn [messages requests withFinding].
      rewrite app_nil_r. repeat split. simpl. lia.
    + exact Hnone.
  - destruct (inputDisabled st); exact Hnone.
  - destruct (nth_error quickQuestions index); exact Hnone.
  - destruct (sendDisabled st); [exact Hnone | apply Hsend].
  - destruct (inputDisabled st); [exact Hnone | apply Hsend].
  - destruct (pending st); [exact Hnone|].
    destruct r.
    + exists [botMessage value now], []. cbn. rewrite app_nil_r.
      repeat split. lia.
    + exists [errorMessage now], []. cbn. rewrite app_nil_r.
      repeat split. lia.
Qed.

Lemma run_appends :
  forall events st,
    exists (ms : list ChatMessage.t) (rs : list Request.t),
      messages (run events st) = messages st ++ ms
      /\ requests (run events st) = requests st ++ rs
      /\ map ChatMessage.content (filter isUserMessage ms) = map questionOf rs.
Proof.
  induction events as [|e events IH]; intro st.
  - exists [], []. rewrite !app_nil_r. repeat split.
  - destruct (step_appends e st) as (ms1 & rs1 & Hm1 & Hr1 & Hq1 & _).
    destruct (IH (step e st)) as (ms2 & rs2 & Hm2 & Hr2 & Hq2).
    exists (ms1 ++ ms2), (rs1 ++ rs2). cbn [run fold_left].
    fold (run events (step e st)).
    rewrite Hm2, Hr2, Hm1, Hr1, <- !app_assoc.
    repeat split. now rewrite filter_app, !map_app, Hq1, Hq2.
Qed.

End ChatPanelMore.

(** X1. The transcript is append-only and so is the log of requests:
    whatever happens to a panel, its transcript and its requests afterwards
    are those before, followed by new ones. *)
Theorem chat_transcript_is_append_only :
  forall (events : list ChatPanel.Event) (st : ChatPanel.State),
    exists (ms : list ChatMessage.t) (rs : list Request.t),
      ChatPanel.messages (ChatPanel.run events st)
      = (ChatPanel.messages st ++ ms)%list
      /\ ChatPanel.requests (ChatPanel.run events st)
         = (ChatPanel.requests st ++ rs)%list.
Proof.
  intros events st.
  destruct (run_appends events st) as (ms & rs & Hm & Hr & _).
  now exists ms, rs.
Qed.

(** X2. From mounting on, the questions sent to the service are exactly
    the user messages of the transcript, in the same order: no user message
    without its request, no request without its user message. *)
Theorem chat_requests_are_the_user_messages :
  forall (f : Finding.t) (t0 : Z) (events : list ChatPanel.Event),
    let st := ChatPanel.run events (ChatPanel.mount f t0) in
    map ChatMessage.content
      (filter ChatPanel.isUserMessage (ChatPanel.messages st))
    = map ChatPanel.questionOf (ChatPanel.requests st)
    /\ Forall (fun r => Request.channel r = ViaApi /\ Request.method r = POST)
         (ChatPanel.requests st).
Proof.
  intros f t0 events st. split.
  - destruct (run_appends events (ChatPanel.mount f t0))
      as (ms & rs & Hm & Hr & Hq).
    fold st in Hm, Hr. rewrite Hm, Hr.
    change (ChatPanel.messages (ChatPanel.mount f t0))
      with [ChatPanel.contextMessage f t0].
    change (ChatPanel.requests (ChatPanel.mount f t0)) with (@nil Request.t).
    exact Hq.
  - unfold st. generalize (Forall_nil
      (fun r => Request.channel r = ViaApi /\ Request.method r = POST)).
    change (@nil Request.t) with (ChatPanel.requests (ChatPanel.mount f t0)).
    generalize (ChatPanel.mount f t0).
    induction events as [|e evs IH]; intros s Hs; [exact Hs|].
    cbn [ChatPanel.run fold_left]. apply IH.
    assert (Hsend : forall now,
               Forall (fun r => Request.channel r = ViaApi
                                /\ Request.method r = POST)
                 (ChatPanel.requests (ChatPanel.handleSendMessage now s))).
    { intro now. unfold ChatPanel.handleSendMessage.
      destruct (negb (JS.truthy (JS.trim (ChatPanel.inputValue s)))
                || ChatPanel.isLoading s); [exact Hs|].
      cbn [ChatPanel.requests]. apply Forall_app. split; [exact Hs|].
      repeat constructor. }
    destruct e; cbn [ChatPanel.step].
    + unfold ChatPanel.effect.
      destruct (ChatPanel.findingChanged (ChatPanel.withFinding f0 s));
        exact Hs.
    + destruct (ChatPanel.inputDisabled s); exact Hs.
    + destruct (nth_error ChatPanel.quickQuestions index); exact Hs.
    + destruct (ChatPanel.sendDisabled s); [exact Hs | apply Hsend].
    + destruct (ChatPanel.inputDisabled s); [exact Hs | apply Hsend].
    + destruct (ChatPanel.pending s); [exact Hs|]. destruct r; exact Hs.
Qed.

(** Trimming leaves nothing exactly when there is nothing but white
    space. *)
Lemma trimStartFrom_blank_iff :
  forall s k, JS.trimStartFrom k s = "" <-> JS.allWhiteSpaceFrom k s = true.
Proof.
  induction s as [|c s IH]; intro k.
  - split; reflexivity.
  - cbn [JS.trimStartFrom JS.allWhiteSpaceFrom].
    destruct k as [|k]; [|apply IH].
    destruct (JS.whiteSpaceLength (String c s)); [|apply IH].
    split; discriminate.
Qed.

(** What is left after the white space at the start does not start with
    white space. *)
Lemma trimStartFrom_head :
  forall s k,
    JS.trimStartFrom k s = ""
    \/ JS.whiteSpaceLength (JS.trimStartFrom k s) = 0%nat.
Proof.
  induction s as [|c s IH]; intro k.
  - now left.
  - cbn [JS.trimStartFrom].
    destruct k as [|k]; [|apply IH].
    destruct (JS.whiteSpaceLength (String c s)) eqn:E; [|apply IH].
    right. exact E.
Qed.

Lemma trimEnd_blank_iff :
  forall s, JS.trimEnd s = "" <-> JS.allWhiteSpace s = true.
Proof.
  intros [|c s].
  - split; reflexivity.
  - cbn [JS.trimEnd]. destruct (JS.allWhiteSpace (String c s)).
    + split; reflexivity.
    + split; discriminate.
Qed.

Lemma allWhiteSpace_head :
  forall s,
    JS.allWhiteSpace s = true -> JS.whiteSpaceLength s = 0%nat -> s = "".
Proof.
  intros [|c s] H E; [reflexivity|].
  unfold JS.allWhiteSpace in H. cbn [JS.allWhiteSpaceFrom] in H.
  rewrite E in H. discriminate H.
Qed.

Lemma trim_blank_iff :
  forall s, JS.trim s = "" <-> JS.allWhiteSpace s = true.
Proof.
  intro s. unfold JS.trim. rewrite trimEnd_blank_iff.
  unfold JS.allWhiteSpace at 2. rewrite <- trimStartFrom_blank_iff.
  fold (JS.trimStart s). split.
  - intro H. destruct (trimStartFrom_head s 0) as [E|E]; [exact E|].
    now apply allWhiteSpace_head.
  - intros ->. reflexivity.
Qed.

(** X3. An idle panel ignores a send exactly when its input is made of
    white space only (the empty input included), be it the space of the
    keyboard, a line break, or any other white space character of the
    language, such as the ideographic space: the state stays as it is, so
    nothing is appended and nothing is requested. *)
Theorem chat_blank_input_is_not_sent :
  forall (now : Z) (st : ChatPanel.State),
    ChatPanel.isLoading st = false ->
    (ChatPanel.handleSendMessage now st = st
     <-> JS.allWhiteSpace (ChatPanel.inputValue st) = true).
Proof.
  intros now st Hidle. rewrite <- trim_blank_iff.
  unfold ChatPanel.handleSendMessage, JS.truthy. rewrite Hidle, orb_false_r.
  rewrite negb_involutive.
  destruct (String.eqb_spec (JS.trim (ChatPanel.inputValue st)) "") as [E|E].
  - split; [intros _; exact E | reflexivity].
  - split; [|intro H; now elim E].
    intro H. apply (f_equal ChatPanel.isLoading) in H.
    cbn [ChatPanel.isLoading] in H. congruence.
Qed.

Lemma chat_blank_input_is_not_sent_witness :
  let f := Finding.mk 1 "EXCLUSION" "HIGH" "Flood damage is excluded." None 3
             0%Q in
  let blank := JS.bytes [32; 227; 128; 128; 10; 239; 187; 191]%N in
  let st := ChatPanel.setInputValue blank (ChatPanel.mount f 0) in
  ChatPanel.handleSendMessage 5 st = st.
Proof.
  intros f blank st.
  apply (chat_blank_input_is_not_sent 5 st); reflexivity.
Defined.

(** X4. Selecting the finding the panel is bound to appends nothing.
    Going from a finding to another and back appends the context message of
    the first again, under the message id it had the first time. *)
Theorem chat_reselecting_a_finding :
  forall (A B A' : Finding.t) (tA tB tA' : Z) (st : ChatPanel.State),
    Finding.id A' = Finding.id A ->
    Finding.id A <> Finding.id B ->
    ChatPanel.currentFindingId st <> Some (Finding.id A) ->
    let bound := ChatPanel.step (ChatPanel.SelectFinding A tA) st in
    ChatPanel.messages (ChatPanel.step (ChatPanel.SelectFinding A' tA') bound)
    = ChatPanel.messages bound
    /\ ChatPanel.messages
         (ChatPanel.run
            [ ChatPanel.SelectFinding B tB; ChatPanel.SelectFinding A' tA' ]
            bound)
       = ChatPanel.messages st
         ++ [ ChatPanel.contextMessage A tA; ChatPanel.contextMessage B tB;
              ChatPanel.contextMessage A' tA' ]
    /\ ChatMessage.id (ChatPanel.contextMessage A' tA')
       = ChatMessage.id (ChatPanel.contextMessage A tA).
Proof.
  intros A B A' tA tB tA' st Hsame HAB Hcur bound.
  assert (E1 : ChatPanel.findingChanged (ChatPanel.withFinding A st) = true).
  { rewrite findingChanged_withFinding.
    destruct (ChatPanel.currentFindingId st) as [i|]; [|reflexivity].
    destruct (Z.eqb_spec (Finding.id A) i) as [e|n]; [|reflexivity].
    elim Hcur. now rewrite e. }
  unfold bound. rewrite (step_SelectFinding_changed A tA st E1).
  split; [|split].
  - unfold ChatPanel.step, ChatPanel.effect.
    rewrite findingChanged_withFinding. cbn [ChatPanel.currentFindingId].
    now rewrite Hsame, Z.eqb_refl.
  - unfold ChatPanel.run, fold_left.
    rewrite (step_SelectFinding_changed B tB)
      by (rewrite findingChanged_withFinding;
          cbn [ChatPanel.currentFindingId];
          apply negb_true_iff, Z.eqb_neq; congruence).
    rewrite (step_SelectFinding_changed A' tA')
      by (rewrite findingChanged_withFinding;
          cbn [ChatPanel.currentFindingId];
          apply negb_true_iff, Z.eqb_neq; congruence).
    cbn [ChatPanel.messages]. now rewrite <- !app_assoc.
  - unfold ChatPanel.contextMessage. cbn [ChatMessage.id]. now rewrite Hsame.
Qed.

Lemma chat_reselecting_a_finding_witness :
  let A := Finding.mk 1 "EXCLUSION" "HIGH" "Flood damage is excluded." None 3
             0%Q in
  let B := Finding.mk 2 "DEDUCTIBLE" "LOW" "A deductible applies." None 5
             0%Q in
  List.length
    (ChatPanel.messages
       (ChatPanel.run
          [ ChatPanel.SelectFinding B 20; ChatPanel.SelectFinding A 30 ]
          (ChatPanel.step (ChatPanel.SelectFinding A 10) (ChatPanel.initial A))))
  = 3%nat.
Proof.
  intros A B.
  destruct (chat_reselecting_a_finding A B A 10 20 30 (ChatPanel.initial A))
    as (_ & H & _).
  - reflexivity.
  - simpl. lia.
  - simpl. discriminate.
  - rewrite H. reflexivity.
Defined.

(** X5. A reply that arrives after another finding was selected is
    appended below the context message of the new finding, although the
    request was made for the finding shown when the question was sent. *)
Theorem chat_late_reply_lands_under_new_finding :
  forall (B : Finding.t) (now tB later : Z) (r : Settled ChatResponse.t)
         (st : ChatPanel.State),
    ChatPanel.isLoading st = false ->
    ChatPanel.pending st = 0%nat ->
    JS.allWhiteSpace (ChatPanel.inputValue st) = false ->
    ChatPanel.currentFindingId st = Some (Finding.id (ChatPanel.finding st)) ->
    Finding.id B <> Finding.id (ChatPanel.finding st) ->
    let st' :=
      ChatPanel.run
        [ ChatPanel.ClickSend now; ChatPanel.SelectFinding B tB;
          ChatPanel.ResponseArrives later r ] st in
    ChatPanel.messages st'
    = ChatPanel.messages st
      ++ [ ChatPanel.userMessage (ChatPanel.inputValue st) now;
           ChatPanel.contextMessage B tB;
           match r with
           | Resolved response => ChatPanel.botMessage response later
           | Rejected _ => ChatPanel.errorMessage later
           end ]
    /\ ChatPanel.requests st'
       = ChatPanel.requests st
         ++ [ Api.sendChatMessage (Finding.id (ChatPanel.finding st))
                (ChatPanel.inputValue st) ]
    /\ ChatPanel.finding st' = B.
Proof.
  intros B now tB later r st Hidle Hpend Hq Hcur HB st'.
  assert (Ht : JS.truthy (JS.trim (ChatPanel.inputValue st)) = true).
  { unfold JS.truthy. apply negb_true_iff, String.eqb_neq.
    intro E. apply trim_blank_iff in E. congruence. }
  unfold st', ChatPanel.run, fold_left.
  assert (E1 : ChatPanel.step (ChatPanel.ClickSend now) st
               = ChatPanel.mkState (ChatPanel.finding st) ""
                   (ChatPanel.messages st
                    ++ [ChatPanel.userMessage (ChatPanel.inputValue st) now])
                   (ChatPanel.currentFindingId st) true
                   (ChatPanel.requests st
                    ++ [Api.sendChatMessage
                          (Finding.id (ChatPanel.finding st))
                          (ChatPanel.inputValue st)])
                   (ChatPanel.toasts st) 1%nat).
  { unfold ChatPanel.step, ChatPanel.sendDisabled,
      ChatPanel.handleSendMessage.
    now rewrite Ht, Hidle, Hpend. }
  rewrite E1.
  rewrite (step_SelectFinding_changed B tB)
    by (rewrite findingChanged_withFinding;
        cbn [ChatPanel.currentFindingId]; rewrite Hcur;
        now apply negb_true_iff, Z.eqb_neq).
  unfold ChatPanel.step. cbn [ChatPanel.pending].
  destruct r; cbn [ChatPanel.handleSendMessage_settled ChatPanel.messages
                   ChatPanel.requests ChatPanel.finding];
    rewrite <- !app_assoc; repeat split.
Qed.

Lemma chat_late_reply_lands_under_new_finding_witness :
  let A := Finding.mk 1 "EXCLUSION" "HIGH" "Flood damage is excluded." None 3
             0%Q in
  let B := Finding.mk 2 "DEDUCTIBLE" "LOW" "A deductible applies." None 5
             0%Q in
  let st := ChatPanel.setInputValue "Is this normal?" (ChatPanel.mount A 0) in
  ChatPanel.finding
    (ChatPanel.run
       [ ChatPanel.ClickSend 1; ChatPanel.SelectFinding B 2;
         ChatPanel.ResponseArrives 3
           (Rejected (AxiosError.mk "timeout" JS.Undefined)) ] st)
  = B.
Proof.
  intros A B st.
  apply (chat_late_reply_lands_under_new_finding B 1 2 3
           (Rejected (AxiosError.mk "timeout" JS.Undefined)) st);
    try reflexivity.
  simpl. lia.
Defined.

(** ** From the landing page to the analysis page *)

(** X6. The landing page stores a file and navigates exactly when the
    file passes the two checks; otherwise the slot keeps what it held and
    a toast is shown.  When the analysis page mounts it sends the health
    check and then, once, the upload of the stored file, in this order,
    and the slot is emptied, so mounting the page again sends the health
    check only. *)
Theorem stored_file_is_uploaded_once :
  forall (file : File.t) (stored : fileState.t) (now later : Z),
    let landing := Index.handleFileUpload file (Index.initial stored) in
    let page := Analysis.mount (Index.storedFile landing) now in
    let health := Request.mk ViaApi GET "/health" NoBody in
    let upload := Request.mk ViaApi POST "/ingest" (FormData file) in
    (Analysis.passesValidation file = true ->
     Index.storedFile landing = Some file
     /\ Index.navigatedTo landing = Some "/analysis"%string
     /\ Index.toasts landing = []
     /\ Analysis.requests page = [health; upload]
     /\ Analysis.storedFile page = None
     /\ Analysis.requests (Analysis.mount (Analysis.storedFile page) later)
        = [health])
    /\ (Analysis.passesValidation file = false ->
        Index.storedFile landing = stored
        /\ Index.navigatedTo landing = None
        /\ List.length (Index.toasts landing) = 1%nat).
Proof.
  intros file stored now later landing page health upload.
  assert (Hlanding :
            landing
            = if Analysis.passesValidation file
              then Index.mkState true (Some file) [] (Some "/analysis"%string)
              else Index.toast
                     (if JS.includes (File.type file) "pdf"
                      then Toast.mk "File too large"
                             (JS.Str "Please upload a file smaller than 10MB")
                             true
                      else Toast.mk "Invalid file type"
                             (JS.Str "Please upload a PDF file") true)
                     (Index.initial stored)).
  { unfold landing, Index.handleFileUpload, Analysis.passesValidation,
      Analysis.maxSize.
    rewrite Z.gtb_ltb, Z.ltb_antisym.
    destruct (JS.includes (File.type file) "pdf"); cbn [negb andb];
      [|reflexivity].
    destruct (File.size file <=? 10 * 1024 * 1024); reflexivity. }
  unfold page. rewrite Hlanding.
  destruct (Analysis.passesValidation file) eqn:Ev.
  - split; [|intro H; discriminate H]. intros _.
    cbn [Index.storedFile Index.navigatedTo Index.toasts].
    unfold Analysis.mount, Analysis.storedFileMutation,
      Analysis.storedFileEffect, Analysis.handleFileUpload_checked.
    cbn [fileState.getFile Analysis.storedFile Analysis.initial
         Analysis.currentFile].
    rewrite rejection_cases, Ev. repeat split.
  - split; [intro H; discriminate H|]. intros _. repeat split.
Qed.

Lemma stored_file_is_uploaded_once_witness :
  Analysis.requests
    (Analysis.mount
       (Index.storedFile
          (Index.handleFileUpload Scenario.policy (Index.initial None))) 0)
  = [ Request.mk ViaApi GET "/health" NoBody;
      Request.mk ViaApi POST "/ingest" (FormData Scenario.policy) ]
  /\ Index.navigatedTo
       (Index.handleFileUpload Scenario.large (Index.initial None)) = None.
Proof.
  destruct (stored_file_is_uploaded_once Scenario.policy None 0 1) as [H _].
  destruct (stored_file_is_uploaded_once Scenario.large None 0 1) as [_ H'].
  split.
  - apply H. reflexivity.
  - apply H'. reflexivity.
Defined.

(** ** Choosing a file on the analysis page *)

(** X7. Choosing a file resets the page before the file is checked: be
    the file accepted or rejected, the selected finding is dropped, both
    progress values are 0, the steps are wiped (an accepted file adds its
    upload step), the file becomes the current file and the upload
    interface is no longer rendered.  The document id and the findings on
    screen stay those of the document before. *)
Theorem choosing_a_file_resets_before_validating :
  forall (file : File.t) (st : Analysis.State),
    let st' := Analysis.step (Analysis.FileChosen file) st in
    Analysis.selectedFinding st' = None
    /\ Analysis.currentFile st' = Some file
    /\ Analysis.showsUploadInterface st' = false
    /\ Analysis.analysisProgress st' = 0
    /\ Analysis.uploadProgress st' = 0
    /\ map ProcessStep.id (Analysis.processSteps st')
       = (if Analysis.passesValidation file then ["upload-start"] else [])
    /\ Analysis.documentId st' = Analysis.documentId st
    /\ Analysis.findings st' = Analysis.findings st
    /\ Analysis.analysisStatus st' = Analysis.analysisStatus st
    /\ AnalysisState.isUploading (Analysis.analysisState st')
       = (Analysis.passesValidation file
          || AnalysisState.isUploading (Analysis.analysisState st)).
Proof.
  intros file st st'. unfold st'. rewrite step_FileChosen.
  unfold Analysis.handleFileUpload, Analysis.handleFileUpload_checked,
    Analysis.showsUploadInterface.
  rewrite rejection_cases.
  destruct (Analysis.passesValidation file);
    [|destruct (JS.includes (File.type file) "pdf")];
    cbn [negb andb orb]; rewrite ?andb_false_r; repeat split.
Qed.

(** ** The upload settles *)

(** X8. When the upload resolves with a document id that is new to the
    page, and for which nothing was fetched and no fetch is under way, the
    page takes the id and the file name, leaves the uploading phase for the
    analyzing phase, appends the four steps of the pipeline after the
    steps it had, sets the upload progress to 50 and the analysis progress
    to 25, replaces the timer of the upload by the three timers of the
    pipeline, and shows no status, no progress and no findings of the
    document before.  If the id is not empty the status query and the
    progress query are enabled by this and fetch at once, in this order,
    the findings query stays disabled, and the viewer, handed the id,
    fetches the PDF from the fixed host. *)
Theorem upload_success_starts_analysis :
  forall (mutation : nat) (result : IngestResponse.t) (st : Screen.State),
    let d := IngestResponse.document_id result in
    let page := Screen.page st in
    Screen.inStep st ->
    Analysis.documentId page <> Some d ->
    Query.data (Query.lookup d (Analysis.statusQuery page)) = None ->
    Query.data (Query.lookup d (Analysis.progressQuery page)) = None ->
    Query.data (Query.lookup d (Analysis.findingsQuery page)) = None ->
    Query.error (Query.lookup d (Analysis.findingsQuery page)) = None ->
    Query.fetching d (Analysis.statusFetches page) = false ->
    Query.fetching d (Analysis.progressFetches page) = false ->
    let e := Analysis.UploadSettled mutation (Resolved result) in
    let st' := Screen.step e st in
    let page' := Screen.page st' in
    Analysis.analysisState page'
    = AnalysisState.mk (Some d) (Some (IngestResponse.filename result))
        false true
    /\ map ProcessStep.id (Analysis.processSteps page')
       = map ProcessStep.id (Analysis.processSteps page)
         ++ ["text-extraction"; "embedding-generation"; "vector-store";
             "analysis"]%string
    /\ Analysis.uploadProgress page' = 50
    /\ Analysis.analysisProgress page' = 25
    /\ Analysis.timers page'
       = filter (fun t => negb (Timer.eqb t (Timer.UploadInterval mutation)))
           (Analysis.timers page)
         ++ [ Timer.EmbeddingInterval mutation;
              Timer.EmbeddingTimeout mutation;
              Timer.VectorStoreTimeout mutation ]
    /\ Analysis.analysisStatus page' = None
    /\ Analysis.progressData page' = None
    /\ Analysis.findings page' = []
    /\ Analysis.statusEnabled page' = JS.truthy d
    /\ Analysis.progressEnabled page' = JS.truthy d
    /\ Analysis.findingsEnabled page' = false
    /\ Analysis.emitted e page
       = (if JS.truthy d
          then [ Request.mk ViaApi GET ("/analysis/" ++ d) NoBody;
                 Request.mk ViaApi GET ("/progress/" ++ d) NoBody ]
          else [])
    /\ (JS.truthy d = true ->
        Screen.fetched st'
        = Screen.fetched st
          ++ [ Request.mk ViaFetch GET
                 ("http://localhost:7860/documents/" ++ d
                  ++ "/pdf#view=FitH&toolbar=1") NoBody ]).
Proof.
  intros mutation result st d page Hin Hkey Hs Hp Hf Hfe Fs Fp e st' page'.
  assert (Epage : page' = Analysis.step e page).
  { unfold page', st', Screen.step. cbn [Screen.page]. reflexivity. }
  assert (Hv' : Screen.viewer st' = Screen.render page' (Screen.viewer st)).
  { unfold page', st', Screen.step. cbn [Screen.viewer Screen.page].
    reflexivity. }
  clearbody page' st'.
  set (new := Analysis.handle e page).
  assert (Hd : Analysis.documentId new = Some d) by reflexivity.
  assert (Hst : Analysis.analysisStatus new = None).
  { unfold Analysis.analysisStatus. rewrite Hd. exact Hs. }
  assert (Hpr : Analysis.progressData new = None).
  { unfold Analysis.progressData. rewrite Hd. exact Hp. }
  assert (Hfi : Analysis.findings new = []).
  { unfold Analysis.findings. rewrite Hd.
    change (Analysis.findingsQuery new) with (Analysis.findingsQuery page).
    unfold Query.observe. now rewrite Hf. }
  assert (Hfe' : Analysis.findingsError new = None).
  { unfold Analysis.findingsError. rewrite Hd. exact Hfe. }
  assert (Hafter : Analysis.afterRender page new = new).
  { unfold Analysis.afterRender, Analysis.statusChanged,
      Analysis.progressChanged, Analysis.findingsErrorChanged.
    rewrite Hst, Hpr, Hfe', Hfi.
    destruct (Analysis.findingsChanged page new); reflexivity. }
  assert (Hpage : page' = Analysis.fetchOnEnable page new).
  { rewrite Epage. unfold Analysis.step. fold new. now rewrite Hafter. }
  assert (Hchanged : Analysis.keyChanged page new = true).
  { unfold Analysis.keyChanged. rewrite Hd.
    destruct (Analysis.documentId page) as [d0|]; [|reflexivity].
    destruct (String.eqb_spec d0 d) as [E|_]; [|reflexivity].
    elim Hkey. now rewrite E. }
  assert (Hcompleted : Analysis.statusIs "completed" new = false).
  { unfold Analysis.statusIs. now rewrite Hst. }
  assert (Hgates : Analysis.becameEnabled Analysis.statusEnabled page new
                   = JS.truthy d
                   /\ Analysis.becameEnabled Analysis.progressEnabled page new
                      = JS.truthy d).
  { unfold Analysis.becameEnabled, Analysis.statusEnabled,
      Analysis.progressEnabled.
    rewrite Hchanged, Hcompleted, Hd, !orb_true_r, !andb_true_r.
    split; reflexivity. }
  destruct Hgates as [Gs Gp].
  assert (Hem : Analysis.emitted e page
                = if JS.truthy d
                  then [Api.getAnalysisStatus d; Api.getProgress d] else []).
  { rewrite emitted_cases. cbn [app]. fold new.
    unfold Analysis.enabledFetches. rewrite Gs, Gp.
    unfold Analysis.idString. rewrite Hd.
    change (Analysis.statusFetches new) with (Analysis.statusFetches page).
    change (Analysis.progressFetches new)
      with (Analysis.progressFetches page).
    rewrite Fs, Fp. destruct (JS.truthy d); reflexivity. }
  destruct (fetchOnEnable_keeps page new)
    as (K1 & _ & K3 & K4 & K5 & _ & _ & _ & K9 & K10 & K11 & _ & _ & _ & _
        & _ & K17 & _).
  rewrite <- Hpage in K1, K3, K4, K5, K9, K10, K11, K17.
  assert (Hd' : Analysis.documentId page' = Some d).
  { unfold Analysis.documentId. rewrite K1. exact Hd. }
  assert (Hst' : Analysis.analysisStatus page' = None).
  { unfold Analysis.analysisStatus. rewrite Hd', K9. exact Hs. }
  assert (Hen : Analysis.statusIs "completed" page' = false).
  { unfold Analysis.statusIs. now rewrite Hst'. }
  split; [rewrite K1; reflexivity|].
  split.
  { rewrite K3. unfold new, e. cbn [Analysis.handle].
    unfold Analysis.uploadMutation_settled, Analysis.toast,
      Analysis.addProcessStep, Analysis.updateProcessStep, Analysis.setTimer,
      Analysis.clearTimer.
    cbn [Analysis.processSteps Analysis.setToasts Analysis.setAnalysisState
         Analysis.setAnalysisProgress Analysis.setProcessSteps
         Analysis.setUploadProgress Analysis.setTimers].
    rewrite !map_app, map_map. cbn [map ProcessStep.id].
    rewrite <- !app_assoc. cbn [app]. f_equal.
    apply map_ext. intro step.
    destruct (String.eqb (ProcessStep.id step) "upload-start"); reflexivity. }
  split; [rewrite K4; reflexivity|].
  split; [rewrite K5; reflexivity|].
  split.
  { rewrite K17. unfold new, e. cbn [Analysis.handle].
    unfold Analysis.uploadMutation_settled, Analysis.toast,
      Analysis.addProcessStep, Analysis.updateProcessStep, Analysis.setTimer,
      Analysis.clearTimer.
    cbn [Analysis.timers Analysis.setToasts Analysis.setAnalysisState
         Analysis.setAnalysisProgress Analysis.setProcessSteps
         Analysis.setUploadProgress Analysis.setTimers].
    now rewrite <- !app_assoc. }
  split; [exact Hst'|].
  split; [unfold Analysis.progressData; rewrite Hd', K10; exact Hp|].
  split.
  { unfold Analysis.findings. rewrite Hd', K11.
    change (Analysis.findingsQuery new) with (Analysis.findingsQuery page).
    unfold Query.observe. now rewrite Hf. }
  unfold Analysis.statusEnabled, Analysis.progressEnabled,
    Analysis.findingsEnabled.
  rewrite Hen, Hd'. cbn [JS.truthy_opt negb].
  rewrite andb_true_r, andb_false_r.
  split; [reflexivity|]. split; [reflexivity|]. split; [reflexivity|].
  split; [exact Hem|].
  intro Ht. unfold Screen.fetched. rewrite Hv'.
  unfold Screen.render, Analysis.showsUploadInterface. rewrite Hd'.
  cbn [JS.truthy_opt]. rewrite Ht. cbn [negb andb].
  destruct (Screen.viewer st) as [v|] eqn:Ev.
  - pose proof (Hin v Ev) as Hv. fold page in Hv.
    unfold PDFViewer.withDocumentId. rewrite Hv.
    assert (Hrun : forall s,
               PDFViewer.documentId s = Some d ->
               PDFViewer.requests (PDFViewer.runEffect s)
               = PDFViewer.requests s
                 ++ [Request.mk ViaFetch GET (PDFViewer.pdfUrl (Some d)) NoBody]).
    { intros s Hsd. unfold PDFViewer.runEffect, PDFViewer.effect.
      rewrite Hsd. cbn [JS.truthy_opt]. rewrite Ht. reflexivity. }
    destruct (Analysis.documentId page) as [d0|].
    + destruct (String.eqb_spec d d0) as [E|_];
        [elim Hkey; now rewrite E|].
      now rewrite Hrun.
    + now rewrite Hrun.
  - unfold PDFViewer.mount, PDFViewer.runEffect, PDFViewer.effect,
      PDFViewer.initial.
    cbn [PDFViewer.documentId JS.truthy_opt]. rewrite Ht. reflexivity.
Qed.

Lemma upload_success_starts_analysis_witness :
  let chosen :=
    Screen.step (Analysis.FileChosen Scenario.policy) (Screen.mount None 0) in
  let e := Analysis.UploadSettled 0 (Resolved Scenario.ingested) in
  Analysis.analysisState (Screen.page (Screen.step e chosen))
  = AnalysisState.mk (Some "abc123"%string) (Some "policy.pdf"%string)
      false true
  /\ Analysis.emitted e (Screen.page chosen)
     = [ Request.mk ViaApi GET "/analysis/abc123" NoBody;
         Request.mk ViaApi GET "/progress/abc123" NoBody ]
  /\ Screen.fetched (Screen.step e chosen)
     = [ Request.mk ViaFetch GET
           "http://localhost:7860/documents/abc123/pdf#view=FitH&toolbar=1"
           NoBody ].
Proof.
  intros chosen e.
  destruct (upload_success_starts_analysis 0 Scenario.ingested chosen)
    as (H1 & _ & _ & _ & _ & _ & _ & _ & _ & _ & _ & H2 & H3).
  - intros v Hv. vm_compute in Hv. injection Hv as <-. reflexivity.
  - vm_compute. discriminate.
  - vm_compute. reflexivity.
  - vm_compute. reflexivity.
  - vm_compute. reflexivity.
  - vm_compute. reflexivity.
  - vm_compute. reflexivity.
  - vm_compute. reflexivity.
  - split; [exact H1|]. split; [exact H2|]. apply H3. reflexivity.
Defined.

(** The message of a failed upload: the detail of the response if it is
    truthy, else the message of the error, else a fixed text. *)
Lemma uploadErrorMessage_cases :
  forall e : AxiosError.t,
    Analysis.uploadErrorMessage e
    = if JS.truthyValue (AxiosError.detail e) then AxiosError.detail e
      else if JS.truthy (AxiosError.message e)
           then JS.Str (AxiosError.message e)
           else JS.Str "Failed to upload document".
Proof.
  intro e. unfold Analysis.uploadErrorMessage, JS.orValue.
  cbn [JS.truthyValue]. reflexivity.
Qed.

(** X9. When the upload fails the page leaves the uploading phase without
    touching the document id, the file name or the analyzing flag, sets
    the upload progress to 0, clears the timer of the upload, issues no
    request, and shows one destructive toast whose description is never
    falsy: the detail of the response whenever that is truthy, be it a
    string or, as the list of errors of a rejected form, not a string;
    else the message of the error if it is not empty; else a fixed
    text. *)
Theorem upload_failure_is_reported :
  forall (mutation : nat) (e : AxiosError.t) (st : Analysis.State),
    let st' :=
      Analysis.step (Analysis.UploadSettled mutation (Rejected e)) st in
    Analysis.analysisState st'
    = AnalysisState.mk (Analysis.documentId st)
        (AnalysisState.filename (Analysis.analysisState st)) false
        (AnalysisState.isAnalyzing (Analysis.analysisState st))
    /\ Analysis.uploadProgress st' = 0
    /\ Analysis.timers st'
       = filter (fun t => negb (Timer.eqb t (Timer.UploadInterval mutation)))
           (Analysis.timers st)
    /\ Analysis.requests st' = Analysis.requests st
    /\ Analysis.toasts st'
       = Analysis.toasts st
         ++ [Toast.mk "Upload failed ❌" (Analysis.uploadErrorMessage e) true]
    /\ JS.truthyValue (Analysis.uploadErrorMessage e) = true
    /\ (JS.truthyValue (AxiosError.detail e) = true ->
        Analysis.uploadErrorMessage e = AxiosError.detail e)
    /\ (JS.truthyValue (AxiosError.detail e) = false ->
        Analysis.uploadErrorMessage e
        = JS.Str (if JS.truthy (AxiosError.message e)
                  then AxiosError.message e
                  else "Failed to upload document"%string)).
Proof.
  intros mutation e st st'.
  assert (E : st' = Analysis.uploadMutation_settled mutation (Rejected e) st).
  { unfold st'. apply step_same_queries; reflexivity. }
  rewrite E. split; [reflexivity|]. split; [reflexivity|].
  split; [reflexivity|]. split; [reflexivity|]. split; [reflexivity|].
  rewrite uploadErrorMessage_cases.
  split; [|split].
  - destruct (JS.truthyValue (AxiosError.detail e)) eqn:Ed; [exact Ed|].
    destruct (JS.truthy (AxiosError.message e)) eqn:Em;
      [exact Em | reflexivity].
  - intros ->. reflexivity.
  - intros ->. destruct (JS.truthy (AxiosError.message e)); reflexivity.
Qed.

Lemma upload_failure_is_reported_witness :
  let errors :=
    JS.Arr
      [ JS.Obj [ ("loc"%string, JS.Arr [JS.Str "body"; JS.Str "file"]);
                 ("msg"%string, JS.Str "field required") ] ] in
  Analysis.uploadErrorMessage
    (AxiosError.mk "Request failed with status code 422" errors)
  = errors
  /\ Analysis.uploadErrorMessage
       (AxiosError.mk "Network Error" JS.Undefined)
     = JS.Str "Network Error".
Proof.
  intro errors.
  destruct (upload_failure_is_reported 0
              (AxiosError.mk "Request failed with status code 422" errors)
              Scenario.uploaded) as (_ & _ & _ & _ & _ & _ & H & _).
  destruct (upload_failure_is_reported 0
              (AxiosError.mk "Network Error" JS.Undefined)
              Scenario.uploaded) as (_ & _ & _ & _ & _ & _ & _ & H').
  split.
  - apply H. reflexivity.
  - apply H'. reflexivity.
Defined.

(** ** The status and progress responses *)

Section TerminalStatus.
Import Analysis.

Lemma AnalysisStatus_eqb_status :
  forall a b, AnalysisStatus.eqb a b = true ->
              AnalysisStatus.status a = AnalysisStatus.status b.
Proof.
  intros a b H. unfold AnalysisStatus.eqb in H.
  apply andb_true_iff in H. destruct H as [H _].
  apply andb_true_iff in H. destruct H as [_ H].
  now apply String.eqb_eq.
Qed.

(** A status response for the document shown whose status was not the
    observed one runs the status effect. *)
Lemma step_StatusSettled_new_status :
  forall d a st,
    documentId st = Some d ->
    statusIs (AnalysisStatus.status a) st = false ->
    step (StatusSettled d (Resolved a)) st
    = fetchOnEnable st (statusEffect a (statusSettled d (Resolved a) st)).
Proof.
  intros d a st Hd Hnew. unfold step. cbn [handle].
  set (new := statusSettled d (Resolved a) st). f_equal.
  unfold afterRender.
  rewrite (progressChanged_same st new) by reflexivity.
  destruct (findingsChanged_same st new) as [-> ->]; try reflexivity.
  assert (Hc : statusChanged st new = Some a).
  { unfold statusChanged, analysisStatus, new.
    change (documentId (statusSettled d (Resolved a) st))
      with (documentId st).
    change (statusQuery (statusSettled d (Resolved a) st))
      with (Query.settle d (Resolved a) (statusQuery st)).
    rewrite Hd. unfold Query.observe.
    rewrite lookup_settle_resolved, String.eqb_refl. cbn [Query.data].
    unfold statusIs, analysisStatus in Hnew. rewrite Hd in Hnew.
    unfold Query.observe in Hnew.
    destruct (Query.data (Query.lookup d (statusQuery st))) as [a0|];
      [|reflexivity].
    destruct (AnalysisStatus.eqb a0 a) eqn:E; [|reflexivity].
    apply AnalysisStatus_eqb_status in E. rewrite E, String.eqb_refl in Hnew.
    discriminate. }
  now rewrite Hc.
Qed.

(** An update keeps the steps in place: their number, ids, titles and
    times. *)
Lemma updateProcessStep_ids :
  forall id status message icon st,
    map ProcessStep.id (processSteps (updateProcessStep id status message icon st))
    = map ProcessStep.id (processSteps st).
Proof.
  intros id status message icon st. unfold updateProcessStep.
  cbn [processSteps setProcessSteps]. rewrite map_map. apply map_ext.
  intro step. destruct (String.eqb (ProcessStep.id step) id); reflexivity.
Qed.

Lemma updateProcessStep_statuses :
  forall id status message icon st,
    Forall (fun step =>
              ProcessStep.id step = id -> ProcessStep.status step = status)
      (processSteps (updateProcessStep id status message icon st)).
Proof.
  intros id status message icon st. unfold updateProcessStep.
  cbn [processSteps setProcessSteps]. apply Forall_map, Forall_forall.
  intros step _.
  destruct (String.eqb_spec (ProcessStep.id step) id) as [E|E].
  - reflexivity.
  - intro H. now elim E.
Qed.

End TerminalStatus.

(** X10. The first response for the document shown that reports completed
    ends the analyzing phase, sets the analysis progress to 100, marks
    every step called analysis completed and enables the findings query;
    the first that reports failed ends the analyzing phase, marks those
    steps as errors and leaves the findings query disabled.  Neither adds,
    removes or reorders a step. *)
Theorem terminal_status_ends_the_analyzing_phase :
  forall (d : string) (a : AnalysisStatus.t) (st : Analysis.State),
    Analysis.documentId st = Some d ->
    Analysis.statusIs (AnalysisStatus.status a) st = false ->
    let st' := Analysis.step (Analysis.StatusSettled d (Resolved a)) st in
    (AnalysisStatus.status a = "completed" ->
     AnalysisState.isAnalyzing (Analysis.analysisState st') = false
     /\ Analysis.analysisProgress st' = 100
     /\ Analysis.findingsEnabled st' = JS.truthy d
     /\ Forall (fun step =>
                  ProcessStep.id step = "analysis" ->
                  ProcessStep.status step = ProcessStep.completed)
          (Analysis.processSteps st'))
    /\ (AnalysisStatus.status a = "failed" ->
        AnalysisState.isAnalyzing (Analysis.analysisState st') = false
        /\ Analysis.findingsEnabled st' = false
        /\ Forall (fun step =>
                     ProcessStep.id step = "analysis" ->
                     ProcessStep.status step = ProcessStep.error)
             (Analysis.processSteps st'))
    /\ map ProcessStep.id (Analysis.processSteps st')
       = map ProcessStep.id (Analysis.processSteps st)
    /\ Analysis.documentId st' = Some d.
Proof.
  intros d a st Hd Hnew st'.
  assert (Hobs : forall s, Analysis.statusIs s st'
                           = String.eqb (AnalysisStatus.status a) s)
    by (intro s; now apply observed_status_is_last_response).
  assert (Hd' : Analysis.documentId st' = Some d).
  { unfold st'. now rewrite documentId_step_StatusSettled. }
  assert (Hen : Analysis.findingsEnabled st'
                = JS.truthy d && String.eqb (AnalysisStatus.status a) "completed").
  { unfold Analysis.findingsEnabled. now rewrite Hobs, Hd'. }
  assert (E := step_StatusSettled_new_status d a st Hd Hnew). fold st' in E.
  destruct (fetchOnEnable_keeps st
              (Analysis.statusEffect a
                 (Analysis.statusSettled d (Resolved a) st)))
    as (K1 & _ & K3 & _ & K5 & _).
  rewrite <- E in K1, K3, K5. rewrite K1, K3, K5. clear K1 K3 K5 E.
  split; [|split; [|split]].
  - intro Hc. rewrite Hen, Hc. cbn [String.eqb]. rewrite andb_true_r.
    unfold Analysis.statusEffect. rewrite Hc. cbn [String.eqb].
    repeat split. apply (updateProcessStep_statuses "analysis").
  - intro Hf. rewrite Hen, Hf. rewrite andb_false_r.
    unfold Analysis.statusEffect. rewrite Hf.
    repeat split. apply (updateProcessStep_statuses "analysis").
  - unfold Analysis.statusEffect.
    destruct (String.eqb (AnalysisStatus.status a) "completed");
      [|destruct (String.eqb (AnalysisStatus.status a) "failed")];
      try reflexivity;
      cbn [Analysis.processSteps Analysis.setIsAnalyzing
           Analysis.setAnalysisState];
      now rewrite updateProcessStep_ids.
  - exact Hd'.
Qed.

Lemma terminal_status_ends_the_analyzing_phase_witness :
  AnalysisState.isAnalyzing (Analysis.analysisState Scenario.analyzing) = true
  /\ AnalysisState.isAnalyzing
       (Analysis.analysisState
          (Analysis.step
             (Analysis.StatusSettled "abc123"
                (Resolved (Scenario.status "completed")))
             Scenario.analyzing)) = false.
Proof.
  split; [vm_compute; reflexivity|].
  destruct (terminal_status_ends_the_analyzing_phase "abc123"
              (Scenario.status "completed") Scenario.analyzing)
    as (H & _).
  - vm_compute. reflexivity.
  - vm_compute. reflexivity.
  - apply H. reflexivity.
Defined.

Section ProgressResponses.
Import Analysis.

Lemma ProgressData_eqb_eq :
  forall p q, ProgressData.eqb p q = true -> p = q.
Proof.
  intros [s1 n1 m1 t1] [s2 n2 m2 t2] H. unfold ProgressData.eqb in H.
  cbn in H. repeat (apply andb_true_iff in H; destruct H as [H ?]).
  apply String.eqb_eq in H. apply Z.eqb_eq in H2.
  apply String.eqb_eq in H1. apply String.eqb_eq in H0. now subst.
Qed.

Lemma step_ProgressSettled_rejected :
  forall key e st,
    step (ProgressSettled key (Rejected e)) st
    = progressSettled key (Rejected e) st.
Proof.
  intros key e st. rewrite step_keeps_gates by reflexivity. cbn [handle].
  set (new := progressSettled key (Rejected e) st).
  unfold afterRender.
  rewrite (statusChanged_same st new) by reflexivity.
  destruct (findingsChanged_same st new) as [-> ->]; try reflexivity.
  assert (Hc : progressChanged st new = None).
  { unfold progressChanged, progressData, new.
    change (documentId (progressSettled key (Rejected e) st))
      with (documentId st).
    change (progressQuery (progressSettled key (Rejected e) st))
      with (Query.cacheSettled key (@Rejected ProgressData.t e)
              (progressFetches st) (progressQuery st)).
    destruct (documentId st) as [d|]; [|reflexivity].
    unfold Query.observe, Query.cacheSettled, Query.settle.
    destruct (Query.retries key (progressFetches st)); cbn [Query.lookup];
      [|destruct (String.eqb_spec key d) as [->|_]; cbn [Query.data]];
      destruct (Query.data (Query.lookup d (progressQuery st))) as [p0|];
      rewrite ?ProgressData_eqb_refl; reflexivity. }
  now rewrite Hc.
Qed.

Lemma step_ProgressSettled_new_data :
  forall d p st,
    documentId st = Some d ->
    progressData st <> Some p ->
    step (ProgressSettled d (Resolved p)) st
    = progressEffect p (progressSettled d (Resolved p) st).
Proof.
  intros d p st Hd Hnew. rewrite step_keeps_gates by reflexivity.
  cbn [handle].
  set (new := progressSettled d (Resolved p) st).
  unfold afterRender.
  rewrite (statusChanged_same st new) by reflexivity.
  destruct (findingsChanged_same st new) as [-> ->]; try reflexivity.
  assert (Hc : progressChanged st new = Some p).
  { unfold progressChanged, progressData, new.
    change (documentId (progressSettled d (Resolved p) st))
      with (documentId st).
    change (progressQuery (progressSettled d (Resolved p) st))
      with (Query.settle d (Resolved p) (progressQuery st)).
    rewrite Hd. unfold Query.observe.
    rewrite lookup_settle_resolved, String.eqb_refl. cbn [Query.data].
    unfold progressData in Hnew. rewrite Hd in Hnew.
    unfold Query.observe in Hnew.
    destruct (Query.data (Query.lookup d (progressQuery st))) as [p0|];
      [|reflexivity].
    destruct (ProgressData.eqb p0 p) eqn:E; [|reflexivity].
    apply ProgressData_eqb_eq in E. subst p0. now elim Hnew. }
  now rewrite Hc.
Qed.

Lemma progressEffect_keeps :
  forall p st,
    analysisState (progressEffect p st) = analysisState st
    /\ map ProcessStep.id (processSteps (progressEffect p st))
       = map ProcessStep.id (processSteps st)
    /\ analysisProgress (progressEffect p st)
       = (if String.eqb (ProgressData.status p) "analyzing"
          then ProgressData.progress p
          else if String.eqb (ProgressData.status p) "pending"
               then ProgressData.progress p
               else if String.eqb (ProgressData.status p) "completed"
                    then 100 else ProgressData.progress p).
Proof.
  intros p st. unfold progressEffect.
  destruct (String.eqb (ProgressData.status p) "analyzing");
    [|destruct (String.eqb (ProgressData.status p) "pending");
      [|destruct (String.eqb (ProgressData.status p) "completed");
        [|destruct (String.eqb (ProgressData.status p) "failed")]]];
    (split; [reflexivity|]); (split; [|reflexivity]);
    cbn [processSteps setAnalysisProgress];
    rewrite ?updateProcessStep_ids; reflexivity.
Qed.

End ProgressResponses.

(** X11. A progress response, whatever it says and whether it succeeds or
    fails, never ends a phase and never touches the polling: the uploading
    and analyzing flags, the document id, the observed status, the three
    gates and the ids of the steps are what they were, and nothing is
    requested.  The first or a changed response for the document shown
    sets the progress value to the one it carries, unchecked against 0 and
    100, or to 100 when it reports completed. *)
Theorem progress_response_only_updates_the_display :
  forall (key : string) (r : Settled ProgressData.t) (st : Analysis.State),
    let st' := Analysis.step (Analysis.ProgressSettled key r) st in
    (Analysis.analysisState st' = Analysis.analysisState st
     /\ Analysis.analysisStatus st' = Analysis.analysisStatus st
     /\ Analysis.statusEnabled st' = Analysis.statusEnabled st
     /\ Analysis.progressEnabled st' = Analysis.progressEnabled st
     /\ Analysis.findingsEnabled st' = Analysis.findingsEnabled st
     /\ map ProcessStep.id (Analysis.processSteps st')
        = map ProcessStep.id (Analysis.processSteps st)
     /\ Analysis.requests st' = Analysis.requests st)
    /\ (forall p,
           r = Resolved p ->
           Analysis.documentId st = Some key ->
           Analysis.progressData st <> Some p ->
           Analysis.analysisProgress st'
           = if String.eqb (ProgressData.status p) "completed" then 100
             else ProgressData.progress p).
Proof.
  intros key r st st'.
  assert (Hcases :
            st' = Analysis.progressSettled key r st
            \/ exists p, r = Resolved p
                         /\ st' = Analysis.progressEffect p
                                    (Analysis.progressSettled key r st)).
  { unfold st'. destruct r as [p|e].
    - destruct (step_ProgressSettled key p st) as [H|H];
        [left; exact H | right; exists p; split; [reflexivity | exact H]].
    - left. apply step_ProgressSettled_rejected. }
  split.
  - assert (Hstate : Analysis.analysisState st' = Analysis.analysisState st
                     /\ map ProcessStep.id (Analysis.processSteps st')
                        = map ProcessStep.id (Analysis.processSteps st)).
    { destruct Hcases as [->|(p & _ & ->)]; [split; reflexivity|].
      destruct (progressEffect_keeps p (Analysis.progressSettled key r st))
        as (H1 & H2 & _).
      rewrite H1, H2. split; reflexivity. }
    destruct Hstate as [Hstate Hids].
    pose proof (requests_step (Analysis.ProgressSettled key r) st) as Hreq.
    rewrite enabledFetches_handle, app_nil_r in Hreq by discriminate.
    fold st' in Hreq. cbn [Analysis.handle] in Hreq.
    change (Analysis.requests (Analysis.progressSettled key r st))
      with (Analysis.requests st) in Hreq.
    pose proof (documentId_step (Analysis.ProgressSettled key r) st) as Hdoc.
    fold st' in Hdoc. cbn [Analysis.handle] in Hdoc.
    change (Analysis.documentId (Analysis.progressSettled key r st))
      with (Analysis.documentId st) in Hdoc.
    destruct (observed_step (Analysis.ProgressSettled key r) st)
      as (Hst & _ & _ & _ & _).
    fold st' in Hst. cbn [Analysis.handle] in Hst.
    change (Analysis.analysisStatus (Analysis.progressSettled key r st))
      with (Analysis.analysisStatus st) in Hst.
    unfold Analysis.statusEnabled, Analysis.progressEnabled,
      Analysis.findingsEnabled, Analysis.statusIs.
    rewrite Hst, Hdoc. repeat split; assumption.
  - intros p -> Hd Hnew. unfold st'.
    rewrite (step_ProgressSettled_new_data key p st Hd Hnew).
    destruct (progressEffect_keeps p
                (Analysis.progressSettled key (Resolved p) st))
      as (_ & _ & ->).
    destruct (String.eqb (ProgressData.status p) "analyzing") eqn:Ea.
    + apply String.eqb_eq in Ea. rewrite Ea. reflexivity.
    + destruct (String.eqb (ProgressData.status p) "pending") eqn:Ep;
        [|reflexivity].
      apply String.eqb_eq in Ep. rewrite Ep. reflexivity.
Qed.

Lemma progress_response_only_updates_the_display_witness :
  Analysis.analysisProgress
    (Analysis.step
       (Analysis.ProgressSettled "abc123"
          (Resolved (ProgressData.mk "analyzing" 140 "Working" "t1")))
       Scenario.completed)
  = 140.
Proof.
  destruct (progress_response_only_updates_the_display "abc123"
              (Resolved (ProgressData.mk "analyzing" 140 "Working" "t1"))
              Scenario.completed) as (_ & H).
  apply (H (ProgressData.mk "analyzing" 140 "Working" "t1")).
  - reflexivity.
  - vm_compute. reflexivity.
  - vm_compute. discriminate.
Defined.

(** ** The list of steps *)

Section StepsGrow.
Import Analysis.

Lemma ids_statusEffect :
  forall a st,
    map ProcessStep.id (processSteps (statusEffect a st))
    = map ProcessStep.id (processSteps st).
Proof.
  intros a st. unfold statusEffect.
  destruct (String.eqb (AnalysisStatus.status a) "completed");
    [|destruct (String.eqb (AnalysisStatus.status a) "failed")];
    try reflexivity;
    cbn [processSteps setIsAnalyzing setAnalysisState];
    now rewrite updateProcessStep_ids.
Qed.

Lemma ids_afterRender :
  forall old new,
    exists more,
      map ProcessStep.id (processSteps (afterRender old new))
      = map ProcessStep.id (processSteps new) ++ more.
Proof.
  intros old new. unfold afterRender.
  set (s1 := match statusChanged old new with
             | Some a => statusEffect a new
             | None => new
             end).
  assert (H1 : map ProcessStep.id (processSteps s1)
               = map ProcessStep.id (processSteps new)).
  { unfold s1. destruct (statusChanged old new);
      [apply ids_statusEffect | reflexivity]. }
  set (s2 := match progressChanged old new with
             | Some p => progressEffect p s1
             | None => s1
             end).
  assert (H2 : map ProcessStep.id (processSteps s2)
               = map ProcessStep.id (processSteps new)).
  { unfold s2. destruct (progressChanged old new) as [p|]; [|exact H1].
    destruct (progressEffect_keeps p s1) as (_ & -> & _). exact H1. }
  set (s3 := if findingsChanged old new
             then findingsEffect (findings new) s2 else s2).
  assert (H3 : exists more,
             map ProcessStep.id (processSteps s3)
             = map ProcessStep.id (processSteps new) ++ more).
  { unfold s3, findingsEffect.
    destruct (findingsChanged old new);
      [destruct (0 <? Z.of_nat (List.length (findings new)))|].
    - exists ["findings-loaded"].
      cbn [processSteps addProcessStep setProcessSteps].
      now rewrite map_app, H2.
    - exists []. now rewrite app_nil_r.
    - exists []. now rewrite app_nil_r. }
  destruct H3 as (more & H3).
  destruct (findingsErrorChanged old new).
  - exists (more ++ ["findings-error"]). unfold findingsErrorEffect.
    cbn [processSteps addProcessStep setProcessSteps].
    now rewrite map_app, H3, app_assoc.
  - now exists more.
Qed.

Lemma ids_timerFired :
  forall t st,
    map ProcessStep.id (processSteps (timerFired t st))
    = map ProcessStep.id (processSteps st).
Proof.
  intros t st. unfold timerFired.
  destruct (timerSet t st); [|reflexivity].
  destruct t.
  - destruct (uploadProgress st >=? 30); reflexivity.
  - destruct (uploadProgress st >=? 75); reflexivity.
  - unfold clearTimer.
    cbn [processSteps setUploadProgress setTimers].
    now rewrite updateProcessStep_ids.
  - now rewrite updateProcessStep_ids.
Qed.

Lemma ids_handle :
  forall e st,
    (forall file, e <> FileChosen file) ->
    exists more,
      map ProcessStep.id (processSteps (handle e st))
      = map ProcessStep.id (processSteps st) ++ more.
Proof.
  intros e st Hne.
  assert (Hsame : exists more,
             map ProcessStep.id (processSteps st)
             = map ProcessStep.id (processSteps st) ++ more)
    by (exists []; now rewrite app_nil_r).
  destruct e; cbn [handle]; try exact Hsame.
  - now elim (Hne file).
  - destruct r as [result|e].
    + exists ["text-extraction"; "embedding-generation"; "vector-store";
              "analysis"]%string.
      unfold uploadMutation_settled, toast, addProcessStep, updateProcessStep,
        setTimer, clearTimer.
      cbn [processSteps setToasts setAnalysisState setAnalysisProgress
           setProcessSteps setUploadProgress setTimers].
      rewrite !map_app, map_map. cbn [map ProcessStep.id].
      rewrite <- !app_assoc. cbn [app]. f_equal.
      apply map_ext. intro step.
      destruct (String.eqb (ProcessStep.id step) "upload-start"); reflexivity.
    + exists []. rewrite app_nil_r.
      unfold uploadMutation_settled, toast, setIsUploading.
      cbn [processSteps setToasts setAnalysisState].
      now rewrite updateProcessStep_ids.
  - exists ["backend-health-check"%string]. destruct r;
      unfold checkBackendHealth_settled, addProcessStep;
      cbn [processSteps setProcessSteps]; now rewrite map_app.
  - unfold statusInterval.
    destruct (statusEnabled st
              && negb (Query.fetching (idString st) (statusFetches st)));
      exact Hsame.
  - unfold progressInterval.
    destruct (progressEnabled st
              && negb (Query.fetching (idString st) (progressFetches st)));
      exact Hsame.
  - unfold findingsAuto. destruct (findingsEnabled st); exact Hsame.
  - destruct (refreshDisabled st); exact Hsame.
  - destruct (paginationShown st && negb (previousDisabled st)); exact Hsame.
  - destruct (paginationShown st && negb (nextDisabled st)); exact Hsame.
  - unfold statusRetry. destruct (Query.retryDue key (statusFetches st));
      exact Hsame.
  - unfold progressRetry. destruct (Query.retryDue key (progressFetches st));
      exact Hsame.
  - unfold findingsRetry. destruct (Query.retryDue key (findingsFetches st));
      exact Hsame.
  - exists []. rewrite app_nil_r. apply ids_timerFired.
Qed.

End StepsGrow.

(** X12. Only choosing a file removes steps.  After any other event the
    ids of the steps are those before, in the same order, followed by the
    ids of the steps the event added. *)
Theorem steps_are_only_appended :
  forall (e : Analysis.Event) (st : Analysis.State),
    (forall file, e <> Analysis.FileChosen file) ->
    exists more,
      map ProcessStep.id (Analysis.processSteps (Analysis.step e st))
      = map ProcessStep.id (Analysis.processSteps st) ++ more.
Proof.
  intros e st Hne. unfold Analysis.step.
  destruct (fetchOnEnable_keeps st
              (Analysis.afterRender st (Analysis.handle e st)))
    as (_ & _ & -> & _).
  destruct (ids_afterRender st (Analysis.handle e st)) as (m2 & H2).
  destruct (ids_handle e st Hne) as (m1 & H1).
  exists (m1 ++ m2). now rewrite H2, H1, app_assoc.
Qed.

Lemma steps_are_only_appended_witness :
  exists more,
    map ProcessStep.id
      (Analysis.processSteps
         (Analysis.step (Analysis.HealthSettled (Resolved "ok"))
            Scenario.uploaded))
    = map ProcessStep.id (Analysis.processSteps Scenario.uploaded) ++ more.
Proof.
  apply (steps_are_only_appended (Analysis.HealthSettled (Resolved "ok"))
           Scenario.uploaded).
  intros file H. discriminate H.
Defined.

(** An update for an id that no step has changes nothing: the update of
    the analysis step by a status response is lost when that step is not
    in the list. *)
Lemma updateProcessStep_absent :
  forall id status message icon st,
    ~ In id (map ProcessStep.id (Analysis.processSteps st)) ->
    Analysis.processSteps
      (Analysis.updateProcessStep id status message icon st)
    = Analysis.processSteps st.
Proof.
  intros id status message icon st Hno. unfold Analysis.updateProcessStep.
  cbn [Analysis.processSteps Analysis.setProcessSteps].
  induction (Analysis.processSteps st) as [|step l IH]; [reflexivity|].
  cbn [map]. cbn [map In] in Hno.
  destruct (String.eqb_spec (ProcessStep.id step) id) as [E|E].
  - elim Hno. now left.
  - f_equal. apply IH. intro H. apply Hno. now right.
Qed.

(** ** Categories, filter and pages *)

Section FilterAndPages.
Import Analysis.

Lemma existsb_eqb_In :
  forall (x : string) (l : list string),
    existsb (String.eqb x) l = true <-> In x l.
Proof.
  intros x l. rewrite existsb_exists. split.
  - intros (y & Hy & E). apply String.eqb_eq in E. now subst.
  - intro H. exists x. split; [exact H | apply String.eqb_refl].
Qed.

(** [unique] keeps the first occurrence of every value not seen yet. *)
Lemma unique_spec :
  forall l seen,
    NoDup (unique seen l)
    /\ forall x, In x (unique seen l) <-> In x l /\ ~ In x seen.
Proof.
  induction l as [|a l IH]; intro seen; cbn [unique].
  - split; [constructor|]. intro x. cbn. tauto.
  - destruct (existsb (String.eqb a) seen) eqn:E.
    + apply existsb_eqb_In in E. destruct (IH seen) as [Hnd Hin].
      split; [exact Hnd|]. intro x. rewrite Hin. cbn [In]. split.
      * intros [H1 H2]. split; [now right | exact H2].
      * intros [[->|H1] H2]; [now elim H2 | now split].
    + assert (Hnot : ~ In a seen).
      { intro H. apply existsb_eqb_In in H. congruence. }
      destruct (IH (a :: seen)) as [Hnd Hin]. split.
      * constructor; [|exact Hnd]. rewrite Hin. cbn [In]. tauto.
      * intro x. cbn [In]. rewrite Hin. cbn [In]. split.
        -- intros [->|[H1 H2]]; [split; [now left | exact Hnot]|].
           split; [now right | tauto].
        -- intros [[->|H1] H2]; [now left|].
           destruct (String.eqb_spec a x) as [->|Hax]; [now left|].
           right. split; [exact H1|]. intros [H|H]; [now elim Hax | now elim H2].
Qed.

Lemma filteredFindings_setCurrentPage :
  forall p st, filteredFindings (setCurrentPage p st) = filteredFindings st.
Proof. reflexivity. Qed.

(** The page shown, for a page number from 1 on. *)
Lemma paginated_chunk :
  forall st,
    1 <= currentPage st ->
    paginatedFindings st
    = firstn 10
        (skipn (Z.to_nat (10 * (currentPage st - 1))) (filteredFindings st)).
Proof.
  intros st Hp.
  unfold paginatedFindings, endIndex, startIndex, itemsPerPage.
  replace ((currentPage st - 1) * 10) with (10 * (currentPage st - 1)) by lia.
  apply slice_ten. lia.
Qed.

Lemma totalPages_bounds :
  forall st,
    let N := Z.of_nat (List.length (filteredFindings st)) in
    10 * (totalPages st - 1) < N <= 10 * totalPages st.
Proof.
  intros st N. unfold totalPages, JS.ceil_div, itemsPerPage. fold N.
  Z.div_mod_to_equations. lia.
Qed.

(** Cutting a list into chunks of ten and gluing them gives the list. *)
Lemma chunks_concat :
  forall (A : Type) (n : nat) (l : list A),
    (List.length l <= 10 * n)%nat ->
    concat (map (fun k => firstn 10 (skipn (10 * k) l)) (seq 0 n)) = l.
Proof.
  intros A n. induction n as [|n IH]; intros l Hl.
  - destruct l; [reflexivity | simpl in Hl; lia].
  - cbn [seq map concat]. rewrite <- seq_shift, map_map.
    transitivity (firstn 10 l ++ skipn 10 l); [|apply firstn_skipn].
    f_equal.
    transitivity
      (concat (map (fun k => firstn 10 (skipn (10 * k) (skipn 10 l)))
                 (seq 0 n))).
    + f_equal. apply map_ext. intro k. f_equal.
      rewrite skipn_skipn. f_equal. lia.
    + apply IH. rewrite length_skipn. lia.
Qed.

End FilterAndPages.

(** X13. The category buttons: after All come the categories of the
    findings, each once; each of them selects at least one finding, and
    every finding is listed under the button of its category. *)
Theorem categories_are_those_of_the_findings :
  forall st : Analysis.State,
    exists rest,
      Analysis.categories st = "all" :: rest
      /\ NoDup rest
      /\ (forall c, In c rest
                    <-> exists f, In f (Analysis.findings st)
                                  /\ Finding.category f = c)
      /\ (forall c, In c rest -> 1 <= Analysis.categoryCount c st).
Proof.
  intro st.
  exists (Analysis.unique [] (map Finding.category (Analysis.findings st))).
  destruct (unique_spec (map Finding.category (Analysis.findings st)) [])
    as [Hnd Hin].
  assert (Hmem : forall c,
             In c (Analysis.unique []
                     (map Finding.category (Analysis.findings st)))
             <-> exists f, In f (Analysis.findings st)
                           /\ Finding.category f = c).
  { intro c. rewrite Hin, in_map_iff. cbn [In]. split.
    - intros [(f & E & H) _]. now exists f.
    - intros (f & H & E). split; [now exists f | tauto]. }
  split; [reflexivity|]. split; [exact Hnd|]. split; [exact Hmem|].
  intros c Hc. apply Hmem in Hc. destruct Hc as (f & Hf & E).
  unfold Analysis.categoryCount.
  assert (Hin' : In f (filter (fun g => String.eqb (Finding.category g) c)
                         (Analysis.findings st))).
  { apply filter_In. split; [exact Hf|]. rewrite E. apply String.eqb_refl. }
  destruct (filter _ (Analysis.findings st)); [elim Hin'|]. cbn [List.length].
  lia.
Qed.

Lemma categories_are_those_of_the_findings_witness :
  let st :=
    Analysis.step
      (Analysis.FindingsSettled "abc123" (Resolved [Scenario.finding1]))
      Scenario.completed in
  1 <= Analysis.categoryCount "EXCLUSION" st.
Proof.
  intro st.
  destruct (categories_are_those_of_the_findings st) as (rest & E & _ & _ & H).
  apply H. vm_compute in E. injection E as <-. now left.
Defined.

(** X14. A click on a category button shows the first page of that
    category: the page number is 1, the findings listed are the first ten
    of the filtered list, which for All is the whole list and for another
    category holds the findings of that category and no other, as many as
    the count on the button says.  The findings themselves are not
    touched and nothing is requested. *)
Theorem category_click_shows_first_page :
  forall (c : string) (st : Analysis.State),
    let st' := Analysis.step (Analysis.CategoryClicked c) st in
    Analysis.currentPage st' = 1
    /\ Analysis.findings st' = Analysis.findings st
    /\ Analysis.requests st' = Analysis.requests st
    /\ Analysis.paginatedFindings st'
       = firstn 10 (Analysis.filteredFindings st')
    /\ (c = "all" -> Analysis.filteredFindings st' = Analysis.findings st)
    /\ (c <> "all" ->
        Z.of_nat (List.length (Analysis.filteredFindings st'))
        = Analysis.categoryCount c st
        /\ forall f, In f (Analysis.filteredFindings st')
                     <-> In f (Analysis.findings st)
                         /\ Finding.category f = c).
Proof.
  intros c st st'.
  assert (E : st' = Analysis.selectCategory c st).
  { unfold st'. apply step_same_queries; reflexivity. }
  rewrite E. split; [reflexivity|]. split; [reflexivity|].
  split; [reflexivity|]. split.
  - rewrite paginated_chunk by (cbn; lia). reflexivity.
  - unfold Analysis.filteredFindings.
    change (Analysis.selectedCategory (Analysis.selectCategory c st)) with c.
    change (Analysis.findings (Analysis.selectCategory c st))
      with (Analysis.findings st).
    split.
    + intros ->. reflexivity.
    + intro Hc. apply String.eqb_neq in Hc. rewrite Hc.
      split; [reflexivity|].
      intro f. rewrite filter_In, String.eqb_eq. reflexivity.
Qed.

Lemma category_click_shows_first_page_witness :
  let st :=
    Analysis.step
      (Analysis.FindingsSettled "abc123" (Resolved [Scenario.finding1]))
      Scenario.completed in
  Z.of_nat
    (List.length
       (Analysis.filteredFindings
          (Analysis.step (Analysis.CategoryClicked "EXCLUSION") st)))
  = Analysis.categoryCount "EXCLUSION" st.
Proof.
  intro st.
  destruct (category_click_shows_first_page "EXCLUSION" st)
    as (_ & _ & _ & _ & _ & H).
  destruct H as [H _]; [discriminate|]. exact H.
Defined.

(** X15. The pages cut the filtered list without loss: the pages 1 to the
    last, one after the other, are the filtered list. *)
Theorem pages_partition_the_filtered_list :
  forall st : Analysis.State,
    concat
      (map (fun p =>
              Analysis.paginatedFindings
                (Analysis.setCurrentPage (Z.of_nat p) st))
           (seq 1 (Z.to_nat (Analysis.totalPages st))))
    = Analysis.filteredFindings st.
Proof.
  intro st.
  pose proof (totalPages_bounds st) as Hb. cbv zeta in Hb.
  rewrite <- seq_shift, map_map.
  transitivity
    (concat
       (map (fun k => firstn 10 (skipn (10 * k) (Analysis.filteredFindings st)))
          (seq 0 (Z.to_nat (Analysis.totalPages st)))));
    [|apply chunks_concat; lia].
  f_equal. apply map_ext. intro k.
  rewrite paginated_chunk
    by (cbn [Analysis.currentPage Analysis.setCurrentPage]; lia).
  rewrite filteredFindings_setCurrentPage.
  cbn [Analysis.currentPage Analysis.setCurrentPage].
  do 2 f_equal. lia.
Qed.

Section PageButtons.
Import Analysis.

Lemma page_nonempty :
  forall st,
    1 <= currentPage st <= totalPages st -> paginatedFindings st <> [].
Proof.
  intros st Hp E. apply (f_equal (@List.length _)) in E.
  rewrite paginated_chunk, length_firstn, length_skipn in E by lia.
  pose proof (totalPages_bounds st) as Hb. cbv zeta in Hb.
  cbn [List.length] in E. lia.
Qed.

End PageButtons.

(** X16. On a page between 1 and the last, Next moves one page forward
    unless the page is the last, Previous one page back unless it is the
    first; neither changes the number of pages, leaves the range, or shows
    an empty page. *)
Theorem page_buttons_stay_within_the_pages :
  forall st : Analysis.State,
    1 <= Analysis.currentPage st <= Analysis.totalPages st ->
    let next := Analysis.step Analysis.NextClicked st in
    let prev := Analysis.step Analysis.PreviousClicked st in
    Analysis.currentPage next
    = (if Analysis.currentPage st =? Analysis.totalPages st
       then Analysis.currentPage st else Analysis.currentPage st + 1)
    /\ Analysis.currentPage prev
       = (if Analysis.currentPage st =? 1 then 1
          else Analysis.currentPage st - 1)
    /\ Analysis.totalPages next = Analysis.totalPages st
    /\ Analysis.totalPages prev = Analysis.totalPages st
    /\ Analysis.paginatedFindings st <> []
    /\ Analysis.paginatedFindings next <> []
    /\ Analysis.paginatedFindings prev <> [].
Proof.
  intros st Hp next prev.
  assert (En : next = Analysis.handle Analysis.NextClicked st).
  { unfold next. apply step_same_queries;
      cbn [Analysis.handle];
      destruct (Analysis.paginationShown st && negb (Analysis.nextDisabled st));
      reflexivity. }
  assert (Ep : prev = Analysis.handle Analysis.PreviousClicked st).
  { unfold prev. apply step_same_queries;
      cbn [Analysis.handle];
      destruct (Analysis.paginationShown st
                && negb (Analysis.previousDisabled st));
      reflexivity. }
  assert (Hn : Analysis.currentPage next
               = (if Analysis.currentPage st =? Analysis.totalPages st
                  then Analysis.currentPage st
                  else Analysis.currentPage st + 1)
               /\ Analysis.totalPages next = Analysis.totalPages st).
  { rewrite En. cbn [Analysis.handle].
    unfold Analysis.paginationShown, Analysis.nextDisabled, Analysis.nextPage.
    destruct (Z.ltb_spec 1 (Analysis.totalPages st));
      destruct (Z.eqb_spec (Analysis.currentPage st) (Analysis.totalPages st));
      cbn [andb negb]; split; try reflexivity;
      cbn [Analysis.currentPage Analysis.setCurrentPage]; lia. }
  assert (Hv : Analysis.currentPage prev
               = (if Analysis.currentPage st =? 1 then 1
                  else Analysis.currentPage st - 1)
               /\ Analysis.totalPages prev = Analysis.totalPages st).
  { rewrite Ep. cbn [Analysis.handle].
    unfold Analysis.paginationShown, Analysis.previousDisabled,
      Analysis.previousPage.
    destruct (Z.ltb_spec 1 (Analysis.totalPages st));
      destruct (Z.eqb_spec (Analysis.currentPage st) 1);
      cbn [andb negb]; split; try reflexivity;
      cbn [Analysis.currentPage Analysis.setCurrentPage]; lia. }
  destruct Hn as [Hn1 Hn2]. destruct Hv as [Hv1 Hv2].
  repeat split; try assumption.
  - now apply page_nonempty.
  - apply page_nonempty. rewrite Hn1, Hn2.
    destruct (Z.eqb_spec (Analysis.currentPage st) (Analysis.totalPages st));
      lia.
  - apply page_nonempty. rewrite Hv1, Hv2.
    destruct (Z.eqb_spec (Analysis.currentPage st) 1); lia.
Qed.

Lemma page_buttons_stay_within_the_pages_witness :
  let st :=
    Analysis.step
      (Analysis.FindingsSettled "abc123" (Resolved [Scenario.finding1]))
      Scenario.completed in
  Analysis.currentPage (Analysis.step Analysis.NextClicked st) = 1.
Proof.
  intro st.
  destruct (page_buttons_stay_within_the_pages st) as (H & _).
  - vm_compute. split; discriminate.
  - rewrite H. vm_compute. reflexivity.
Defined.

(** ** Grouping by category *)

Section Grouping.
Import Analysis.

Lemma getOwn_push :
  forall k f g c,
    getOwn c (push k f g)
    = if String.eqb k c
      then option_map (fun l => l ++ [f]) (getOwn c g)
      else getOwn c g.
Proof.
  intros k f g c. induction g as [|[k' l] rest IH]; cbn [push getOwn].
  - now destruct (String.eqb k c).
  - destruct (String.eqb_spec k' k) as [->|Hk]; cbn [getOwn].
    + destruct (String.eqb k c); reflexivity.
    + rewrite IH. destruct (String.eqb_spec k c) as [->|Hc].
      * destruct (String.eqb_spec k' c) as [->|_]; [now elim Hk | reflexivity].
      * reflexivity.
Qed.

Lemma getOwn_app_new :
  forall k v g c,
    getOwn c (g ++ [(k, v)])
    = match getOwn c g with
      | Some l => Some l
      | None => if String.eqb k c then Some v else None
      end.
Proof.
  intros k v g c. induction g as [|[k' l] rest IH]; cbn [app getOwn].
  - reflexivity.
  - destruct (String.eqb k' c); [reflexivity | exact IH].
Qed.

(** What the fold adds to the groups it starts from. *)
Lemma group_fold :
  forall l g,
    Forall (fun f => inheritedKey (Finding.category f) = false) l ->
    exists g',
      fold_left groupStep l (Some g) = Some g'
      /\ forall c,
           getOwn c g'
           = match getOwn c g,
                   filter (fun f => String.eqb (Finding.category f) c) l with
             | Some x, ys => Some (x ++ ys)
             | None, [] => None
             | None, ys => Some ys
             end.
Proof.
  induction l as [|f l IH]; intros g Hl.
  - exists g. split; [reflexivity|]. intro c. cbn [filter].
    destruct (getOwn c g); [now rewrite app_nil_r | reflexivity].
  - inversion Hl as [|? ? Hf Hl']; subst.
    cbn [fold_left groupStep].
    set (k := Finding.category f) in *.
    destruct (getOwn k g) as [x|] eqn:Ek.
    + destruct (IH (push k f g) Hl') as (g' & Hfold & Hspec).
      exists g'. split; [exact Hfold|]. intro c. rewrite Hspec, getOwn_push.
      cbn [filter]. fold k.
      destruct (String.eqb_spec k c) as [<-|Hc].
      * rewrite Ek. cbn [option_map]. now rewrite <- app_assoc.
      * reflexivity.
    + rewrite Hf.
      destruct (IH (g ++ [(k, [f])]) Hl') as (g' & Hfold & Hspec).
      exists g'. split; [exact Hfold|]. intro c.
      rewrite Hspec, getOwn_app_new. cbn [filter]. fold k.
      destruct (String.eqb_spec k c) as [<-|Hc].
      * rewrite Ek. reflexivity.
      * destruct (getOwn c g); reflexivity.
Qed.

Lemma fold_groupStep_None :
  forall l, fold_left groupStep l None = None.
Proof. induction l as [|f l IH]; [reflexivity | exact IH]. Qed.

Lemma getOwn_inherited :
  forall k g,
    Forall (fun kv => inheritedKey (fst kv) = false) g ->
    inheritedKey k = true ->
    getOwn k g = None.
Proof.
  intros k g Hg Hk. induction Hg as [|[k' l] rest Hk' _ IH]; [reflexivity|].
  cbn [getOwn]. cbn [fst] in Hk'.
  destruct (String.eqb_spec k' k) as [->|_]; [congruence | exact IH].
Qed.

Lemma push_keys :
  forall k f g, map fst (push k f g) = map fst g.
Proof.
  intros k f g. induction g as [|[k' l] rest IH]; [reflexivity|].
  cbn [push]. destruct (String.eqb k' k); cbn [map fst]; [reflexivity|].
  now rewrite IH.
Qed.

Lemma group_fold_throws :
  forall l g,
    Forall (fun kv => inheritedKey (fst kv) = false) g ->
    Exists (fun f => inheritedKey (Finding.category f) = true) l ->
    fold_left groupStep l (Some g) = None.
Proof.
  induction l as [|f l IH]; intros g Hg Hex; [inversion Hex|].
  cbn [fold_left groupStep].
  destruct (inheritedKey (Finding.category f)) eqn:Hf.
  - rewrite (getOwn_inherited _ g Hg Hf). apply fold_groupStep_None.
  - assert (Hex' : Exists
                     (fun f => inheritedKey (Finding.category f) = true) l).
    { inversion Hex; subst; [congruence | assumption]. }
    destruct (getOwn (Finding.category f) g).
    + apply IH; [|exact Hex'].
      apply Forall_forall. intros kv Hin.
      assert (Hk : In (fst kv) (map fst g)).
      { rewrite <- (push_keys (Finding.category f) f g).
        now apply in_map. }
      apply in_map_iff in Hk. destruct Hk as (kv' & E & Hin').
      rewrite <- E. exact (proj1 (Forall_forall _ g) Hg kv' Hin').
    + apply IH; [|exact Hex'].
      apply Forall_app. split; [exact Hg|]. repeat constructor. exact Hf.
Qed.

End Grouping.

(** X17. Grouping the findings by category: unless a category is the name
    of a property every object inherits, the group of a category is the
    list of the findings of that category, in their order, and a category
    without findings has no group.  If a finding's category is such a name
    (constructor, toString, ...), the reducer calls a [push] that is not
    there and the grouping throws. *)
Theorem findingsByCategory_groups :
  forall st : Analysis.State,
    (Forall (fun f => Analysis.inheritedKey (Finding.category f) = false)
       (Analysis.findings st) ->
     exists g,
       Analysis.findingsByCategory st = Some g
       /\ forall c,
            Analysis.getOwn c g
            = match filter (fun f => String.eqb (Finding.category f) c)
                      (Analysis.findings st) with
              | [] => None
              | ys => Some ys
              end)
    /\ (Exists (fun f => Analysis.inheritedKey (Finding.category f) = true)
          (Analysis.findings st) ->
        Analysis.findingsByCategory st = None).
Proof.
  intro st. split.
  - intro H. destruct (group_fold (Analysis.findings st) [] H) as (g & Hg & Hs).
    exists g. split; [exact Hg|]. intro c. now rewrite Hs.
  - intro H. now apply group_fold_throws.
Qed.

Lemma findingsByCategory_groups_witness :
  let st :=
    Analysis.step
      (Analysis.FindingsSettled "abc123" (Resolved [Scenario.finding1]))
      Scenario.completed in
  exists g,
    Analysis.findingsByCategory st = Some g
    /\ Analysis.getOwn "EXCLUSION" g = Some [Scenario.finding1].
Proof.
  intro st.
  destruct (findingsByCategory_groups st) as (H & _).
  destruct H as (g & Hg & Hs).
  - vm_compute. repeat constructor.
  - exists g. split; [exact Hg|]. rewrite Hs. vm_compute. reflexivity.
Defined.

(** ** Icons and colours *)

Lemma includes_cons :
  forall c s,
    JS.includes (String c s) "_"
    = Ascii.eqb c "_" || JS.includes s "_".
Proof.
  intros c s. cbn [JS.includes String.prefix].
  destruct (ascii_dec "_" c) as [<-|Hc].
  - now destruct s.
  - destruct (Ascii.eqb_spec c "_") as [E|_]; [now elim Hc | reflexivity].
Qed.

Lemma upperLatin1_not_underscore :
  forall c1 c2,
    JS.isUpperLatin1 c1 c2 = true ->
    Ascii.eqb c1 "_" = false /\ Ascii.eqb c2 "_" = false.
Proof.
  intros c1 c2 H. unfold JS.isUpperLatin1 in H.
  apply andb_true_iff in H. destruct H as [H _].
  apply andb_true_iff in H. destruct H as [H _].
  apply andb_true_iff in H. destruct H as [H1 H2].
  split.
  - destruct (Ascii.eqb_spec c1 "_") as [->|_]; [discriminate H1 | reflexivity].
  - destruct (Ascii.eqb_spec c2 "_") as [->|_]; [discriminate H2 | reflexivity].
Qed.

Lemma kelvin_not_underscore :
  forall c1 c2 c3,
    JS.isKelvin c1 c2 c3 = true ->
    Ascii.eqb c1 "_" = false /\ Ascii.eqb c2 "_" = false
    /\ Ascii.eqb c3 "_" = false.
Proof.
  intros c1 c2 c3 H. unfold JS.isKelvin in H.
  apply andb_true_iff in H. destruct H as [H H3].
  apply andb_true_iff in H. destruct H as [H1 H2].
  repeat split;
    match goal with
    | |- Ascii.eqb ?c _ = false =>
        destruct (Ascii.eqb_spec c "_") as [->|_]; [discriminate | reflexivity]
    end.
Qed.

Lemma lowerAscii_underscore :
  forall c, Ascii.eqb c "_" = true -> Ascii.eqb (JS.lowerAscii c) "_" = true.
Proof.
  intros c H. apply Ascii.eqb_eq in H. now subst c.
Qed.

Lemma includes_underscore_toLowerCase :
  forall s, JS.includes s "_" = true -> JS.includes (JS.toLowerCase s) "_" = true.
Proof.
  assert (H : forall n s,
             (String.length s <= n)%nat ->
             JS.includes s "_" = true ->
             JS.includes (JS.toLowerCase s) "_" = true).
  { induction n as [|n IH]; intros s Hn Hs.
    - destruct s; [discriminate Hs | cbn in Hn; lia].
    - destruct s as [|c1 [|c2 rest2]]; [discriminate Hs| |].
      + rewrite includes_cons in Hs. cbn [JS.toLowerCase].
        rewrite includes_cons.
        destruct (Ascii.eqb c1 "_") eqn:E; [|discriminate Hs].
        now rewrite (lowerAscii_underscore c1 E).
      + cbn [JS.toLowerCase].
        assert (Hrest1 : JS.includes
                           (String (JS.lowerAscii c1)
                              (JS.toLowerCase (String c2 rest2))) "_" = true).
        { rewrite includes_cons in Hs. rewrite includes_cons.
          destruct (Ascii.eqb c1 "_") eqn:E.
          - now rewrite (lowerAscii_underscore c1 E).
          - cbn [orb] in Hs. rewrite (IH (String c2 rest2));
              [apply orb_true_r | cbn in Hn |- *; lia | exact Hs]. }
        destruct (JS.isUpperLatin1 c1 c2) eqn:EL.
        * destruct (upperLatin1_not_underscore c1 c2 EL) as [E1 E2].
          rewrite !includes_cons, E1, E2 in Hs. cbn [orb] in Hs.
          rewrite !includes_cons, (IH rest2);
            [now rewrite !orb_true_r | cbn in Hn; lia | exact Hs].
        * destruct rest2 as [|c3 rest3]; [exact Hrest1|].
          destruct (JS.isKelvin c1 c2 c3) eqn:EK; [|exact Hrest1].
          destruct (kelvin_not_underscore c1 c2 c3 EK) as (E1 & E2 & E3).
          rewrite !includes_cons, E1, E2, E3 in Hs. cbn [orb] in Hs.
          rewrite includes_cons, (IH rest3);
            [apply orb_true_r | cbn in Hn; lia | exact Hs]. }
  intros s. apply (H (String.length s)). lia.
Qed.

(** X18. A category spelled with an underscore gets the fallback icon, as
    no case of the switch has one; so of the nine categories of the README
    only DEDUCTIBLE, COPAYMENT and COINSURANCE get an icon of their own. *)
Theorem underscore_categories_get_the_fallback_icon :
  (forall c : string,
      JS.includes c "_" = true ->
      Analysis.getCategoryIcon c = Analysis.IconFileText)
  /\ map Analysis.getCategoryIcon Readme.categories
     = [ Analysis.IconFileText; Analysis.IconAlertTriangle;
         Analysis.IconAlertTriangle; Analysis.IconAlertTriangle;
         Analysis.IconFileText; Analysis.IconFileText; Analysis.IconFileText;
         Analysis.IconFileText; Analysis.IconFileText ].
Proof.
  split; [|reflexivity].
  intros c Hc. apply includes_underscore_toLowerCase in Hc.
  unfold Analysis.getCategoryIcon. cbv zeta.
  repeat match goal with
         | |- context [String.eqb (JS.toLowerCase c) ?label] =>
             destruct (String.eqb_spec (JS.toLowerCase c) label) as [E|_];
             [rewrite E in Hc; discriminate Hc|]
         end.
  reflexivity.
Qed.

Lemma underscore_categories_get_the_fallback_icon_witness :
  Analysis.getCategoryIcon "WAITING_PERIOD" = Analysis.IconFileText.
Proof.
  apply (proj1 underscore_categories_get_the_fallback_icon). reflexivity.
Defined.

(** X19. The badge of the viewer is a case-sensitive version of the badge
    of the list: whenever the viewer colours a severity, the list gives it
    the same colour, but the list also colours the lower-case spellings,
    which the viewer shows in the default colour. *)
Theorem severity_badges_agree_on_upper_case :
  (forall s : string,
      PDFViewer.severityVariant s <> VariantDefault ->
      Analysis.getSeverityColor s = PDFViewer.severityVariant s)
  /\ (forall s : string,
         JS.toLowerCase s = "high" -> s <> "HIGH" ->
         Analysis.getSeverityColor s = VariantDestructive
         /\ PDFViewer.severityVariant s = VariantDefault).
Proof.
  split.
  - intros s H. unfold PDFViewer.severityVariant in *.
    destruct (String.eqb_spec s "HIGH") as [E|_]; [now rewrite E|].
    destruct (String.eqb_spec s "MEDIUM") as [E|_]; [now rewrite E|].
    now elim H.
  - intros s Hl Hs. unfold Analysis.getSeverityColor, PDFViewer.severityVariant.
    rewrite Hl. apply String.eqb_neq in Hs. rewrite Hs.
    split; [reflexivity|].
    destruct (String.eqb_spec s "MEDIUM") as [E|_];
      [rewrite E in Hl; discriminate Hl|].
    reflexivity.
Qed.

Lemma severity_badges_agree_on_upper_case_witness :
  Analysis.getSeverityColor "High" = VariantDestructive
  /\ PDFViewer.severityVariant "High" = VariantDefault.
Proof.
  apply (proj2 severity_badges_agree_on_upper_case "High");
    [reflexivity | discriminate].
Defined.

(** ** The requests of the analysis page *)

Section RequestsOfThePage.
Import Analysis.

Lemma retried_timerFired :
  forall t st, retried (timerFired t st) = retried st.
Proof.
  intros t st. unfold timerFired.
  destruct (timerSet t st); [|reflexivity].
  destruct t; try reflexivity;
    match goal with
    | |- context [if ?c then _ else _] => destruct c
    end; reflexivity.
Qed.

(** Only the end of the delay before a retry makes the library repeat a
    request: that of the query function of the key. *)
Lemma retried_handle :
  forall e st,
    retried (handle e st)
    = retried st
      ++ match e with
         | StatusRetry key =>
             if Query.retryDue key (statusFetches st)
             then [Api.getAnalysisStatus key] else []
         | ProgressRetry key =>
             if Query.retryDue key (progressFetches st)
             then [Api.getProgress key] else []
         | FindingsRetry key =>
             if Query.retryDue key (findingsFetches st)
             then [Api.getFindings key] else []
         | _ => []
         end.
Proof.
  intros e st. destruct e; cbn [handle]; rewrite ?app_nil_r;
    try reflexivity.
  - unfold handleFileUpload, handleFileUpload_checked.
    destruct (rejection file); reflexivity.
  - destruct r; reflexivity.
  - destruct r; reflexivity.
  - unfold statusInterval.
    destruct (statusEnabled st
              && negb (Query.fetching (idString st) (statusFetches st)));
      reflexivity.
  - unfold progressInterval.
    destruct (progressEnabled st
              && negb (Query.fetching (idString st) (progressFetches st)));
      reflexivity.
  - unfold findingsAuto. destruct (findingsEnabled st); reflexivity.
  - destruct (refreshDisabled st); reflexivity.
  - destruct (paginationShown st && negb (previousDisabled st)); reflexivity.
  - destruct (paginationShown st && negb (nextDisabled st)); reflexivity.
  - unfold statusRetry. destruct (Query.retryDue key (statusFetches st));
      [reflexivity | now rewrite app_nil_r].
  - unfold progressRetry. destruct (Query.retryDue key (progressFetches st));
      [reflexivity | now rewrite app_nil_r].
  - unfold findingsRetry. destruct (Query.retryDue key (findingsFetches st));
      [reflexivity | now rewrite app_nil_r].
  - apply retried_timerFired.
Qed.

Lemma retried_step :
  forall e st, retried (step e st) = retried (handle e st).
Proof.
  intros e st. unfold step.
  destruct (fetchOnEnable_keeps st (afterRender st (handle e st)))
    as (_ & _ & _ & _ & _ & _ & _ & _ & _ & _ & _ & _ & _ & _ & _ & ->
        & _).
  apply afterRender_keeps.
Qed.

Lemma repeated_cases :
  forall e st,
    repeated e st
    = match e with
      | StatusRetry key =>
          if Query.retryDue key (statusFetches st)
          then [Api.getAnalysisStatus key] else []
      | ProgressRetry key =>
          if Query.retryDue key (progressFetches st)
          then [Api.getProgress key] else []
      | FindingsRetry key =>
          if Query.retryDue key (findingsFetches st)
          then [Api.getFindings key] else []
      | _ => []
      end.
Proof.
  intros e st. unfold repeated.
  rewrite retried_step, retried_handle. apply skipn_length_app.
Qed.

Lemma enabledFetches_length :
  forall old new, (List.length (enabledFetches old new) <= 2)%nat.
Proof.
  intros old new. unfold enabledFetches.
  destruct (becameEnabled statusEnabled old new
            && negb (Query.fetching (idString new) (statusFetches new)));
    destruct (becameEnabled progressEnabled old new
              && negb (Query.fetching (idString new) (progressFetches new)));
    cbn; lia.
Qed.

(** The requests of the viewer after the page has rendered are those it
    had made, then at most the fetch of the PDF of the document id it is
    handed. *)
Lemma fetched_step :
  forall e st r,
    In r (Screen.fetched (Screen.step e st)) ->
    In r (Screen.fetched st)
    \/ r = Request.mk ViaFetch GET
             (PDFViewer.pdfUrl (documentId (Screen.page (Screen.step e st))))
             NoBody.
Proof.
  intros e st r. unfold Screen.fetched.
  change (Screen.viewer (Screen.step e st))
    with (Screen.render (Screen.page (Screen.step e st)) (Screen.viewer st)).
  generalize (Screen.page (Screen.step e st)). intro page.
  unfold Screen.render.
  destruct (showsUploadInterface page); [intros []|].
  assert (Heffect : forall s,
             In r (PDFViewer.requests (PDFViewer.runEffect s)) ->
             In r (PDFViewer.requests s)
             \/ r = Request.mk ViaFetch GET
                      (PDFViewer.pdfUrl (PDFViewer.documentId s)) NoBody).
  { intros s. unfold PDFViewer.runEffect, PDFViewer.effect.
    destruct (JS.truthy_opt (PDFViewer.documentId s)); [|now left].
    cbn [PDFViewer.requests]. intro H. apply in_app_or in H.
    destruct H as [H|[H|[]]]; [now left | now right]. }
  destruct (Screen.viewer st) as [v|].
  - unfold PDFViewer.withDocumentId.
    destruct (documentId page) as [x|], (PDFViewer.documentId v) as [y|];
      try destruct (String.eqb x y);
      try (intro H; apply Heffect in H; exact H);
      intro H; now left.
  - unfold PDFViewer.mount. intro H. apply Heffect in H.
    destruct H as [[]|H]. now right.
Qed.

End RequestsOfThePage.

(** X20. Of the requests of the analysis page.  Those an event starts
    are at most two, go through the axios instance, and are GETs but for
    the upload of a file that has just been chosen and has passed the
    checks.  After a failed attempt of a fetch the query library repeats
    the request when the delay is over: one request for such an event, the
    GET of the key that failed, through the axios instance, and none for
    any other event.  The viewer that the page renders asks outside the
    axios instance: whatever it requests after an event that it had not
    requested before is the GET, through fetch, of the URL it builds from
    the document id. *)
Theorem analysis_page_requests :
  forall (e : Analysis.Event) (st : Screen.State),
    let page := Screen.page st in
    (List.length (Analysis.emitted e page) <= 2)%nat
    /\ (forall r,
           In r (Analysis.emitted e page) ->
           Request.channel r = ViaApi
           /\ (Request.method r = POST ->
               exists file,
                 e = Analysis.FileChosen file
                 /\ r = Request.mk ViaApi POST "/ingest" (FormData file)
                 /\ Analysis.passesValidation file = true))
    /\ (List.length (Analysis.repeated e page) <= 1)%nat
    /\ (forall r,
           In r (Analysis.repeated e page) ->
           exists key,
             (e = Analysis.StatusRetry key
              /\ r = Request.mk ViaApi GET ("/analysis/" ++ key) NoBody)
             \/ (e = Analysis.ProgressRetry key
                 /\ r = Request.mk ViaApi GET ("/progress/" ++ key) NoBody)
             \/ (e = Analysis.FindingsRetry key
                 /\ r = Request.mk ViaApi GET ("/findings/" ++ key) NoBody))
    /\ (forall r,
           In r (Screen.fetched (Screen.step e st)) ->
           In r (Screen.fetched st)
           \/ r = Request.mk ViaFetch GET
                    ("http://localhost:7860/documents/"
                     ++ match Analysis.documentId
                                (Screen.page (Screen.step e st)) with
                        | Some d => d
                        | None => "null"
                        end
                     ++ "/pdf#view=FitH&toolbar=1") NoBody).
Proof.
  intros e st page.
  split; [|split; [|split; [|split]]].
  - rewrite emitted_cases.
    destruct e;
      try (rewrite enabledFetches_handle by discriminate);
      rewrite ?app_nil_r; cbn [app];
      try apply enabledFetches_length;
      repeat match goal with
             | |- context [if ?c then _ else _] => destruct c
             end; cbn; lia.
  - intros r. rewrite emitted_cases. intro H. apply in_app_or in H.
    destruct H as [H|H];
      [|apply enabledFetches_are_GET in H; destruct H as [Hm Hc];
        split; [exact Hc | rewrite Hm; discriminate]].
    destruct e; try (now elim H).
    + destruct (Analysis.passesValidation file) eqn:Ev; [|now elim H].
      destruct H as [<-|[]]. split; [reflexivity|].
      intros _. now exists file.
    + destruct (Analysis.statusEnabled page
                && negb (Query.fetching (Analysis.idString page)
                           (Analysis.statusFetches page)));
        [|now elim H].
      destruct H as [<-|[]]. split; [reflexivity | discriminate].
    + destruct (Analysis.progressEnabled page
                && negb (Query.fetching (Analysis.idString page)
                           (Analysis.progressFetches page)));
        [|now elim H].
      destruct H as [<-|[]]. split; [reflexivity | discriminate].
    + destruct (Analysis.findingsEnabled page); [|now elim H].
      destruct H as [<-|[]]. split; [reflexivity | discriminate].
    + destruct (Analysis.refreshDisabled page); [now elim H|].
      destruct H as [<-|[<-|[]]]; (split; [reflexivity | discriminate]).
  - rewrite repeated_cases.
    destruct e; cbn [List.length]; try lia;
      match goal with
      | |- context [if ?c then _ else _] => destruct c
      end; cbn; lia.
  - intros r. rewrite repeated_cases.
    destruct e; cbn [In]; try (intro H; now elim H).
    + destruct (Query.retryDue key (Analysis.statusFetches page));
        cbn [In]; [|intro H; now elim H].
      intros [<-|[]]. exists key. left. split; reflexivity.
    + destruct (Query.retryDue key (Analysis.progressFetches page));
        cbn [In]; [|intro H; now elim H].
      intros [<-|[]]. exists key. right. left. split; reflexivity.
    + destruct (Query.retryDue key (Analysis.findingsFetches page));
        cbn [In]; [|intro H; now elim H].
      intros [<-|[]]. exists key. right. right. split; reflexivity.
  - intros r H. now apply fetched_step.
Qed.

Lemma analysis_page_requests_witness :
  exists file,
    Analysis.FileChosen Scenario.policy = Analysis.FileChosen file
    /\ Api.uploadDocument Scenario.policy
       = Request.mk ViaApi POST "/ingest" (FormData file)
    /\ Analysis.passesValidation file = true.
Proof.
  destruct (analysis_page_requests (Analysis.FileChosen Scenario.policy)
              (Screen.mount None 0)) as (_ & H & _).
  destruct (H (Api.uploadDocument Scenario.policy)) as (_ & H2).
  - vm_compute. now left.
  - apply H2. reflexivity.
Defined.

(** ** The viewer *)

(** X21. Mounted with a document id, the viewer fetches the PDF once and
    shows the spinner until the fetch settles; then it shows the frame if
    the response is in the 200s, and the error panel otherwise, with the
    status in the text for a response and a fixed text for a rejection.
    Mounted without a document id it fetches nothing and stays on the
    spinner. *)
Theorem viewer_shows_the_outcome_of_the_fetch :
  (forall (d : string) (r : PDFViewer.FetchResult),
      JS.truthy d = true ->
      let fetching := PDFViewer.mount (Some d) in
      let st := PDFViewer.fetchSettled r fetching in
      PDFViewer.requests fetching
      = [Request.mk ViaFetch GET (PDFViewer.pdfUrl (Some d)) NoBody]
      /\ PDFViewer.view fetching = PDFViewer.Spinner
      /\ PDFViewer.requests st = PDFViewer.requests fetching
      /\ PDFViewer.view st
         = match r with
           | PDFViewer.Response status _ =>
               if PDFViewer.ok status then PDFViewer.Frame
               else PDFViewer.ErrorPanel
           | PDFViewer.NetworkError => PDFViewer.ErrorPanel
           end
      /\ PDFViewer.error st
         = match r with
           | PDFViewer.Response status _ =>
               if PDFViewer.ok status then None
               else Some ("PDF not accessible (" ++ JS.toString status
                          ++ ")")%string
           | PDFViewer.NetworkError => Some "Failed to load PDF"%string
           end)
  /\ PDFViewer.requests (PDFViewer.mount None) = []
  /\ PDFViewer.view (PDFViewer.mount None) = PDFViewer.Spinner.
Proof.
  split; [|split; reflexivity].
  intros d r Hd fetching st.
  assert (E : fetching
              = PDFViewer.mkState (Some d) true None
                  [Request.mk ViaFetch GET (PDFViewer.pdfUrl (Some d)) NoBody]
                  []).
  { unfold fetching, PDFViewer.mount, PDFViewer.runEffect, PDFViewer.effect.
    cbn [PDFViewer.initial PDFViewer.documentId JS.truthy_opt].
    now rewrite Hd. }
  unfold st. rewrite E. split; [reflexivity|]. split; [reflexivity|].
  destruct r as [status text|]; cbn [PDFViewer.fetchSettled].
  - destruct (PDFViewer.ok status); repeat split.
  - repeat split.
Qed.

Lemma viewer_shows_the_outcome_of_the_fetch_witness :
  PDFViewer.error
    (PDFViewer.fetchSettled (PDFViewer.Response 404 "Not Found")
       (PDFViewer.mount (Some "abc123")))
  = Some "PDF not accessible (404)"%string.
Proof.
  destruct (proj1 viewer_shows_the_outcome_of_the_fetch "abc123"
              (PDFViewer.Response 404 "Not Found"))
    as (_ & _ & _ & _ & H); [reflexivity|].
  exact H.
Defined.

(** X22. The buttons of the viewer.  Download hands the URL of the
    document to [window.open], also when there is no document id, in which
    case the URL names the document null.  Open in New Tab opens nothing:
    it shows the spinner, drops the error, and when its timer fires the
    frame is shown, even after a failed fetch.  Neither button, nor the
    embedded view, calls [fetch]. *)
Theorem viewer_buttons :
  forall st : PDFViewer.State,
    (PDFViewer.opened (PDFViewer.handleDownload st)
     = PDFViewer.opened st ++ [PDFViewer.pdfUrl (PDFViewer.documentId st)]
     /\ PDFViewer.view (PDFViewer.handleDownload st) = PDFViewer.view st
     /\ PDFViewer.requests (PDFViewer.handleDownload st)
        = PDFViewer.requests st)
    /\ (let st' :=
          PDFViewer.handleViewInNewTab_timeout
            (PDFViewer.handleViewInNewTab st) in
        PDFViewer.view (PDFViewer.handleViewInNewTab st) = PDFViewer.Spinner
        /\ PDFViewer.view st' = PDFViewer.Frame
        /\ PDFViewer.opened st' = PDFViewer.opened st
        /\ PDFViewer.requests st' = PDFViewer.requests st)
    /\ (forall found,
           PDFViewer.requests (PDFViewer.handleEmbeddedView found st)
           = PDFViewer.requests st
           /\ PDFViewer.opened (PDFViewer.handleEmbeddedView found st)
              = PDFViewer.opened st)
    /\ PDFViewer.pdfUrl None
       = "http://localhost:7860/documents/null/pdf#view=FitH&toolbar=1"%string.
Proof.
  intro st. repeat split.
  - destruct found; reflexivity.
  - destruct found; reflexivity.
Qed.

(** ** The connection test *)

Section ConnectionTest.
Import TestConnection.

Lemma connection_test_counts :
  forall events st,
    requests (run events st)
    = requests st
      ++ repeat Api.healthCheck (List.length (filter isClick events))
    /\ (List.length (toasts st) + pending st = List.length (requests st) ->
        List.length (toasts (run events st)) + pending (run events st)
        = List.length (requests (run events st)))%nat.
Proof.
  induction events as [|e events IH]; intro st.
  - cbn. rewrite app_nil_r. split; [reflexivity | trivial].
  - cbn [run fold_left]. fold (run events (step e st)).
    destruct (IH (step e st)) as [Hr Hc]. split.
    + rewrite Hr. destruct e; cbn [step filter isClick List.length repeat].
      * unfold testConnection. cbn [requests].
        now rewrite <- app_assoc.
      * destruct (pending st); [reflexivity|]. destruct r; reflexivity.
    + intro H. apply Hc. destruct e; cbn [step].
      * unfold testConnection. cbn [toasts pending requests].
        rewrite length_app. cbn [List.length]. lia.
      * destruct (pending st) eqn:Ep; [rewrite Ep; exact H|].
        destruct r; cbn [testConnection_settled toasts pending requests];
          rewrite length_app; cbn [List.length Nat.pred]; lia.
Qed.

End ConnectionTest.

(** X23. The connection test page checks the health of the service once
    when it mounts and once more for every click on its button, with no
    guard against a test still running, and issues nothing else.  Every
    check that has settled has shown exactly one toast.  The banner follows
    the check that settled last, and stays as it is while a new check is
    running. *)
Theorem connection_test_checks_once_per_click :
  forall events : list TestConnection.Event,
    let st := TestConnection.run events TestConnection.mount in
    TestConnection.requests st
    = repeat Api.healthCheck
        (S (List.length (filter TestConnection.isClick events)))
    /\ (List.length (TestConnection.toasts st) + TestConnection.pending st
        = List.length (TestConnection.requests st))%nat
    /\ TestConnection.bannerShown
         (TestConnection.step TestConnection.TestAgainClicked st)
       = TestConnection.bannerShown st
    /\ (forall r,
           TestConnection.pending st <> 0%nat ->
           TestConnection.bannerShown
             (TestConnection.step (TestConnection.HealthSettled r) st)
           = match r with
             | Resolved _ => true
             | Rejected _ => false
             end).
Proof.
  intros events st.
  destruct (connection_test_counts events TestConnection.mount) as [Hr Hc].
  fold st in Hr, Hc. split; [exact Hr|]. split; [now apply Hc|].
  split; [reflexivity|].
  intros r Hp. cbn [TestConnection.step].
  destruct (TestConnection.pending st); [now elim Hp|].
  destruct r; reflexivity.
Qed.

Lemma connection_test_checks_once_per_click_witness :
  TestConnection.bannerShown
    (TestConnection.step
       (TestConnection.HealthSettled (Rejected (AxiosError.mk "down" JS.Undefined)))
       (TestConnection.run
          [ TestConnection.HealthSettled (Resolved "ok");
            TestConnection.TestAgainClicked ] TestConnection.mount))
  = false.
Proof.
  destruct (connection_test_checks_once_per_click
              [ TestConnection.HealthSettled (Resolved "ok");
                TestConnection.TestAgainClicked ]) as (_ & _ & _ & H).
  apply (H (Rejected (AxiosError.mk "down" JS.Undefined))). discriminate.
Defined.

(** ** The base URL *)

(** X24. The base URL is never empty.  It is the environment variable
    whenever that is a non-empty string, and then the two copies of the api
    module agree; otherwise it is one of the two built-in defaults, the
    hosted one exactly when the page is served from a host that ends in
    vercel.app, and the copy under frontend/src/lib resolves a third URL,
    so the two copies disagree. *)
Theorem base_url_resolution :
  forall (env hostname : option string),
    JS.truthy (Api.API_BASE_URL env hostname) = true
    /\ (forall url, env = Some url -> JS.truthy url = true ->
                    Api.API_BASE_URL env hostname = url
                    /\ Api.API_BASE_URL_frontend env = url)
    /\ (JS.truthy_opt env = false ->
        Api.API_BASE_URL env hostname
        = (if match hostname with
              | Some h => JS.endsWith h "vercel.app"
              | None => false
              end
           then "https://raykarr-insurance-document-analyzer-api.hf.space"
           else "http://localhost:7860")%string
        /\ Api.API_BASE_URL_frontend env <> Api.API_BASE_URL env hostname).
Proof.
  intros env hostname.
  assert (Hdef : JS.truthy (Api.inferredDefaultBaseUrl hostname) = true).
  { unfold Api.inferredDefaultBaseUrl. destruct hostname as [h|];
      [destruct (JS.endsWith h "vercel.app")|]; reflexivity. }
  split; [|split].
  - unfold Api.API_BASE_URL, JS.or_else. destruct env as [url|]; [|exact Hdef].
    destruct (JS.truthy url) eqn:E; [exact E | exact Hdef].
  - intros url -> Hu. unfold Api.API_BASE_URL, Api.API_BASE_URL_frontend,
      JS.or_else. now rewrite Hu.
  - intro Hno.
    assert (E : forall fallback, JS.or_else env fallback = fallback).
    { intro fallback. unfold JS.or_else. destruct env as [url|]; [|reflexivity].
      cbn [JS.truthy_opt] in Hno. now rewrite Hno. }
    unfold Api.API_BASE_URL, Api.API_BASE_URL_frontend. rewrite !E.
    unfold Api.inferredDefaultBaseUrl.
    destruct hostname as [h|]; [destruct (JS.endsWith h "vercel.app")|];
      (split; [reflexivity | discriminate]).
Qed.

Lemma base_url_resolution_witness :
  Api.API_BASE_URL (Some "https://api.example.com"%string) None
  = "https://api.example.com"%string
  /\ Api.API_BASE_URL_frontend (Some ""%string)
     <> Api.API_BASE_URL (Some ""%string) (Some "localhost"%string).
Proof.
  destruct (base_url_resolution (Some "https://api.example.com"%string) None)
    as (_ & H1 & _).
  destruct (base_url_resolution (Some ""%string) (Some "localhost"%string))
    as (_ & _ & H2).
  split.
  - apply (H1 "https://api.example.com"%string); reflexivity.
  - apply H2. reflexivity.
Defined.

(** ** Responses for another document *)

Section OtherDocument.
Import Analysis.

Lemma lookup_settle_other :
  forall (T : Type) (key d : string) (r : Settled T) (c : Query.Cache T),
    key <> d ->
    Query.lookup d (Query.settle key r c) = Query.lookup d c.
Proof.
  intros T key d r c Hne. apply String.eqb_neq in Hne.
  destruct r; cbn [Query.settle Query.lookup]; now rewrite Hne.
Qed.

Lemma lookup_cacheSettled_other :
  forall (T : Type) (key d : string) (r : Settled T) (fs : Query.Fetches)
         (c : Query.Cache T),
    key <> d ->
    Query.lookup d (Query.cacheSettled key r fs c) = Query.lookup d c.
Proof.
  intros T key d r fs c Hne. unfold Query.cacheSettled.
  destruct r; [|destruct (Query.retries key fs)];
    try reflexivity; now apply lookup_settle_other.
Qed.

Lemma afterRender_same_observations :
  forall old new,
    documentId new = documentId old ->
    analysisStatus new = analysisStatus old ->
    progressData new = progressData old ->
    findings new = findings old ->
    findingsError new = findingsError old ->
    findingsErrorCount new = findingsErrorCount old ->
    afterRender old new = new.
Proof.
  intros old new Hd Hs Hp Hf He Hc.
  unfold afterRender, statusChanged, progressChanged, findingsChanged,
    findingsErrorChanged.
  rewrite (keyChanged_same old new Hd), Hs, Hp, Hf, He, Hc,
    Finding_eqb_list_refl, Nat.eqb_refl.
  destruct (analysisStatus old); rewrite ?AnalysisStatus_eqb_refl;
  destruct (progressData old); rewrite ?ProgressData_eqb_refl; cbn [negb];
  destruct (findingsError old) as [e|]; reflexivity.
Qed.

Lemma fetchOnEnable_same_status :
  forall old new,
    documentId new = documentId old ->
    analysisStatus new = analysisStatus old ->
    fetchOnEnable old new = new.
Proof.
  intros old new Hd Hs.
  assert (H : becameEnabled statusEnabled old new = false
              /\ becameEnabled progressEnabled old new = false).
  { unfold becameEnabled. rewrite (keyChanged_same old new Hd).
    unfold statusEnabled, progressEnabled, statusIs.
    rewrite Hd, Hs.
    split; match goal with
           | |- ?b && _ = false => destruct b; reflexivity
           end. }
  destruct H as [H1 H2].
  unfold fetchOnEnable, progressOnEnable, statusOnEnable.
  rewrite H1. cbn [andb]. now rewrite H2.
Qed.

End OtherDocument.

(** X25. A response that belongs to another document than the one shown,
    be it a status, a progress or a findings response, resolved or
    rejected, changes nothing on screen: the flags, the steps, the progress
    value, the observed status, the progress data, the findings and their
    error are what they were. *)
Theorem response_for_another_document_is_not_shown :
  forall (key d : string) (e : Analysis.Event) (st : Analysis.State),
    Analysis.documentId st = Some d ->
    key <> d ->
    (exists r, e = Analysis.StatusSettled key r)
    \/ (exists r, e = Analysis.ProgressSettled key r)
    \/ (exists r, e = Analysis.FindingsSettled key r) ->
    let st' := Analysis.step e st in
    Analysis.analysisState st' = Analysis.analysisState st
    /\ Analysis.processSteps st' = Analysis.processSteps st
    /\ Analysis.analysisProgress st' = Analysis.analysisProgress st
    /\ Analysis.analysisStatus st' = Analysis.analysisStatus st
    /\ Analysis.progressData st' = Analysis.progressData st
    /\ Analysis.findings st' = Analysis.findings st
    /\ Analysis.findingsError st' = Analysis.findingsError st.
Proof.
  intros key d e st Hd Hne He st'.
  assert (Hdoc : Analysis.documentId (Analysis.handle e st)
                 = Analysis.documentId st).
  { destruct He as [(r & ->)|[(r & ->)|(r & ->)]]; reflexivity. }
  assert (Hobs : Analysis.analysisStatus (Analysis.handle e st)
                 = Analysis.analysisStatus st
                 /\ Analysis.progressData (Analysis.handle e st)
                    = Analysis.progressData st
                 /\ Analysis.findings (Analysis.handle e st)
                    = Analysis.findings st
                 /\ Analysis.findingsError (Analysis.handle e st)
                    = Analysis.findingsError st
                 /\ Analysis.findingsErrorCount (Analysis.handle e st)
                    = Analysis.findingsErrorCount st
                 /\ Analysis.analysisState (Analysis.handle e st)
                    = Analysis.analysisState st
                 /\ Analysis.processSteps (Analysis.handle e st)
                    = Analysis.processSteps st
                 /\ Analysis.analysisProgress (Analysis.handle e st)
                    = Analysis.analysisProgress st).
  { unfold Analysis.analysisStatus, Analysis.progressData, Analysis.findings,
      Analysis.findingsError, Analysis.findingsErrorCount.
    rewrite Hdoc, Hd.
    destruct He as [(r & ->)|[(r & ->)|(r & ->)]]; cbn [Analysis.handle];
      unfold Analysis.statusSettled, Analysis.progressSettled,
        Analysis.findingsSettled;
      cbn [Analysis.statusQuery Analysis.progressQuery Analysis.findingsQuery
           Analysis.setStatusQuery Analysis.setProgressQuery
           Analysis.setFindingsQuery Analysis.setStatusFetches
           Analysis.setProgressFetches Analysis.setFindingsFetches
           Query.observe];
      rewrite ?lookup_cacheSettled_other by exact Hne; repeat split. }
  destruct Hobs as (H1 & H2 & H3 & H4 & Hc & H5 & H6 & H7).
  assert (E : st' = Analysis.handle e st).
  { unfold st', Analysis.step.
    rewrite afterRender_same_observations by assumption.
    now apply fetchOnEnable_same_status. }
  rewrite E. repeat split; assumption.
Qed.

Lemma response_for_another_document_is_not_shown_witness :
  Analysis.analysisState
    (Analysis.step
       (Analysis.StatusSettled "old456"
          (Resolved (AnalysisStatus.mk "old456" "failed" None)))
       Scenario.analyzing)
  = Analysis.analysisState Scenario.analyzing.
Proof.
  apply (response_for_another_document_is_not_shown "old456" "abc123"
           (Analysis.StatusSettled "old456"
              (Resolved (AnalysisStatus.mk "old456" "failed" None)))
           Scenario.analyzing).
  - vm_compute. reflexivity.
  - discriminate.
  - left. eexists. reflexivity.
Defined.

(** ** Quick questions *)

(** X26. A quick question only fills the input: it appends nothing and
    requests nothing, also while a send is in flight.  On an idle panel a
    click on Send then sends exactly that question for the finding shown. *)
Theorem quick_question_fills_the_input :
  forall (index : nat) (q : string) (now : Z) (st : ChatPanel.State),
    nth_error ChatPanel.quickQuestions index = Some q ->
    let filled := ChatPanel.step (ChatPanel.QuickQuestion index) st in
    ChatPanel.inputValue filled = q
    /\ ChatPanel.messages filled = ChatPanel.messages st
    /\ ChatPanel.requests filled = ChatPanel.requests st
    /\ (ChatPanel.isLoading st = false ->
        ChatPanel.requests (ChatPanel.step (ChatPanel.ClickSend now) filled)
        = ChatPanel.requests st
          ++ [Api.sendChatMessage (Finding.id (ChatPanel.finding st)) q]).
Proof.
  intros index q now st Hq filled.
  assert (E : filled = ChatPanel.setInputValue q st).
  { unfold filled. cbn [ChatPanel.step]. now rewrite Hq. }
  rewrite E. repeat split.
  intro Hidle.
  assert (Ht : JS.truthy (JS.trim q) = true).
  { assert (Hall : forallb (fun x => JS.truthy (JS.trim x))
                     ChatPanel.quickQuestions = true) by reflexivity.
    rewrite forallb_forall in Hall. apply Hall.
    now apply nth_error_In with index. }
  unfold ChatPanel.step, ChatPanel.sendDisabled, ChatPanel.handleSendMessage.
  cbn [ChatPanel.inputValue ChatPanel.isLoading ChatPanel.setInputValue].
  rewrite Ht, Hidle. reflexivity.
Qed.

Lemma quick_question_fills_the_input_witness :
  let f := Finding.mk 1 "EXCLUSION" "HIGH" "Flood damage is excluded." None 3
             0%Q in
  ChatPanel.inputValue
    (ChatPanel.step (ChatPanel.QuickQuestion 3) (ChatPanel.mount f 0))
  = "Is this normal?"%string.
Proof.
  intro f.
  apply (quick_question_fills_the_input 3 "Is this normal?"%string 0
           (ChatPanel.mount f 0)).
  reflexivity.
Defined.

(** ** Retries of a failing fetch *)

Section Retries.
Import Analysis.

Lemma fetchOf_head :
  forall key f fs, Query.fetchOf key ((key, f) :: fs) = Some f.
Proof.
  intros key f fs. cbn [Query.fetchOf]. now rewrite String.eqb_refl.
Qed.

Lemma fetchOf_forget :
  forall key fs, Query.fetchOf key (Query.forget key fs) = None.
Proof.
  intros key fs.
  pose proof (fetching_forget key fs) as H. unfold Query.fetching in H.
  now destruct (Query.fetchOf key (Query.forget key fs)).
Qed.

(** A failure that a retry follows changes only the mark of the fetch. *)
Lemma step_FindingsSettled_retry :
  forall d e f st,
    Query.fetchOf d (findingsFetches st) = Some f ->
    (Query.failures f < Query.retry)%nat ->
    let st' := step (FindingsSettled d (Rejected e)) st in
    Query.fetchOf d (findingsFetches st')
    = Some (Query.mkFetch (S (Query.failures f)) true)
    /\ retried st' = retried st
    /\ requests st' = requests st
    /\ documentId st' = documentId st
    /\ findingsQuery st' = findingsQuery st
    /\ processSteps st' = processSteps st
    /\ now st' = now st.
Proof.
  intros d e f st Hf Hlt st'.
  assert (Hr : Query.retries d (findingsFetches st) = true).
  { unfold Query.retries, Query.failuresOf. rewrite Hf.
    now apply Nat.ltb_lt. }
  assert (E : st' = findingsSettled d (Rejected e) st).
  { unfold st'. apply step_same_queries; try reflexivity.
    cbn [handle]. unfold findingsSettled.
    cbn [findingsQuery setFindingsFetches setFindingsQuery].
    unfold Query.cacheSettled. now rewrite Hr. }
  rewrite E. unfold findingsSettled.
  cbn [findingsFetches retried requests documentId analysisState
       findingsQuery processSteps now setFindingsFetches setFindingsQuery].
  unfold Query.attemptSettled, Query.cacheSettled. rewrite Hr.
  unfold Query.failuresOf. rewrite Hf.
  rewrite fetchOf_head. repeat split.
Qed.

(** The retry that is due repeats the request. *)
Lemma step_FindingsRetry_due :
  forall d n st,
    Query.fetchOf d (findingsFetches st) = Some (Query.mkFetch n true) ->
    let st' := step (FindingsRetry d) st in
    Query.fetchOf d (findingsFetches st') = Some (Query.mkFetch n false)
    /\ retried st' = retried st ++ [Api.getFindings d]
    /\ requests st' = requests st
    /\ documentId st' = documentId st
    /\ findingsQuery st' = findingsQuery st
    /\ processSteps st' = processSteps st
    /\ now st' = now st.
Proof.
  intros d n st Hf st'.
  assert (Hh : handle (FindingsRetry d) st
               = setFindingsFetches (Query.retried d (findingsFetches st))
                   (reissue (Api.getFindings d) st)).
  { cbn [handle]. unfold findingsRetry, Query.retryDue. now rewrite Hf. }
  assert (E : st' = handle (FindingsRetry d) st).
  { unfold st'. apply step_same_queries; rewrite Hh; reflexivity. }
  rewrite E, Hh. unfold reissue, Query.retried, Query.failuresOf.
  rewrite Hf.
  cbn [findingsFetches retried requests documentId analysisState
       findingsQuery processSteps now setFindingsFetches setRetried
       Query.failures].
  rewrite fetchOf_head. repeat split.
Qed.

(** A failure and the retry that follows it. *)
Lemma findings_failure_round :
  forall d e k st,
    Query.fetchOf d (findingsFetches st) = Some (Query.mkFetch k false) ->
    (k < Query.retry)%nat ->
    let st' := run [FindingsSettled d (Rejected e); FindingsRetry d] st in
    Query.fetchOf d (findingsFetches st') = Some (Query.mkFetch (S k) false)
    /\ retried st' = retried st ++ [Api.getFindings d]
    /\ requests st' = requests st
    /\ documentId st' = documentId st
    /\ findingsQuery st' = findingsQuery st
    /\ processSteps st' = processSteps st
    /\ now st' = now st.
Proof.
  intros d e k st Hf Hlt st'.
  destruct (step_FindingsSettled_retry d e _ st Hf Hlt)
    as (F1 & R1 & Q1 & D1 & C1 & P1 & N1).
  cbn [Query.failures] in F1.
  destruct (step_FindingsRetry_due d (S k) _ F1)
    as (F2 & R2 & Q2 & D2 & C2 & P2 & N2).
  unfold st', run. cbn [fold_left].
  repeat split; congruence.
Qed.

(** The failure that uses up the retries stores the error, and the effect
    on it adds its step. *)
Lemma step_FindingsSettled_last :
  forall d e f st,
    documentId st = Some d ->
    Query.fetchOf d (findingsFetches st) = Some f ->
    (Query.retry <= Query.failures f)%nat ->
    let st' := step (FindingsSettled d (Rejected e)) st in
    findingsError st' = Some e
    /\ processSteps st'
       = processSteps st
         ++ [ProcessStep.mk "findings-error" "Findings Error"
               ProcessStep.error
               ("Failed to load findings: " ++ AxiosError.message e)%string
               (now st) ProcessStep.AlertCircle]
    /\ Query.fetchOf d (findingsFetches st') = None
    /\ retried st' = retried st
    /\ requests st' = requests st.
Proof.
  intros d e f st Hd Hf Hle st'.
  assert (Hr : Query.retries d (findingsFetches st) = false).
  { unfold Query.retries, Query.failuresOf. rewrite Hf.
    now apply Nat.ltb_ge. }
  set (new := handle (FindingsSettled d (Rejected e)) st).
  assert (Hnew : new
                 = setFindingsFetches (Query.forget d (findingsFetches st))
                     (setFindingsQuery
                        (Query.settle d (Rejected e) (findingsQuery st)) st)).
  { unfold new. cbn [handle]. unfold findingsSettled, Query.attemptSettled,
      Query.cacheSettled. now rewrite Hr. }
  assert (E : st' = afterRender st new).
  { unfold st', new. apply step_keeps_gates; reflexivity. }
  assert (Hd' : documentId new = Some d) by (rewrite Hnew; exact Hd).
  assert (He : findingsError new = Some e).
  { unfold findingsError. rewrite Hd'. rewrite Hnew.
    cbn [findingsQuery setFindingsFetches setFindingsQuery Query.observe
         Query.settle Query.lookup].
    now rewrite String.eqb_refl. }
  assert (Hc : findingsErrorCount new = S (findingsErrorCount st)).
  { unfold findingsErrorCount. rewrite Hd', Hd. rewrite Hnew.
    cbn [findingsQuery setFindingsFetches setFindingsQuery Query.observe
         Query.settle Query.lookup].
    now rewrite String.eqb_refl. }
  assert (Hfd : findings new = findings st).
  { unfold findings. rewrite Hd', Hd. rewrite Hnew.
    cbn [findingsQuery setFindingsFetches setFindingsQuery Query.observe
         Query.settle Query.lookup].
    now rewrite String.eqb_refl. }
  assert (Hchanged : findingsErrorChanged st new = Some e).
  { unfold findingsErrorChanged. rewrite He, Hc.
    destruct (findingsError st); [|reflexivity].
    assert (Hn : Nat.eqb (findingsErrorCount st) (S (findingsErrorCount st))
                 = false) by (apply Nat.eqb_neq; lia).
    rewrite Hn, andb_false_r. reflexivity. }
  assert (Eafter : afterRender st new = findingsErrorEffect e new).
  { unfold afterRender.
    rewrite (statusChanged_same st new), (progressChanged_same st new)
      by (rewrite Hnew; reflexivity).
    unfold findingsChanged. rewrite Hfd, Finding_eqb_list_refl.
    cbn [negb]. now rewrite Hchanged. }
  rewrite E, Eafter. split; [|split; [|split; [|split]]].
  - unfold findingsErrorEffect, addProcessStep, findingsError.
    cbn [documentId analysisState findingsQuery setProcessSteps].
    exact He.
  - rewrite Hnew. reflexivity.
  - rewrite Hnew. unfold findingsErrorEffect, addProcessStep.
    cbn [findingsFetches setProcessSteps setFindingsFetches].
    apply fetchOf_forget.
  - rewrite Hnew. reflexivity.
  - rewrite Hnew. reflexivity.
Qed.

End Retries.

(** X27. A fetch of the findings of the document shown whose attempts all
    fail is attempted four times.  Each of the first three failures stores
    nothing and shows nothing, and is followed by a repetition of the
    request [GET /findings/<id>] while the fetch stays under way; the
    fourth failure ends the fetch, stores its error and adds the step
    Findings Error with the message of that error, and no further
    repetition follows. *)
Theorem failing_findings_fetch_is_attempted_four_times :
  forall (d : string) (e1 e2 e3 e4 : AxiosError.t) (st : Analysis.State),
    Analysis.documentId st = Some d ->
    Query.fetchOf d (Analysis.findingsFetches st)
    = Some (Query.mkFetch 0 false) ->
    let failure e :=
      [Analysis.FindingsSettled d (Rejected e); Analysis.FindingsRetry d] in
    let st3 := Analysis.run (failure e1 ++ failure e2 ++ failure e3) st in
    let st4 := Analysis.step (Analysis.FindingsSettled d (Rejected e4)) st3 in
    let get :=
      Request.mk ViaApi GET ("/findings/" ++ d)%string NoBody in
    Analysis.retried st3 = Analysis.retried st ++ [get; get; get]
    /\ Analysis.requests st3 = Analysis.requests st
    /\ Analysis.findingsError st3 = Analysis.findingsError st
    /\ Analysis.processSteps st3 = Analysis.processSteps st
    /\ Query.fetching d (Analysis.findingsFetches st3) = true
    /\ Analysis.findingsError st4 = Some e4
    /\ Analysis.processSteps st4
       = Analysis.processSteps st
         ++ [ProcessStep.mk "findings-error" "Findings Error"
               ProcessStep.error
               ("Failed to load findings: " ++ AxiosError.message e4)%string
               (Analysis.now st) ProcessStep.AlertCircle]
    /\ Query.fetching d (Analysis.findingsFetches st4) = false
    /\ Analysis.requests st4 = Analysis.requests st
    /\ Analysis.repeated (Analysis.FindingsSettled d (Rejected e4)) st3 = []
    /\ Analysis.repeated (Analysis.FindingsRetry d) st4 = []
    /\ Analysis.emitted (Analysis.FindingsRetry d) st4 = [].
Proof.
  intros d e1 e2 e3 e4 st Hd Hf failure st3 st4 get.
  set (st1 := Analysis.run (failure e1) st).
  set (st2 := Analysis.run (failure e2) st1).
  assert (E3 : st3 = Analysis.run (failure e3) st2).
  { unfold st3, st2, st1. now rewrite !run_app. }
  destruct (findings_failure_round d e1 0 st Hf)
    as (F1 & R1 & Q1 & D1 & C1 & P1 & N1); [unfold Query.retry; lia|].
  fold (failure e1) in F1, R1, Q1, D1, C1, P1, N1.
  fold st1 in F1, R1, Q1, D1, C1, P1, N1.
  destruct (findings_failure_round d e2 1 st1 F1)
    as (F2 & R2 & Q2 & D2 & C2 & P2 & N2); [unfold Query.retry; lia|].
  fold (failure e2) in F2, R2, Q2, D2, C2, P2, N2.
  fold st2 in F2, R2, Q2, D2, C2, P2, N2.
  destruct (findings_failure_round d e3 2 st2 F2)
    as (F3 & R3 & Q3 & D3 & C3 & P3 & N3); [unfold Query.retry; lia|].
  fold (failure e3) in F3, R3, Q3, D3, C3, P3, N3.
  rewrite <- E3 in F3, R3, Q3, D3, C3, P3, N3.
  clearbody st1 st2 st3.
  assert (Hd3 : Analysis.documentId st3 = Some d) by congruence.
  destruct (step_FindingsSettled_last d e4 _ st3 Hd3 F3)
    as (L1 & L2 & L3 & L4 & L5); [cbn; unfold Query.retry; lia|].
  fold st4 in L1, L2, L3, L4, L5.
  assert (Hrep : forall e s,
             Analysis.retried (Analysis.step e s) = Analysis.retried s ->
             Analysis.repeated e s = []).
  { intros e s H. unfold Analysis.repeated. rewrite H. apply skipn_all. }
  assert (Hst4 : Analysis.step (Analysis.FindingsRetry d) st4 = st4).
  { assert (Hh : Analysis.handle (Analysis.FindingsRetry d) st4 = st4).
    { cbn [Analysis.handle]. unfold Analysis.findingsRetry, Query.retryDue.
      now rewrite L3. }
    rewrite step_same_queries; rewrite Hh; reflexivity. }
  split; [|split; [|split; [|split; [|split; [|split; [|split; [|split;
    [|split; [|split; [|split]]]]]]]]]].
  - rewrite R3, R2, R1, <- !app_assoc. reflexivity.
  - congruence.
  - unfold Analysis.findingsError. congruence.
  - congruence.
  - unfold Query.fetching. now rewrite F3.
  - exact L1.
  - rewrite L2. congruence.
  - unfold Query.fetching. now rewrite L3.
  - congruence.
  - apply Hrep. exact L4.
  - apply Hrep. now rewrite Hst4.
  - unfold Analysis.emitted, Analysis.newRequests. rewrite Hst4.
    apply skipn_all.
Qed.

Lemma failing_findings_fetch_is_attempted_four_times_witness :
  let e := AxiosError.mk "Network Error" JS.Undefined in
  let st := Analysis.step Analysis.FindingsAuto Scenario.completed in
  let failure :=
    [Analysis.FindingsSettled "abc123" (Rejected e);
     Analysis.FindingsRetry "abc123"] in
  let get := Request.mk ViaApi GET "/findings/abc123" NoBody in
  Analysis.retried (Analysis.run (failure ++ failure ++ failure) st)
  = Analysis.retried st ++ [get; get; get].
Proof.
  intros e st failure get.
  apply (failing_findings_fetch_is_attempted_four_times
           "abc123" e e e e st);
    vm_compute; reflexivity.
Defined.

(** ** The timers of the upload mutation *)

Section Timers.
Import Analysis.

Lemma Timer_eqb_sym : forall a b, Timer.eqb a b = Timer.eqb b a.
Proof. intros [m|m|m|m] [n|n|n|n]; cbn; try reflexivity; apply Nat.eqb_sym. Qed.

Lemma existsb_filter_false :
  forall (A : Type) (p g : A -> bool) (l : list A),
    existsb p l = false -> existsb p (filter g l) = false.
Proof.
  intros A p g l. induction l as [|x l IH]; cbn; [reflexivity|].
  intro H. apply orb_false_iff in H. destruct H as [Hx Hl].
  destruct (g x); cbn; [rewrite Hx|]; now apply IH.
Qed.

Lemma timerSet_cleared :
  forall t (l : list Timer.t),
    existsb (Timer.eqb t) (filter (fun t' => negb (Timer.eqb t' t)) l)
    = false.
Proof.
  intros t l. induction l as [|x l IH]; cbn; [reflexivity|].
  destruct (Timer.eqb x t) eqn:E; cbn; [exact IH|].
  now rewrite Timer_eqb_sym, E, IH.
Qed.

(** A timer event is its callback: no effect and no fetch follows. *)
Lemma step_TimerFired :
  forall t st, step (TimerFired t) st = timerFired t st.
Proof.
  intros t st.
  destruct (timerFired_keeps_queries t st) as (H1 & H2 & H3 & H4).
  now apply step_same_queries.
Qed.

End Timers.

(** X28. The timers of the upload mutation only animate the page: no timer
    issues a request, shows a toast or changes the flags and the document
    id, and a timer that is not set does nothing.  A tick of the upload
    interval adds 5 to the upload progress while it is below 30, and at 30
    or above sets it to 30 and clears the interval; a tick of the embedding
    interval does the same with 2 and 75.  The embedding timeout completes
    the step embedding-generation, clears the embedding interval and sets
    the upload progress to 75; the vector store timeout completes the step
    vector-store; each of the two fires once. *)
Theorem upload_timers_animate_the_progress :
  forall (m : nat) (st : Analysis.State),
    let fire t := Analysis.step (Analysis.TimerFired t) st in
    let complete id message :=
      map (fun step =>
             if String.eqb (ProcessStep.id step) id
             then ProcessStep.update ProcessStep.completed message
                    ProcessStep.CheckCircle2 step
             else step) in
    (forall t,
        Analysis.emitted (Analysis.TimerFired t) st = []
        /\ Analysis.toasts (fire t) = Analysis.toasts st
        /\ Analysis.analysisState (fire t) = Analysis.analysisState st
        /\ (Analysis.timerSet t st = false -> fire t = st))
    /\ (Analysis.timerSet (Timer.UploadInterval m) st = true ->
        Analysis.uploadProgress (fire (Timer.UploadInterval m))
        = (if Analysis.uploadProgress st >=? 30 then 30
           else Analysis.uploadProgress st + 5)
        /\ Analysis.timerSet (Timer.UploadInterval m)
             (fire (Timer.UploadInterval m))
           = negb (Analysis.uploadProgress st >=? 30)
        /\ Analysis.processSteps (fire (Timer.UploadInterval m))
           = Analysis.processSteps st)
    /\ (Analysis.timerSet (Timer.EmbeddingInterval m) st = true ->
        Analysis.uploadProgress (fire (Timer.EmbeddingInterval m))
        = (if Analysis.uploadProgress st >=? 75 then 75
           else Analysis.uploadProgress st + 2)
        /\ Analysis.timerSet (Timer.EmbeddingInterval m)
             (fire (Timer.EmbeddingInterval m))
           = negb (Analysis.uploadProgress st >=? 75)
        /\ Analysis.processSteps (fire (Timer.EmbeddingInterval m))
           = Analysis.processSteps st)
    /\ (Analysis.timerSet (Timer.EmbeddingTimeout m) st = true ->
        Analysis.uploadProgress (fire (Timer.EmbeddingTimeout m)) = 75
        /\ Analysis.timerSet (Timer.EmbeddingTimeout m)
             (fire (Timer.EmbeddingTimeout m)) = false
        /\ Analysis.timerSet (Timer.EmbeddingInterval m)
             (fire (Timer.EmbeddingTimeout m)) = false
        /\ Analysis.processSteps (fire (Timer.EmbeddingTimeout m))
           = complete "embedding-generation"%string
               "Document embeddings generated successfully."%string
               (Analysis.processSteps st))
    /\ (Analysis.timerSet (Timer.VectorStoreTimeout m) st = true ->
        Analysis.uploadProgress (fire (Timer.VectorStoreTimeout m))
        = Analysis.uploadProgress st
        /\ Analysis.timerSet (Timer.VectorStoreTimeout m)
             (fire (Timer.VectorStoreTimeout m)) = false
        /\ Analysis.processSteps (fire (Timer.VectorStoreTimeout m))
           = complete "vector-store"%string
               "Document chunks stored in vector database."%string
               (Analysis.processSteps st)).
Proof.
  intros m st fire complete. unfold fire, complete.
  split; [|split; [|split; [|split]]].
  - intro t. unfold Analysis.emitted, Analysis.newRequests.
    rewrite step_TimerFired, requests_timerFired.
    split; [apply skipn_all|].
    unfold Analysis.timerFired.
    destruct (Analysis.timerSet t st); [|repeat split].
    destruct t; repeat split; try discriminate;
      match goal with
      | |- context [if ?c then _ else _] => destruct c
      end; reflexivity.
  - intro Hset. rewrite step_TimerFired. unfold Analysis.timerFired.
    rewrite Hset.
    destruct (Analysis.uploadProgress st >=? 30); cbn [negb].
    + repeat split. unfold Analysis.timerSet, Analysis.clearTimer.
      cbn [Analysis.timers Analysis.setUploadProgress Analysis.setTimers].
      apply timerSet_cleared.
    + repeat split. exact Hset.
  - intro Hset. rewrite step_TimerFired. unfold Analysis.timerFired.
    rewrite Hset.
    destruct (Analysis.uploadProgress st >=? 75); cbn [negb].
    + repeat split. unfold Analysis.timerSet, Analysis.clearTimer.
      cbn [Analysis.timers Analysis.setUploadProgress Analysis.setTimers].
      apply timerSet_cleared.
    + repeat split. exact Hset.
  - intro Hset. rewrite step_TimerFired. unfold Analysis.timerFired.
    rewrite Hset. repeat split.
    + unfold Analysis.timerSet, Analysis.clearTimer,
        Analysis.updateProcessStep.
      cbn [Analysis.timers Analysis.setUploadProgress Analysis.setTimers
           Analysis.setProcessSteps].
      apply existsb_filter_false, timerSet_cleared.
    + unfold Analysis.timerSet, Analysis.clearTimer,
        Analysis.updateProcessStep.
      cbn [Analysis.timers Analysis.setUploadProgress Analysis.setTimers
           Analysis.setProcessSteps].
      apply timerSet_cleared.
  - intro Hset. rewrite step_TimerFired. unfold Analysis.timerFired.
    rewrite Hset. repeat split.
    unfold Analysis.timerSet, Analysis.clearTimer,
      Analysis.updateProcessStep.
    cbn [Analysis.timers Analysis.setTimers Analysis.setProcessSteps].
    apply timerSet_cleared.
Qed.

Lemma upload_timers_animate_the_progress_witness :
  Analysis.timerSet (Timer.EmbeddingTimeout 0) Scenario.uploaded = true
  /\ Analysis.uploadProgress
       (Analysis.step (Analysis.TimerFired (Timer.EmbeddingTimeout 0))
          Scenario.uploaded) = 75
  /\ Analysis.uploadProgress
       (Analysis.step (Analysis.TimerFired (Timer.EmbeddingInterval 0))
          Scenario.uploaded) = 52.
Proof.
  destruct (upload_timers_animate_the_progress 0 Scenario.uploaded)
    as (_ & _ & H2 & H3 & _).
  split; [reflexivity|]. split.
  - apply H3. reflexivity.
  - destruct H2 as (H & _); [reflexivity|]. exact H.
Defined.

(** ** The viewer follows the page *)

Lemma documentId_runEffect :
  forall v, PDFViewer.documentId (PDFViewer.runEffect v)
            = PDFViewer.documentId v.
Proof.
  intro v. unfold PDFViewer.runEffect.
  now destruct (JS.truthy_opt (PDFViewer.documentId v)).
Qed.

Lemma documentId_withDocumentId :
  forall d v, PDFViewer.documentId (PDFViewer.withDocumentId d v) = d.
Proof.
  intros d v. unfold PDFViewer.withDocumentId.
  destruct d as [x|], (PDFViewer.documentId v) as [y|];
    try destruct (String.eqb x y);
    rewrite ?documentId_runEffect; reflexivity.
Qed.

(** After every render the viewer has the document id of the page. *)
Lemma inStep_render :
  forall page before,
    Screen.inStep (Screen.mkState page (Screen.render page before)).
Proof.
  intros page before v. cbn [Screen.viewer Screen.page].
  unfold Screen.render.
  destruct (Analysis.showsUploadInterface page); [discriminate|].
  intros [= <-]. destruct before as [v0|].
  - apply documentId_withDocumentId.
  - unfold PDFViewer.mount. now rewrite documentId_runEffect.
Qed.

(** So it has in every state the screen reaches. *)
Lemma inStep_run :
  forall events stored now,
    Screen.inStep (Screen.run events (Screen.mount stored now)).
Proof.
  intros events stored now.
  assert (H0 : Screen.inStep (Screen.mount stored now))
    by apply inStep_render.
  revert H0. generalize (Screen.mount stored now).
  induction events as [|e events IH]; intros st H; [exact H|].
  cbn [Screen.run fold_left]. apply IH. apply inStep_render.
Qed.
